(** * Extraction parsers of the mobile-store scraper: a shallow embedding

    The parsers under [src/parsers] turn an iTunes JSON answer or a Google
    Play HTML page into plain JavaScript records.  They are embedded here as
    Rocq functions over a small model of the JavaScript values they handle:

    - [JS]       values, numbers, exceptions, property access, string helpers;
    - [Regex]    the backtracking matcher behind [match], [matchAll], [replace];
    - [Json]     [JSON.parse];
    - [Control]  notation, loops and object literals shared by the parsers;
    - [AppStore], [GooglePlay]   the parsers themselves, one definition per
      source function, under the source's names;
    - [Candidates]  the reviews parser read as a stream of candidates;
    - [Samples]  the documents and predicates the statements use;
    - [AppStoreFeeds], [GooglePlayPages]   the remaining parsers: feed
      reviews, version history, privacy, rankings, similar apps, data safety;
    - [Urls], [AppStoreUrls], [GooglePlayUrls]   the URL builders that use
      template literals only;
    - [HttpClient]  [fetchWithRetry] over the outcomes of its attempts.

    Modelling conventions.  A string is a sequence of 8-bit code units (the
    Latin-1 part of UTF-16).  A number is NaN, an infinity or an exact
    rational: apart from [parseInt], which rounds as the engine does,
    rounding and overflow of binary64 and the sign of zero are not
    represented.  Objects are association lists in insertion order.  An
    exception is the [Throw] case of [result]; [try]/[catch] is
    [try_catch]. *)

From Stdlib Require Import String Ascii List ZArith QArith Qabs Bool Lia Arith DecimalString
  Permutation.
Import ListNotations.
Close Scope Q_scope.
Open Scope string_scope.

(* ================================================================== *)
(** ** JavaScript values *)
(* ================================================================== *)

Module JS.

Inductive number :=
| NaN
| Inf (neg : bool)
| Fin (q : Q).

Definition fin (q : Q) : number := Fin (Qred q).
Definition ofZ (z : Z) : number := Fin (z # 1).
Definition ofNat (n : nat) : number := ofZ (Z.of_nat n).

#[warnings="-register-all"]
Inductive value :=
| VUndefined
| VNull
| VBool (b : bool)
| VNum (n : number)
| VStr (s : string)
| VArr (items : list value)
| VObj (fields : list (string * value)).

Inductive exn := TypeError | SyntaxError.

Inductive result (A : Type) :=
| Ok (a : A)
| Throw (e : exn).
Arguments Ok {A} a.
Arguments Throw {A} e.

Definition bind {A B : Type} (r : result A) (f : A -> result B) : result B :=
  match r with
  | Ok a => f a
  | Throw e => Throw e
  end.

Definition try_catch {A : Type} (body : result A) (handler : exn -> result A) : result A :=
  match body with
  | Ok a => Ok a
  | Throw e => handler e
  end.

Definition num (z : Z) : value := VNum (ofZ z).

(** *** Characters *)

Definition dq : ascii := ascii_of_nat 34.

Definition code (c : ascii) : nat := nat_of_ascii c.

Definition between (lo hi n : nat) : bool := (lo <=? n)%nat && (n <=? hi)%nat.

(** White space and line terminators below U+0100 ([trim], [\s]). *)
Definition is_space (c : ascii) : bool :=
  let n := code c in between 9 13 n || (n =? 32)%nat || (n =? 160)%nat.

Definition is_digit (c : ascii) : bool := between 48 57 (code c).

Definition is_word (c : ascii) : bool :=
  let n := code c in
  between 48 57 n || between 65 90 n || between 97 122 n || (n =? 95)%nat.

Definition lower_char (c : ascii) : ascii :=
  let n := code c in
  if between 65 90 n || (between 192 222 n && negb (n =? 215)%nat)
  then ascii_of_nat (n + 32) else c.

(** Canonicalize of a case-insensitive pattern: the upper-case form when it
    is a single code unit of the same range. *)
Definition canon_char (c : ascii) : ascii :=
  let n := code c in
  if between 97 122 n || (between 224 254 n && negb (n =? 247)%nat)
  then ascii_of_nat (n - 32) else c.

(** *** Strings *)

Fixpoint smap (f : ascii -> ascii) (s : string) : string :=
  match s with
  | EmptyString => EmptyString
  | String c r => String (f c) (smap f r)
  end.

Definition toLowerCase (s : string) : string := smap lower_char s.

Fixpoint trimStart (s : string) : string :=
  match s with
  | String c r => if is_space c then trimStart r else s
  | EmptyString => EmptyString
  end.

Fixpoint srev_onto (s acc : string) : string :=
  match s with
  | EmptyString => acc
  | String c r => srev_onto r (String c acc)
  end.

Definition srev (s : string) : string := srev_onto s EmptyString.

Definition trimEnd (s : string) : string := srev (trimStart (srev s)).

Definition trim (s : string) : string := trimEnd (trimStart s).

Fixpoint startsWith (s p : string) : bool :=
  match p, s with
  | EmptyString, _ => true
  | String a p', String b s' => Ascii.eqb a b && startsWith s' p'
  | String _ _, EmptyString => false
  end.

Fixpoint includes (s p : string) : bool :=
  startsWith s p ||
  match s with
  | EmptyString => false
  | String _ r => includes r p
  end.

Fixpoint sdrop (n : nat) (s : string) : string :=
  match n, s with
  | O, _ => s
  | S n', String _ r => sdrop n' r
  | S _, EmptyString => EmptyString
  end.

Fixpoint stake (n : nat) (s : string) : string :=
  match n, s with
  | S n', String c r => String c (stake n' r)
  | _, _ => EmptyString
  end.

(** [s.substring(0, n)] *)
Definition substring0 (n : nat) (s : string) : string := stake n s.

(** Replaces every back-quote by a double quote: documents and patterns
    below are written with back-quotes where the source has double quotes. *)
Definition bq (s : string) : string :=
  smap (fun c => if Ascii.eqb c "`"%char then dq else c) s.

(** *** Numbers *)

Definition num_truthy (n : number) : bool :=
  match n with
  | NaN => false
  | Inf _ => true
  | Fin q => negb (Qnum q =? 0)%Z
  end.

Definition num_eq (a b : number) : bool :=
  match a, b with
  | Fin p, Fin q => Qeq_bool p q
  | Inf x, Inf y => Bool.eqb x y
  | _, _ => false
  end.

Definition num_sub (a b : number) : number :=
  match a, b with
  | NaN, _ | _, NaN => NaN
  | Fin p, Fin q => fin (Qminus p q)
  | Inf x, Inf y => if Bool.eqb x y then NaN else Inf x
  | Inf x, Fin _ => Inf x
  | Fin _, Inf y => Inf (negb y)
  end.

(** Sign of a comparator's result, as [sort] reads it: NaN counts as 0. *)
Definition num_sign (n : number) : comparison :=
  match n with
  | NaN => Eq
  | Inf neg => if neg then Lt else Gt
  | Fin q => (Qnum q ?= 0)%Z
  end.

Definition digits_of_N (n : N) : string := NilZero.string_of_uint (N.to_uint n).

Fixpoint zeros (n : nat) : string :=
  match n with
  | O => EmptyString
  | S n' => String "0" (zeros n')
  end.

Fixpoint strip_zeros_rev (s : string) : string :=
  match s with
  | String c r => if Ascii.eqb c "0"%char then strip_zeros_rev r else s
  | EmptyString => EmptyString
  end.

(** Least [k <= fuel] with [den] dividing [10^k] ([fuel] when there is none). *)
Fixpoint dec_scale (fuel : nat) (k : nat) (den : Z) : nat :=
  match fuel with
  | O => k
  | S f => if (Z.pow 10 (Z.of_nat k) mod den =? 0)%Z then k else dec_scale f (S k) den
  end.

(** Decimal digits [s] and exponent [n] of a positive rational:
    the value is [0.s * 10^n], [s] without trailing zeros. *)
Definition dec_repr (q : Q) : string * Z :=
  let den := Z.pos (Qden q) in
  let k := dec_scale (Pos.size_nat (Qden q)) 0 den in
  let m := (Z.abs (Qnum q) * Z.pow 10 (Z.of_nat k) / den)%Z in
  let ds := digits_of_N (Z.to_N m) in
  let s := srev (strip_zeros_rev (srev ds)) in
  (s, (Z.of_nat (String.length ds) - Z.of_nat k)%Z).

Definition exp_suffix (e : Z) : string :=
  "e" ++ (if (e <? 0)%Z then "-" else "+") ++ digits_of_N (Z.to_N (Z.abs e)).

(** Number::toString, radix 10. *)
Definition num_to_string (x : number) : string :=
  match x with
  | NaN => "NaN"
  | Inf neg => if neg then "-Infinity" else "Infinity"
  | Fin q =>
      if (Qnum q =? 0)%Z then "0" else
      let sign := if (Qnum q <? 0)%Z then "-" else "" in
      let '(s, n) := dec_repr q in
      let k := Z.of_nat (String.length s) in
      sign ++
      (if (k <=? n)%Z && (n <=? 21)%Z then s ++ zeros (Z.to_nat (n - k))
       else if (0 <? n)%Z && (n <=? 21)%Z then
         stake (Z.to_nat n) s ++ "." ++ sdrop (Z.to_nat n) s
       else if (-6 <? n)%Z && (n <=? 0)%Z then
         "0." ++ zeros (Z.to_nat (- n)) ++ s
       else if (k =? 1)%Z then s ++ exp_suffix (n - 1)
       else stake 1 s ++ "." ++ sdrop 1 s ++ exp_suffix (n - 1))
  end.

(** [x.toFixed(1)] of the exact rational: where the engine holds the
    binary64 number next to a decimal such as 4.35, its last digit can
    differ from this one. *)
Definition toFixed1 (x : number) : string :=
  match x with
  | Fin q =>
      let a := Qabs q in
      if Qle_bool (Z.pow 10 21 # 1) a then num_to_string x else
      let n := ((2 * Qnum a * 10 + Z.pos (Qden a)) / (2 * Z.pos (Qden a)))%Z in
      let ds := digits_of_N (Z.to_N n) in
      let ds := if (String.length ds <? 2)%nat then "0" ++ ds else ds in
      let l := String.length ds in
      (if (Qnum q <? 0)%Z then "-" else "") ++ stake (l - 1) ds ++ "." ++ sdrop (l - 1) ds
  | _ => num_to_string x
  end.

Fixpoint span_digits (s : string) : string * string :=
  match s with
  | String c r =>
      if is_digit c then let '(d, t) := span_digits r in (String c d, t)
      else (EmptyString, s)
  | EmptyString => (EmptyString, EmptyString)
  end.

Fixpoint digits_value (s : string) (acc : Z) : Z :=
  match s with
  | String c r => digits_value r (acc * 10 + Z.of_nat (code c - 48))%Z
  | EmptyString => acc
  end.

Definition pow10 (e : Z) : Q :=
  if (e <? 0)%Z then 1 # Z.to_pos (Z.pow 10 (- e)) else (Z.pow 10 e # 1).

(** Longest prefix that is an unsigned decimal literal (digits, fraction,
    exponent): its value and the rest of the string. *)
Definition scan_unsigned (s : string) : option (Q * string) :=
  let '(ip, r1) := span_digits s in
  let '(fp, r2) :=
    match r1 with
    | String "." r => let '(f, t) := span_digits r in
                      if (ip =? "") && (f =? "") then (EmptyString, r1) else (f, t)
    | _ => (EmptyString, r1)
    end in
  if (ip =? "") && (fp =? "") then None else
  let '(e, r3) :=
    match r2 with
    | String c r =>
        if Ascii.eqb c "e"%char || Ascii.eqb c "E"%char then
          let '(neg, r') :=
            match r with
            | String "-" t => (true, t)
            | String "+" t => (false, t)
            | _ => (false, r)
            end in
          let '(ed, t) := span_digits r' in
          if ed =? "" then (0%Z, r2)
          else ((if neg then - digits_value ed 0 else digits_value ed 0)%Z, t)
        else (0%Z, r2)
    | EmptyString => (0%Z, r2)
    end in
  let m := digits_value (ip ++ fp) 0 in
  Some (Qmult (m # 1) (pow10 (e - Z.of_nat (String.length fp))), r3).

Definition scan_signed (s : string) : option (number * string) :=
  let '(neg, r) :=
    match s with
    | String "-" t => (true, t)
    | String "+" t => (false, t)
    | _ => (false, s)
    end in
  if startsWith r "Infinity" then Some (Inf neg, sdrop 8 r) else
  match scan_unsigned r with
  | Some (q, t) => Some (fin (if neg then Qopp q else q), t)
  | None => None
  end.

Definition parseFloat (s : string) : number :=
  match scan_signed (trimStart s) with
  | Some (n, _) => n
  | None => NaN
  end.

(** The binary64 number nearest to the natural number [n], ties to even,
    with the sign [neg]: [n] itself up to 53 bits, an infinity from
    2^1024 - 2^970 on. *)
Definition nearest_binary64 (neg : bool) (n : Z) : number :=
  let e := (Z.log2 n + 1 - 53)%Z in
  if (e <=? 0)%Z then ofZ (if neg then - n else n) else
  let q := Z.shiftr n e in
  let r := (n - Z.shiftl q e)%Z in
  let half := Z.shiftl 1 (e - 1) in
  let q' := if (half <? r)%Z || ((r =? half)%Z && Z.odd q) then (q + 1)%Z else q in
  let m := Z.shiftl q' e in
  if (Z.shiftl 1 1024 <=? m)%Z then Inf neg else ofZ (if neg then - m else m).

(** [parseInt(s, 10)]: the number nearest to the integer the digits spell
    (an engine may drop digits after the twentieth; this one keeps them). *)
Definition parseInt10 (s : string) : number :=
  let t := trimStart s in
  let '(neg, r) :=
    match t with
    | String "-" u => (true, u)
    | String "+" u => (false, u)
    | _ => (false, t)
    end in
  let '(d, _) := span_digits r in
  if d =? "" then NaN
  else nearest_binary64 neg (digits_value d 0).

Definition radix_digit (radix : nat) (c : ascii) : option nat :=
  let n := code c in
  let d := if between 48 57 n then Some (n - 48)
           else if between 97 102 n then Some (n - 87)
           else if between 65 70 n then Some (n - 55)
           else None in
  match d with
  | Some v => if (v <? radix)%nat then Some v else None
  | None => None
  end.

Fixpoint radix_value (radix : nat) (s : string) (acc : Z) : option Z :=
  match s with
  | String c r =>
      match radix_digit radix c with
      | Some d => radix_value radix r (acc * Z.of_nat radix + Z.of_nat d)%Z
      | None => None
      end
  | EmptyString => Some acc
  end.

(** StringToNumber *)
Definition string_to_number (s : string) : number :=
  let t := trim s in
  if t =? "" then ofZ 0 else
  let prefixed (radix : nat) :=
    match sdrop 2 t with
    | EmptyString => NaN
    | body => match radix_value radix body 0 with Some z => ofZ z | None => NaN end
    end in
  if startsWith t "0x" || startsWith t "0X" then prefixed 16
  else if startsWith t "0o" || startsWith t "0O" then prefixed 8
  else if startsWith t "0b" || startsWith t "0B" then prefixed 2
  else match scan_signed t with
       | Some (n, EmptyString) => n
       | _ => NaN
       end.

(** *** Truthiness, equality, conversions *)

Definition truthy (v : value) : bool :=
  match v with
  | VUndefined | VNull => false
  | VBool b => b
  | VNum n => num_truthy n
  | VStr s => negb (s =? "")
  | VArr _ | VObj _ => true
  end.

(** [a === b] where one side is a primitive (objects are compared by
    identity, and the parsers only compare against literals). *)
Definition strict_eq (a b : value) : bool :=
  match a, b with
  | VUndefined, VUndefined | VNull, VNull => true
  | VBool x, VBool y => Bool.eqb x y
  | VNum x, VNum y => num_eq x y
  | VStr x, VStr y => x =? y
  | _, _ => false
  end.

(** SameValueZero, the membership test of [Set]: as [===] except that NaN
    is equal to itself.  Values parsed from a document are fresh objects, so
    two of them are never the same. *)
Definition same_value_zero (a b : value) : bool :=
  match a, b with
  | VNum NaN, VNum NaN => true
  | _, _ => strict_eq a b
  end.

Definition set_has (seen : list value) (k : value) : bool :=
  existsb (same_value_zero k) seen.

Definition isArray (v : value) : bool :=
  match v with VArr _ => true | _ => false end.

Definition isString (v : value) : bool :=
  match v with VStr _ => true | _ => false end.

(** [typeof v === 'object'] *)
Definition typeof_object (v : value) : bool :=
  match v with VNull | VArr _ | VObj _ => true | _ => false end.

Fixpoint assoc (k : string) (fs : list (string * value)) : option value :=
  match fs with
  | [] => None
  | (k', v) :: r => if k =? k' then Some v else assoc k r
  end.

Definition has_key (k : string) (v : value) : bool :=
  match v with
  | VObj fs => match assoc k fs with Some _ => true | None => false end
  | _ => false
  end.

(** [v.k] for the property names the parsers read; none of them names a
    built-in method, so apart from [length] only own properties answer. *)
Definition getp (v : value) (k : string) : result value :=
  match v with
  | VUndefined | VNull => Throw TypeError
  | VObj fs => Ok (match assoc k fs with Some x => x | None => VUndefined end)
  | VArr l => Ok (if k =? "length" then VNum (ofNat (List.length l)) else VUndefined)
  | VStr s => Ok (if k =? "length" then VNum (ofNat (String.length s)) else VUndefined)
  | VBool _ | VNum _ => Ok VUndefined
  end.

(** [v[i]] for an index [i]. *)
Definition geti (v : value) (i : nat) : result value :=
  match v with
  | VUndefined | VNull => Throw TypeError
  | VObj fs => Ok (match assoc (digits_of_N (N.of_nat i)) fs with
                   | Some x => x | None => VUndefined end)
  | VArr l => Ok (nth i l VUndefined)
  | VStr s => Ok (match String.get i s with
                  | Some c => VStr (String c EmptyString) | None => VUndefined end)
  | VBool _ | VNum _ => Ok VUndefined
  end.

(** [v?.k] *)
Definition getp_opt (v : value) (k : string) : result value :=
  match v with
  | VUndefined | VNull => Ok VUndefined
  | _ => getp v k
  end.

(** [a || b] *)
Definition or_else (a b : result value) : result value :=
  bind a (fun x => if truthy x then Ok x else b).

(** ToString.  An object parsed from JSON that has an own [toString]
    property holds a value that cannot be called. *)
Fixpoint to_string (v : value) : result string :=
  match v with
  | VUndefined => Ok "undefined"
  | VNull => Ok "null"
  | VBool b => Ok (if b then "true" else "false")
  | VNum n => Ok (num_to_string n)
  | VStr s => Ok s
  | VArr l =>
      (fix join (l : list value) (first : bool) : result string :=
         match l with
         | [] => Ok ""
         | x :: r =>
             bind (match x with
                   | VUndefined | VNull => Ok ""
                   | _ => to_string x
                   end) (fun sx =>
             bind (join r false) (fun sr =>
             Ok ((if first then "" else ",") ++ sx ++ sr)))
         end) l true
  | VObj fs =>
      match assoc "toString" fs with
      | Some _ => Throw TypeError
      | None => Ok "[object Object]"
      end
  end.

(** [v.toString()] *)
Definition call_toString (v : value) : result value :=
  match v with
  | VUndefined | VNull => Throw TypeError
  | _ => bind (to_string v) (fun s => Ok (VStr s))
  end.

(** ToNumber *)
Definition to_number (v : value) : result number :=
  match v with
  | VUndefined => Ok NaN
  | VNull => Ok (ofZ 0)
  | VBool b => Ok (ofZ (if b then 1 else 0))
  | VNum n => Ok n
  | VStr s => Ok (string_to_number s)
  | VArr _ | VObj _ => bind (to_string v) (fun s => Ok (string_to_number s))
  end.

(** [Array.prototype.sort(cmp)]: a stable sort; [cmp a b] is the sign of the
    comparator's result, [Gt] meaning that [a] goes after [b].  Every stable
    sort gives this list when the comparator is a consistent order. *)
Fixpoint insert_sorted {A : Type} (cmp : A -> A -> comparison) (x : A) (l : list A) : list A :=
  match l with
  | [] => [x]
  | y :: r =>
      match cmp x y with
      | Gt => y :: insert_sorted cmp x r
      | _ => x :: l
      end
  end.

Definition sort_by {A : Type} (cmp : A -> A -> comparison) (l : list A) : list A :=
  fold_right (insert_sorted cmp) [] l.

End JS.

(* ================================================================== *)
(** ** Regular expressions *)
(* ================================================================== *)

Module Regex.
Import JS.

Inductive citem :=
| CRange (lo hi : ascii)
| CSpace (neg : bool)
| CDigit (neg : bool)
| CWord (neg : bool).

Inductive node :=
| NFail
| NEmpty
| NChar (c : ascii)
| NAny (dotall : bool)
| NSet (neg : bool) (items : list citem)
| NSeq (a b : node)
| NAlt (a b : node)
| NRep (min : nat) (max : option nat) (greedy : bool) (a : node)
| NGroup (idx : nat) (a : node).

Record regex := mkRegex { re_node : node; re_icase : bool }.

(** *** Reading a pattern

    [parse_disj], [parse_alt], [parse_term] and [parse_atom] follow the
    grammar Disjunction / Alternative / Term / Atom of the patterns the
    parsers use: literals, escapes, classes, groups, alternation and the
    quantifiers [*], [+], [?], [{n,}], [{n,m}], greedy or lazy. *)

Definition class_escape (c : ascii) : option citem :=
  if Ascii.eqb c "s" then Some (CSpace false)
  else if Ascii.eqb c "S" then Some (CSpace true)
  else if Ascii.eqb c "d" then Some (CDigit false)
  else if Ascii.eqb c "D" then Some (CDigit true)
  else if Ascii.eqb c "w" then Some (CWord false)
  else if Ascii.eqb c "W" then Some (CWord true)
  else None.

Definition char_escape (c : ascii) : option ascii :=
  if Ascii.eqb c "n" then Some (ascii_of_nat 10)
  else if Ascii.eqb c "r" then Some (ascii_of_nat 13)
  else if Ascii.eqb c "t" then Some (ascii_of_nat 9)
  else if Ascii.eqb c "f" then Some (ascii_of_nat 12)
  else if Ascii.eqb c "v" then Some (ascii_of_nat 11)
  else if is_word c then None
  else Some c.

(** One class atom: a character or an escape. *)
Definition class_atom (s : string) : option ((ascii + citem) * string) :=
  match s with
  | String "\" (String c r) =>
      match class_escape c with
      | Some it => Some (inr it, r)
      | None => match char_escape c with
                | Some a => Some (inl a, r)
                | None => None
                end
      end
  | String c r => Some (inl c, r)
  | EmptyString => None
  end.

Fixpoint parse_class (fuel : nat) (s : string) (acc : list citem) : option (list citem * string) :=
  match fuel with
  | O => None
  | S f =>
      match s with
      | String "]" r => Some (rev acc, r)
      | _ =>
          match class_atom s with
          | Some (inr it, r) => parse_class f r (it :: acc)
          | Some (inl lo, String "-" r) =>
              match r with
              | String "]" _ => parse_class f (String "-" r) (CRange lo lo :: acc)
              | _ => match class_atom r with
                     | Some (inl hi, r') => parse_class f r' (CRange lo hi :: acc)
                     | _ => None
                     end
              end
          | Some (inl lo, r) => parse_class f r (CRange lo lo :: acc)
          | None => None
          end
      end
  end.

(** A quantifier at the head of [s]: its bounds, its greediness, the rest. *)
Definition parse_quant (s : string) : option (nat * option nat * bool * string) :=
  let lazy (r : string) : bool * string :=
    match r with
    | String "?" r' => (false, r')
    | _ => (true, r)
    end in
  match s with
  | String "*" r => let '(g, r') := lazy r in Some (0, None, g, r')
  | String "+" r => let '(g, r') := lazy r in Some (1, None, g, r')
  | String "?" r => let '(g, r') := lazy r in Some (0, Some 1, g, r')
  | String "{" r =>
      let '(lo, r1) := span_digits r in
      if lo =? "" then None else
      let lo := Z.to_nat (digits_value lo 0) in
      match r1 with
      | String "}" r2 => let '(g, r') := lazy r2 in Some (lo, Some lo, g, r')
      | String "," r2 =>
          let '(hi, r3) := span_digits r2 in
          match r3 with
          | String "}" r4 =>
              let '(g, r') := lazy r4 in
              Some (lo, (if hi =? "" then None else Some (Z.to_nat (digits_value hi 0))), g, r')
          | _ => None
          end
      | _ => None
      end
  | _ => None
  end.

Fixpoint parse_disj (fuel : nat) (dotall : bool) (s : string) (g : nat)
  : option (node * string * nat) :=
  match fuel with
  | O => None
  | S f =>
      match parse_alt f dotall s g with
      | Some (a, String "|" r, g1) =>
          match parse_disj f dotall r g1 with
          | Some (b, r', g2) => Some (NAlt a b, r', g2)
          | None => None
          end
      | other => other
      end
  end
with parse_alt (fuel : nat) (dotall : bool) (s : string) (g : nat)
  : option (node * string * nat) :=
  match fuel with
  | O => None
  | S f =>
      match s with
      | EmptyString | String "|" _ | String ")" _ => Some (NEmpty, s, g)
      | _ =>
          match parse_term f dotall s g with
          | Some (a, r, g1) =>
              match parse_alt f dotall r g1 with
              | Some (NEmpty, r', g2) => Some (a, r', g2)
              | Some (b, r', g2) => Some (NSeq a b, r', g2)
              | None => None
              end
          | None => None
          end
      end
  end
with parse_term (fuel : nat) (dotall : bool) (s : string) (g : nat)
  : option (node * string * nat) :=
  match fuel with
  | O => None
  | S f =>
      match parse_atom f dotall s g with
      | Some (a, r, g1) =>
          match parse_quant r with
          | Some (lo, hi, greedy, r') => Some (NRep lo hi greedy a, r', g1)
          | None => Some (a, r, g1)
          end
      | None => None
      end
  end
with parse_atom (fuel : nat) (dotall : bool) (s : string) (g : nat)
  : option (node * string * nat) :=
  match fuel with
  | O => None
  | S f =>
      match s with
      | String "(" (String "?" (String ":" r)) =>
          match parse_disj f dotall r g with
          | Some (a, String ")" r', g1) => Some (a, r', g1)
          | _ => None
          end
      | String "(" r =>
          match parse_disj f dotall r (S g) with
          | Some (a, String ")" r', g1) => Some (NGroup (S g) a, r', g1)
          | _ => None
          end
      | String "." r => Some (NAny dotall, r, g)
      | String "[" (String "^" r) =>
          match parse_class (S (String.length r)) r [] with
          | Some (items, r') => Some (NSet true items, r', g)
          | None => None
          end
      | String "[" r =>
          match parse_class (S (String.length r)) r [] with
          | Some (items, r') => Some (NSet false items, r', g)
          | None => None
          end
      | String "\" (String c r) =>
          match class_escape c with
          | Some it => Some (NSet false [it], r, g)
          | None => match char_escape c with
                    | Some a => Some (NChar a, r, g)
                    | None => None
                    end
          end
      | String c r =>
          if Ascii.eqb c "*" || Ascii.eqb c "+" || Ascii.eqb c "?" || Ascii.eqb c ")"
             || Ascii.eqb c "|" || Ascii.eqb c "\" || Ascii.eqb c "^" || Ascii.eqb c "$"
          then None else Some (NChar c, r, g)
      | EmptyString => None
      end
  end.

Definition has_flag (flags : string) (c : ascii) : bool :=
  includes flags (String c EmptyString).

(** [re pattern flags] is the regular expression literal [/pattern/flags],
    with back-quotes standing for double quotes; a pattern outside the
    grammar above gives the expression that matches nothing. *)
Definition re (pattern flags : string) : regex :=
  let p := bq pattern in
  match parse_disj (4 * String.length p + 8) (has_flag flags "s") p 0 with
  | Some (n, EmptyString, _) => mkRegex n (has_flag flags "i")
  | _ => mkRegex NFail false
  end.

Definition well_formed (r : regex) : bool :=
  match re_node r with NFail => false | _ => true end.

(** *** Matching *)

Definition caps := list (nat * string).

Fixpoint cap_get (i : nat) (c : caps) : option string :=
  match c with
  | [] => None
  | (j, t) :: r => if (i =? j)%nat then Some t else cap_get i r
  end.

Definition cap_clear (ids : list nat) (c : caps) : caps :=
  filter (fun p => negb (existsb (Nat.eqb (fst p)) ids)) c.

Definition cap_set (i : nat) (t : string) (c : caps) : caps :=
  (i, t) :: cap_clear [i] c.

Fixpoint groups_in (r : node) : list nat :=
  match r with
  | NSeq a b | NAlt a b => groups_in a ++ groups_in b
  | NRep _ _ _ a => groups_in a
  | NGroup i a => i :: groups_in a
  | _ => []
  end.

Definition char_eq (ic : bool) (a b : ascii) : bool :=
  if ic then Ascii.eqb (canon_char a) (canon_char b) else Ascii.eqb a b.

Definition item_has (it : citem) (c : ascii) : bool :=
  match it with
  | CRange lo hi => between (code lo) (code hi) (code c)
  | CSpace neg => xorb neg (is_space c)
  | CDigit neg => xorb neg (is_digit c)
  | CWord neg => xorb neg (is_word c)
  end.

Definition set_has_char (ic : bool) (items : list citem) (c : ascii) : bool :=
  existsb (fun it =>
    item_has it c || (ic && (item_has it (canon_char c) || item_has it (lower_char c))))
    items.

Definition is_line_terminator (c : ascii) : bool :=
  (code c =? 10)%nat || (code c =? 13)%nat.

Definition mstate : Type := string * nat * caps.

Definition or_opt {A : Type} (a b : option A) : option A :=
  match a with Some _ => a | None => b end.

(** [run ic r s n c k]: match [r] at the head of [s] (of length [n]) with
    captures [c], then continue with [k]; alternatives are tried in order
    and the first complete success is the answer. *)
Fixpoint run (ic : bool) (r : node) (s : string) (n : nat) (c : caps)
    (k : string -> nat -> caps -> option mstate) {struct r} : option mstate :=
  match r with
  | NFail => None
  | NEmpty => k s n c
  | NChar a =>
      match s with
      | String b s' => if char_eq ic a b then k s' (pred n) c else None
      | EmptyString => None
      end
  | NAny dotall =>
      match s with
      | String b s' => if dotall || negb (is_line_terminator b) then k s' (pred n) c else None
      | EmptyString => None
      end
  | NSet neg items =>
      match s with
      | String b s' => if xorb neg (set_has_char ic items b) then k s' (pred n) c else None
      | EmptyString => None
      end
  | NSeq a b => run ic a s n c (fun s' n' c' => run ic b s' n' c' k)
  | NAlt a b => or_opt (run ic a s n c k) (run ic b s n c k)
  | NGroup i a => run ic a s n c (fun s' n' c' => k s' n' (cap_set i (stake (n - n') s) c'))
  | NRep lo hi greedy a =>
      let inner := groups_in a in
      (fix rep (fuel lo : nat) (hi : option nat) (s : string) (n : nat) (c : caps)
           {struct fuel} : option mstate :=
         match fuel with
         | O => None
         | S fuel' =>
             match hi with
             | Some O => k s n c
             | _ =>
                 let again := fun s' n' c' =>
                   if (lo =? 0)%nat && (n' =? n)%nat then None
                   else rep fuel' (pred lo) (option_map pred hi) s' n' c' in
                 let c0 := cap_clear inner c in
                 if (lo =? 0)%nat then
                   if greedy then or_opt (run ic a s n c0 again) (k s n c)
                   else or_opt (k s n c) (run ic a s n c0 again)
                 else run ic a s n c0 again
             end
         end) (lo + n + 1) lo hi s n c
  end.

(** A match: where it starts, where it ends, its text and its groups. *)
Record mres := mkMres { m_index : nat; m_end : nat; m_text : string; m_caps : caps }.

Definition exec_at (r : regex) (s : string) (pos : nat) : option mres :=
  let n := String.length s in
  match run (re_icase r) (re_node r) s n [] (fun s' n' c' => Some (s', n', c')) with
  | Some (_, n', c') => Some (mkMres pos (pos + (n - n')) (stake (n - n') s) c')
  | None => None
  end.

(** First match in [s], whose first character is at index [pos]. *)
Fixpoint search (r : regex) (s : string) (pos : nat) : option mres :=
  match exec_at r s pos with
  | Some m => Some m
  | None =>
      match s with
      | String _ s' => search r s' (S pos)
      | EmptyString => None
      end
  end.

(** [s.match(r)] for an expression without the [g] flag. *)
Definition smatch (s : string) (r : regex) : option mres := search r s 0.

(** [m[i]] *)
Definition group (m : mres) (i : nat) : value :=
  match i with
  | O => VStr (m_text m)
  | _ => match cap_get i (m_caps m) with
         | Some t => VStr t
         | None => VUndefined
         end
  end.

(** The matches the iterator of a [g] expression yields: each search
    resumes where the previous match ended, one further on when it was
    empty. *)
Fixpoint matches_from (fuel : nat) (r : regex) (s : string) (pos : nat) : list mres :=
  match fuel with
  | O => []
  | S f =>
      match search r s pos with
      | Some m =>
          let next := if (m_end m =? m_index m)%nat then S (m_end m) else m_end m in
          m :: (if (pos + String.length s <? next)%nat then []
                else matches_from f r (sdrop (next - pos) s) next)
      | None => []
      end
  end.

(** [s.matchAll(r)]; every expression the parsers pass on carries [g]. *)
Definition matchAll (s : string) (r : regex) : list mres :=
  matches_from (S (String.length s)) r s 0.

Fixpoint splice (s : string) (pos : nat) (ms : list mres) (repl : string) : string :=
  match ms with
  | [] => s
  | m :: rest =>
      stake (m_index m - pos) s ++ repl ++
      splice (sdrop (m_end m - pos) s) (m_end m) rest repl
  end.

(** [s.replace(r, repl)] for a [g] expression and a replacement text
    without [$]. *)
Definition replaceAll (s : string) (r : regex) (repl : string) : string :=
  splice s 0 (matchAll s r) repl.

End Regex.

(* ================================================================== *)
(** ** JSON.parse *)
(* ================================================================== *)

Module Json.
Import JS.

Definition is_json_ws (c : ascii) : bool :=
  let n := code c in (n =? 32)%nat || (n =? 9)%nat || (n =? 10)%nat || (n =? 13)%nat.

Fixpoint skip_ws (s : string) : string :=
  match s with
  | String c r => if is_json_ws c then skip_ws r else s
  | EmptyString => EmptyString
  end.

Definition hex4 (a b c d : ascii) : option nat :=
  match radix_digit 16 a, radix_digit 16 b, radix_digit 16 c, radix_digit 16 d with
  | Some x, Some y, Some z, Some w => Some (((x * 16 + y) * 16 + z) * 16 + w)
  | _, _, _, _ => None
  end.

Definition simple_escape (e : ascii) : option ascii :=
  if Ascii.eqb e dq || Ascii.eqb e "\" || Ascii.eqb e "/" then Some e
  else if Ascii.eqb e "b" then Some (ascii_of_nat 8)
  else if Ascii.eqb e "f" then Some (ascii_of_nat 12)
  else if Ascii.eqb e "n" then Some (ascii_of_nat 10)
  else if Ascii.eqb e "r" then Some (ascii_of_nat 13)
  else if Ascii.eqb e "t" then Some (ascii_of_nat 9)
  else None.

(** The characters of a string literal after its opening quote.  A [\u]
    escape above 00FF names a code unit outside the modelled strings and is
    refused. *)
Fixpoint parse_chars (s : string) (acc : string) : option (string * string) :=
  match s with
  | EmptyString => None
  | String c r =>
      if Ascii.eqb c dq then Some (srev acc, r)
      else if Ascii.eqb c "\" then
        match r with
        | String "u" (String h1 (String h2 (String h3 (String h4 r')))) =>
            match hex4 h1 h2 h3 h4 with
            | Some n => if (n <? 256)%nat then parse_chars r' (String (ascii_of_nat n) acc)
                        else None
            | None => None
            end
        | String e r' =>
            match simple_escape e with
            | Some a => parse_chars r' (String a acc)
            | None => None
            end
        | EmptyString => None
        end
      else if (code c <? 32)%nat then None
      else parse_chars r (String c acc)
  end.

Definition parse_number (s : string) : option (number * string) :=
  let '(neg, r) := match s with String "-" t => (true, t) | _ => (false, s) end in
  let '(ip, r1) :=
    match r with
    | String "0" t => ("0", t)
    | _ => span_digits r
    end in
  if ip =? "" then None else
  let frac :=
    match r1 with
    | String "." t => let '(f, t') := span_digits t in
                      if f =? "" then None else Some (f, t')
    | _ => Some (EmptyString, r1)
    end in
  match frac with
  | None => None
  | Some (fp, r2) =>
      let expo :=
        match r2 with
        | String c t =>
            if Ascii.eqb c "e" || Ascii.eqb c "E" then
              let '(eneg, t1) :=
                match t with
                | String "-" u => (true, u)
                | String "+" u => (false, u)
                | _ => (false, t)
                end in
              let '(ed, t2) := span_digits t1 in
              if ed =? "" then None
              else Some ((if eneg then - digits_value ed 0 else digits_value ed 0)%Z, t2)
            else Some (0%Z, r2)
        | EmptyString => Some (0%Z, r2)
        end in
      match expo with
      | None => None
      | Some (e, r3) =>
          let m := digits_value (ip ++ fp) 0 in
          let q := Qmult (m # 1) (pow10 (e - Z.of_nat (String.length fp))) in
          Some (fin (if neg then Qopp q else q), r3)
      end
  end.

(** A repeated key keeps its place and takes the later value. *)
Fixpoint obj_set (k : string) (v : value) (fs : list (string * value)) : list (string * value) :=
  match fs with
  | [] => [(k, v)]
  | (k', v') :: r => if k =? k' then (k, v) :: r else (k', v') :: obj_set k v r
  end.

Fixpoint parse_value (fuel : nat) (s : string) : option (value * string) :=
  match fuel with
  | O => None
  | S f =>
      match skip_ws s with
      | EmptyString => None
      | String c r =>
          if Ascii.eqb c "{" then
            match skip_ws r with
            | String "}" r' => Some (VObj [], r')
            | _ => parse_members f r []
            end
          else if Ascii.eqb c "[" then
            match skip_ws r with
            | String "]" r' => Some (VArr [], r')
            | _ => parse_elements f r []
            end
          else if Ascii.eqb c dq then
            match parse_chars r EmptyString with
            | Some (t, r') => Some (VStr t, r')
            | None => None
            end
          else if startsWith (String c r) "true" then Some (VBool true, sdrop 3 r)
          else if startsWith (String c r) "false" then Some (VBool false, sdrop 4 r)
          else if startsWith (String c r) "null" then Some (VNull, sdrop 3 r)
          else
            match parse_number (String c r) with
            | Some (n, r') => Some (VNum n, r')
            | None => None
            end
      end
  end
with parse_elements (fuel : nat) (s : string) (acc : list value) : option (value * string) :=
  match fuel with
  | O => None
  | S f =>
      match parse_value f s with
      | Some (v, r) =>
          match skip_ws r with
          | String "," r' => parse_elements f r' (v :: acc)
          | String "]" r' => Some (VArr (rev (v :: acc)), r')
          | _ => None
          end
      | None => None
      end
  end
with parse_members (fuel : nat) (s : string) (acc : list (string * value)) : option (value * string) :=
  match fuel with
  | O => None
  | S f =>
      match skip_ws s with
      | String c r =>
          if Ascii.eqb c dq then
            match parse_chars r EmptyString with
            | Some (k, r1) =>
                match skip_ws r1 with
                | String ":" r2 =>
                    match parse_value f r2 with
                    | Some (v, r3) =>
                        match skip_ws r3 with
                        | String "," r4 => parse_members f r4 (obj_set k v acc)
                        | String "}" r4 => Some (VObj (obj_set k v acc), r4)
                        | _ => None
                        end
                    | None => None
                    end
                | _ => None
                end
            | None => None
            end
          else None
      | EmptyString => None
      end
  end.

(** [JSON.parse(text)] *)
Definition parse (text : string) : result value :=
  match parse_value (2 * String.length text + 4) text with
  | Some (v, r) => match skip_ws r with
                   | EmptyString => Ok v
                   | _ => Throw SyntaxError
                   end
  | None => Throw SyntaxError
  end.

(** [JSON.parse(v)] for a value: the argument is first turned into text. *)
Definition parse_of (v : value) : result value :=
  bind (to_string v) parse.

End Json.

(* ================================================================== *)
(** ** Notation and control helpers shared by the parsers *)
(* ================================================================== *)

Module Control.
Import JS.

Declare Scope js_scope.
Delimit Scope js_scope with js.

Notation "'let*' x ':=' e 'in' k" := (bind e (fun x => k))
  (at level 10, x name, e at level 100, k at level 200) : js_scope.
Notation "v ~> k" := (getp v k) (at level 30, no associativity) : js_scope.
Notation "a <|> b" := (or_else a b) (at level 60, right associativity) : js_scope.

Definition ret (v : value) : result value := Ok v.

(** [r.k] where [r] is itself the outcome of an expression. *)
Definition getr (r : result value) (k : string) : result value :=
  bind r (fun v => getp v k).

(** [r?.k] *)
Definition getr_opt (r : result value) (k : string) : result value :=
  bind r (fun v => getp_opt v k).

Fixpoint mapM {A B : Type} (f : A -> result B) (l : list A) : result (list B) :=
  match l with
  | [] => Ok []
  | x :: r => bind (f x) (fun y => bind (mapM f r) (fun ys => Ok (y :: ys)))
  end.

Fixpoint filterM {A : Type} (f : A -> result bool) (l : list A) : result (list A) :=
  match l with
  | [] => Ok []
  | x :: r =>
      bind (f x) (fun b => bind (filterM f r) (fun ys => Ok (if b then x :: ys else ys)))
  end.

(** A loop whose body may throw: the exception leaves the loop. *)
Fixpoint foldM {A S : Type} (f : S -> A -> result S) (l : list A) (s : S) : result S :=
  match l with
  | [] => Ok s
  | x :: r => bind (f s x) (foldM f r)
  end.

(** A loop whose body may throw inside a [try] that only swallows the
    exception: the state reached before the throwing step is kept. *)
Fixpoint forEach_caught {A S : Type} (f : S -> A -> result S) (l : list A) (s : S) : S :=
  match l with
  | [] => s
  | x :: r =>
      match f s x with
      | Ok s' => forEach_caught f r s'
      | Throw _ => s
      end
  end.

(** An object literal: the property values are computed in order. *)
Fixpoint fields (fs : list (string * result value)) : result (list (string * value)) :=
  match fs with
  | [] => Ok []
  | (k, e) :: r => bind e (fun v => bind (fields r) (fun vs => Ok ((k, v) :: vs)))
  end.

Definition object (fs : list (string * result value)) : result value :=
  bind (fields fs) (fun vs => Ok (VObj vs)).

(** The receiver of [forEach], [map] or [filter]: anything but an array has
    no such method. *)
Definition as_array (v : value) : result (list value) :=
  match v with
  | VArr l => Ok l
  | _ => Throw TypeError
  end.

(** The receiver of a string method ([trim], [replace], [match], ...). *)
Definition as_string (v : value) : result string :=
  match v with
  | VStr s => Ok s
  | _ => Throw TypeError
  end.

(** [list.sort((a, b) => (b.priority || 0) - (a.priority || 0))].  The
    comparator runs only when there are two elements or more, and then on
    every element; it throws exactly when a priority has no number.  It is
    a consistent order when no priority is NaN after conversion, and the
    result is then this list in every engine; otherwise the language leaves
    the order of the result to the engine, and this list is only one of the
    answers it allows. *)
Definition priority_key (x : value) : result number :=
  bind (or_else (getp x "priority") (Ok (num 0))) to_number.

Definition sort_by_priority (l : list value) : result (list value) :=
  match l with
  | [] | [_] => Ok l
  | _ =>
      bind (mapM (fun x => bind (priority_key x) (fun k => Ok (k, x))) l) (fun kl =>
      Ok (map snd (sort_by (fun a b => num_sign (num_sub (fst b) (fst a))) kl)))
  end.

End Control.

(* ================================================================== *)
(** ** App Store parsers (iTunes JSON) *)
(* ================================================================== *)

Module AppStore.
Import JS Control.
Local Open Scope js_scope.

(** The record literal that [parseApp] returns for the raw [app]. *)
Definition app_record (app : value) : result value :=
  object
    [ ("id", app ~> "trackId" <|> ret VNull);
      ("appId", app ~> "bundleId" <|> ret VNull);
      ("title", app ~> "trackName" <|> ret VNull);
      ("url", app ~> "trackViewUrl" <|> ret VNull);
      ("description", app ~> "description" <|> ret VNull);
      ("releaseNotes", app ~> "releaseNotes" <|> ret VNull);
      ("version", app ~> "version" <|> ret VNull);
      ("releaseDate", app ~> "releaseDate" <|> ret VNull);
      ("currentVersionReleaseDate", app ~> "currentVersionReleaseDate" <|> ret VNull);
      ("price", app ~> "price" <|> ret (num 0));
      ("currency", app ~> "currency" <|> ret VNull);
      ("free", let* p := app ~> "price" in ret (VBool (strict_eq p (num 0))));
      ("developer", object
         [ ("id", app ~> "artistId" <|> ret VNull);
           ("name", app ~> "artistName" <|> ret VNull);
           ("url", app ~> "artistViewUrl" <|> ret VNull) ]);
      ("category", object
         [ ("id", app ~> "primaryGenreId" <|> ret VNull);
           ("name", app ~> "primaryGenreName" <|> ret VNull);
           ("genres", app ~> "genres" <|> ret (VArr [])) ]);
      ("rating", object
         [ ("average", app ~> "averageUserRating" <|> ret VNull);
           ("count", app ~> "userRatingCount" <|> ret (num 0)) ]);
      ("contentAdvisoryRating", app ~> "contentAdvisoryRating" <|> ret VNull);
      ("screenshotUrls", app ~> "screenshotUrls" <|> ret (VArr []));
      ("ipadScreenshotUrls", app ~> "ipadScreenshotUrls" <|> ret (VArr []));
      ("appletvScreenshotUrls", app ~> "appletvScreenshotUrls" <|> ret (VArr []));
      ("artwork", object
         [ ("icon", app ~> "artworkUrl512" <|> app ~> "artworkUrl100"
                    <|> app ~> "artworkUrl60" <|> ret VNull);
           ("icon60", app ~> "artworkUrl60" <|> ret VNull);
           ("icon100", app ~> "artworkUrl100" <|> ret VNull);
           ("icon512", app ~> "artworkUrl512" <|> ret VNull) ]);
      ("supportedDevices", app ~> "supportedDevices" <|> ret (VArr []));
      ("minimumOsVersion", app ~> "minimumOsVersion" <|> ret VNull);
      ("languageCodesISO2A", app ~> "languageCodesISO2A" <|> ret (VArr []));
      ("fileSizeBytes", app ~> "fileSizeBytes" <|> ret VNull);
      ("sellerName", app ~> "sellerName" <|> ret VNull);
      ("formattedPrice", app ~> "formattedPrice" <|> ret VNull);
      ("isGameCenterEnabled", app ~> "isGameCenterEnabled" <|> ret (VBool false));
      ("features", app ~> "features" <|> ret (VArr []));
      ("advisories", app ~> "advisories" <|> ret (VArr []));
      ("kind", app ~> "kind" <|> ret VNull);
      ("averageUserRatingForCurrentVersion",
         app ~> "averageUserRatingForCurrentVersion" <|> ret VNull);
      ("userRatingCountForCurrentVersion",
         app ~> "userRatingCountForCurrentVersion" <|> ret (num 0)) ].

(** [parseApp(data)] of [parsers/appStore/app.js] *)
Definition parseApp (data : value) : result value :=
  if negb (truthy data) then Ok VNull else
  let* results := data ~> "results" in
  if negb (truthy results) then Ok VNull else
  let* len := results ~> "length" in
  if strict_eq len (num 0) then Ok VNull else
  let* app := geti results 0 in
  app_record app.

(** [parseApps(data)] of [parsers/appStore/app.js] *)
Definition parseApps (data : value) : result (list value) :=
  if negb (truthy data) then Ok [] else
  let* results := data ~> "results" in
  if negb (truthy results) || negb (isArray results) then Ok [] else
  let* items := as_array results in
  let* software :=
    filterM (fun app =>
      let* kind := app ~> "kind" in
      if strict_eq kind (VStr "software") then Ok true else
      let* wrapper := app ~> "wrapperType" in
      Ok (strict_eq wrapper (VStr "software"))) items in
  let* parsed := mapM (fun app => parseApp (VObj [("results", VArr [app])])) software in
  Ok (filter (fun app => negb (strict_eq app VNull)) parsed).

(** [parseSearch(data)] of [parsers/appStore/search.js] *)
Definition parseSearch (data : value) : result value :=
  let* apps := parseApps data in
  let count := VNum (ofNat (List.length apps)) in
  object
    [ ("results", ret (VArr apps));
      ("count", ret count);
      ("total", data ~> "resultCount" <|> ret count) ].

(** [parseSuggest(data)] of [parsers/appStore/suggest.js] *)
Definition parseSuggest (data : value) : result value :=
  if negb (truthy data) then Ok (VArr []) else
  let* hints := data ~> "hints" in
  if negb (truthy hints) || negb (isArray hints) then Ok (VArr []) else
  let* items := as_array hints in
  let* mapped :=
    mapM (fun hint =>
      object [ ("term", hint ~> "term" <|> ret VNull);
               ("priority", hint ~> "priority" <|> ret (num 0)) ]) items in
  let* sorted := sort_by_priority mapped in
  Ok (VArr sorted).

Definition empty_histogram : value :=
  VObj [("1", num 0); ("2", num 0); ("3", num 0); ("4", num 0); ("5", num 0)].

(** [parseRatings(appData)] of [parsers/appStore/ratings.js] *)
Definition parseRatings (appData : value) : result value :=
  let absent := Ok (VObj [("ratings", num 0); ("histogram", empty_histogram)]) in
  if negb (truthy appData) then absent else
  let* rating := appData ~> "rating" in
  if negb (truthy rating) then absent else
  object
    [ ("ratings", getr (appData ~> "rating") "count" <|> ret (num 0));
      ("average", getr (appData ~> "rating") "average" <|> ret VNull);
      ("histogram", ret empty_histogram) ].

End AppStore.

(* ================================================================== *)
(** ** Google Play parsers (HTML) *)
(* ================================================================== *)

Module GooglePlay.
Import JS Regex Control.
Local Open Scope js_scope.

(** [s.match(r1) || s.match(r2) || ...], also the loops that try a list of
    patterns and stop at the first that matches. *)
Fixpoint first_match (s : string) (rs : list regex) : option mres :=
  match rs with
  | [] => None
  | r :: rest =>
      match smatch s r with
      | Some m => Some m
      | None => first_match s rest
      end
  end.

(** [m[1].trim()] *)
Definition group1_trim (m : mres) : result value :=
  let* t := as_string (group m 1) in ret (VStr (trim t)).

Definition tagPattern : regex := re "<[^>]+>" "g".

(** [m[1].replace(/<[^>]+>/g, '').trim()] *)
Definition group1_text (m : mres) : result string :=
  let* t := as_string (group m 1) in
  Ok (trim (replaceAll t tagPattern "")).

(** [m ? f(m) : other] *)
Definition if_match (m : option mres) (f : mres -> result value) (other : result value)
  : result value :=
  match m with
  | Some x => f x
  | None => other
  end.

(** *** parseSuggest *)

Definition suggest_term (item : value) : result value :=
  item ~> "suggestion" <|> item ~> "term" <|> item ~> "q".

(** [parseSuggest(data)] of [parsers/googlePlay/suggest.js] *)
Definition parseSuggest (data : value) : result value :=
  if negb (truthy data) then Ok (VArr []) else
  try_catch
    (let* jsonData := match data with
                      | VStr s => Json.parse s
                      | _ => Ok data
                      end in
     let* suggestions :=
       if isArray jsonData then
         let* items := as_array jsonData in
         let* pushed :=
           mapM (fun item =>
             if isString item then Ok [VObj [("term", item)]]
             else
               let* t := suggest_term item in
               if truthy t then
                 let* o := object [ ("term", suggest_term item);
                                    ("priority", item ~> "priority" <|> ret (num 0)) ] in
                 Ok [o]
               else Ok []) items in
         Ok (concat pushed)
       else
         let* listed := jsonData ~> "suggestions" <|> jsonData ~> "data" in
         if truthy listed then
           let* suggestList :=
             jsonData ~> "suggestions" <|> jsonData ~> "data" <|> ret (VArr []) in
           let* items := as_array suggestList in
           mapM (fun item =>
             object [ ("term", suggest_term item <|> ret item);
                      ("priority", item ~> "priority" <|> ret (num 0)) ]) items
         else
           let* q := jsonData ~> "q" in
           if truthy q then
             let* o := object [ ("term", jsonData ~> "q");
                                ("priority", jsonData ~> "priority" <|> ret (num 0)) ] in
             Ok [o]
           else Ok [] in
     let* sorted := sort_by_priority suggestions in
     Ok (VArr sorted))
    (fun _ => Ok (VArr [])).

(** *** parseApp *)

(** [appData]: the fields read from the first JSON-LD block. *)
Definition appJsonLdPattern : regex :=
  re "<script[^>]*type=[`']application\/ld\+json[`'][^>]*>(.*?)<\/script>" "is".

Definition jsonLdData (html : string) : result value :=
  match smatch html appJsonLdPattern with
  | Some m =>
      try_catch
        (let* jsonLd := Json.parse_of (group m 1) in
         let* ty := jsonLd ~> "@type" in
         if strict_eq ty (VStr "SoftwareApplication") then
           object [ ("title", jsonLd ~> "name" <|> ret VNull);
                    ("description", jsonLd ~> "description" <|> ret VNull);
                    ("url", jsonLd ~> "url" <|> ret VNull);
                    ("icon", jsonLd ~> "image" <|> ret VNull);
                    ("aggregateRating", jsonLd ~> "aggregateRating" <|> ret VNull);
                    ("offers", jsonLd ~> "offers" <|> ret VNull) ]
         else Ok (VObj []))
        (fun _ => Ok (VObj []))
  | None => Ok (VObj [])
  end.

Definition appIdPatterns : list regex :=
  [ re "data-docid=[`']([^`']+)[`']" "";
    re "id=[`']([^`']+)[`'][^>]*data-docid" "";
    re "\/store\/apps\/details\?id=([^&`']+)" "" ].

Definition appIdMatch (html : string) : option mres :=
  first_match html appIdPatterns.

Definition titlePatterns : list regex :=
  [ re "<h1[^>]*class=[`'][^`']*title[`'][^>]*>([^<]+)<\/h1>" "i";
    re "<meta[^>]*property=[`']og:title[`'][^>]*content=[`']([^`']+)[`']" "i" ].

Definition titleMatch (html : string) : option mres :=
  first_match html titlePatterns.

Definition devPatterns : list regex :=
  [ re "<a[^>]*href=[`'][^`']*\/store\/apps\/developer[^`']*[`'][^>]*>([^<]+)<\/a>" "i";
    re "<span[^>]*itemprop=[`']name[`'][^>]*>([^<]+)<\/span>" "i" ].

Definition devMatch (html : string) : option mres :=
  first_match html devPatterns.

Definition devIdPattern : regex := re "\/store\/apps\/developer\?id=([^&`']+)" "".

Definition devIdMatch (html : string) : option mres := smatch html devIdPattern.

Definition pricePatterns : list regex :=
  [ re "<meta[^>]*itemprop=[`']price[`'][^>]*content=[`']([^`']+)[`']" "i";
    re "<span[^>]*class=[`'][^`']*price[`'][^>]*>([^<]+)<\/span>" "i" ].

Definition priceMatch (html : string) : option mres :=
  first_match html pricePatterns.

Definition ratingPatterns : list regex :=
  [ re "<div[^>]*class=[`'][^`']*rating[`'][^>]*>([^<]+)<\/div>" "i";
    re "<meta[^>]*itemprop=[`']ratingValue[`'][^>]*content=[`']([^`']+)[`']" "i" ].

Definition ratingMatch (html : string) : option mres :=
  first_match html ratingPatterns.

Definition ratingCountPatterns : list regex :=
  [ re "<meta[^>]*itemprop=[`']ratingCount[`'][^>]*content=[`']([^`']+)[`']" "i";
    re "([\d,]+)\s*(?:ratings|reviews)" "i" ].

Definition ratingCountMatch (html : string) : option mres :=
  first_match html ratingCountPatterns.

Definition iconPatterns : list regex :=
  [ re "<img[^>]*class=[`'][^`']*cover-image[`'][^>]*src=[`']([^`']+)[`']" "i";
    re "<meta[^>]*property=[`']og:image[`'][^>]*content=[`']([^`']+)[`']" "i" ].

Definition iconMatch (html : string) : option mres :=
  first_match html iconPatterns.

Definition descPatterns : list regex :=
  [ re "<div[^>]*class=[`'][^`']*description[`'][^>]*>([\s\S]*?)<\/div>" "i";
    re "<meta[^>]*property=[`']og:description[`'][^>]*content=[`']([^`']+)[`']" "i" ].

Definition descMatch (html : string) : option mres :=
  first_match html descPatterns.

Definition versionPatterns : list regex :=
  [ re "Current Version[`'][^>]*>([^<]+)<\/div>" "i";
    re "Version[`'][^>]*>([^<]+)<\/div>" "i";
    re "<div[^>]*itemprop=[`']softwareVersion[`'][^>]*>([^<]+)<\/div>" "i";
    re "softwareVersion[`']:\s*[`']([^`']+)[`']" "i";
    re "version[`']:\s*[`']([^`']+)[`']" "i" ].

Definition contentRatingPatterns : list regex :=
  [ re "Content Rating[`'][^>]*>([^<]+)<\/div>" "i";
    re "<div[^>]*itemprop=[`']contentRating[`'][^>]*>([^<]+)<\/div>" "i";
    re "contentRating[`']:\s*[`']([^`']+)[`']" "i" ].

Definition installsPatterns : list regex :=
  [ re "([\d,]+)\+?\s*(?:installs|downloads)" "i";
    re "<div[^>]*itemprop=[`']numDownloads[`'][^>]*>([^<]+)<\/div>" "i";
    re "numDownloads[`']:\s*[`']([^`']+)[`']" "i";
    re "installs[`']:\s*[`']([^`']+)[`']" "i" ].

Definition sizePatterns : list regex :=
  [ re "Size[`'][^>]*>([^<]+)<\/div>" "i";
    re "<div[^>]*itemprop=[`']fileSize[`'][^>]*>([^<]+)<\/div>" "i";
    re "fileSize[`']:\s*[`']([^`']+)[`']" "i" ].

Definition androidVersionPatterns : list regex :=
  [ re "Requires Android[`'][^>]*>([^<]+)<\/div>" "i";
    re "androidVersion[`']:\s*[`']([^`']+)[`']" "i";
    re "operatingSystem[`']:\s*[`']Android\s*([^`']+)[`']" "i" ].

Definition recentChangesPatterns : list regex :=
  [ re "What's New[`'][^>]*>([\s\S]*?)<\/div>" "i";
    re "<div[^>]*class=[`'][^`']*recent-changes[`'][^>]*>([\s\S]*?)<\/div>" "i";
    re "releaseNotes[`']:\s*[`']([^`']+)[`']" "i" ].

Definition commaPattern : regex := re "," "g".
Definition nonDigitPattern : regex := re "[^0-9]" "g".
Definition versionNumberPattern : regex := re "(\d+(?:\.\d+)?)" "".
Definition screenshotPattern : regex :=
  re "<img[^>]*class=[`'][^`']*screenshot[`'][^>]*src=[`']([^`']+)[`']" "gi".
Definition adSupportedPatterns : list regex :=
  [ re "Contains Ads[`']" "i"; re "adSupported[`']:\s*true" "i" ].
Definition inAppPurchasesPatterns : list regex :=
  [ re "In-app purchases[`']" "i"; re "offersIAP[`']:\s*true" "i" ].
Definition categoryPattern : regex :=
  re "<a[^>]*href=[`'][^`']*\/store\/apps\/category\/([^/`']+)[`'][^>]*>" "i".
Definition updatedPattern : regex := re "Updated[`'][^>]*>([^<]+)<\/div>" "i".

Definition app_url (appId : value) : result value :=
  if truthy appId then
    let* s := to_string appId in
    ret (VStr ("https://play.google.com/store/apps/details?id=" ++ s))
  else ret VNull.

(** [parseApp(html)] of [parsers/googlePlay/app.js] *)
Definition parseApp (html : value) : result value :=
  match html with
  | VStr html =>
    if html =? "" then Ok VNull else
    try_catch
      (let* appData := jsonLdData html in
       let* appId := if_match (appIdMatch html) (fun m => ret (group m 1)) (ret VNull) in
       let* title := if_match (titleMatch html) group1_trim (appData ~> "title") in
       let* developer := if_match (devMatch html) group1_trim (ret VNull) in
       let* developerId := if_match (devIdMatch html) (fun m => ret (group m 1)) (ret VNull) in
       let* priceText := if_match (priceMatch html) group1_trim (ret (VStr "Free")) in
       let* priceStr := as_string priceText in
       let free := (toLowerCase priceStr =? "free") || (priceStr =? "0") || (priceStr =? "") in
       let* rating :=
         if_match (ratingMatch html)
           (fun m => let* s := to_string (group m 1) in ret (VNum (parseFloat s)))
           (ret VNull) in
       let* ratingCount :=
         if_match (ratingCountMatch html)
           (fun m => let* s := as_string (group m 1) in
                     ret (VNum (parseInt10 (replaceAll s commaPattern ""))))
           (ret (num 0)) in
       let* icon := if_match (iconMatch html) (fun m => ret (group m 1)) (appData ~> "icon") in
       let screenshots :=
         filter truthy
           (map (fun m => group m 1) (matchAll html screenshotPattern)) in
       let* description :=
         if_match (descMatch html)
           (fun m => let* t := group1_text m in ret (VStr t))
           (appData ~> "description") in
       let* version := if_match (first_match html versionPatterns) group1_trim (ret VNull) in
       let* contentRating :=
         if_match (first_match html contentRatingPatterns) group1_trim (ret VNull) in
       let* installs :=
         if_match (first_match html installsPatterns)
           (fun m => let* s := as_string (group m 1) in
                     ret (VStr (replaceAll s nonDigitPattern "")))
           (ret VNull) in
       let* size := if_match (first_match html sizePatterns) group1_trim (ret VNull) in
       let* androidVersionText :=
         if_match (first_match html androidVersionPatterns) group1_trim (ret VNull) in
       let* androidVersion :=
         match androidVersionText with
         | VStr t => if_match (smatch t versionNumberPattern)
                       (fun m => ret (group m 1)) (ret VNull)
         | _ => ret VNull
         end in
       let* recentChanges :=
         if_match (first_match html recentChangesPatterns)
           (fun m => let* t := group1_text m in
                     ret (VStr (if (500 <? String.length t)%nat
                                then substring0 500 t ++ "..." else t)))
           (ret VNull) in
       let adSupported :=
         match first_match html adSupportedPatterns with
         | Some _ => VBool true
         | None => VNull
         end in
       let inAppPurchases :=
         match first_match html inAppPurchasesPatterns with
         | Some _ => VBool true
         | None => VNull
         end in
       let* category :=
         if_match (smatch html categoryPattern) (fun m => ret (group m 1)) (ret VNull) in
       let* updated :=
         if_match (smatch html updatedPattern) group1_trim (ret VNull) in
       object
         [ ("appId", ret appId);
           ("title", ret title);
           ("url", app_url appId);
           ("summary", if truthy description
                       then let* d := as_string description in ret (VStr (substring0 200 d))
                       else ret VNull);
           ("description", ret description);
           ("developer", ret developer);
           ("developerId", ret developerId);
           ("developerEmail", ret VNull);
           ("developerWebsite", ret VNull);
           ("developerAddress", ret VNull);
           ("icon", ret icon);
           ("headerImage", ret VNull);
           ("score", ret rating);
           ("scoreText", match rating with
                         | VNum n => if num_truthy n then ret (VStr (toFixed1 n)) else ret VNull
                         | _ => ret VNull
                         end);
           ("ratings", ret ratingCount);
           ("reviews", ret ratingCount);
           ("price", ret (if free then num 0 else VNull));
           ("priceText", ret priceText);
           ("free", ret (VBool free));
           ("currency", ret (if free then VNull else VStr "USD"));
           ("version", ret version);
           ("contentRating", ret contentRating);
           ("contentRatingDescription", ret VNull);
           ("adSupported", ret adSupported);
           ("inAppPurchases", ret inAppPurchases);
           ("screenshots", ret (VArr screenshots));
           ("video", ret VNull);
           ("videoImage", ret VNull);
           ("recentChanges", ret recentChanges);
           ("comments", ret (VArr []));
           ("editorsChoice", ret (VBool false));
           ("category", ret category);
           ("categoryId", ret category);
           ("size", ret size);
           ("androidVersion", ret androidVersion);
           ("androidVersionText", ret androidVersionText);
           ("updated", ret updated);
           ("installs", ret installs);
           ("minInstalls", ret VNull);
           ("maxInstalls", ret VNull);
           ("requiresAndroid", ret androidVersionText);
           ("permissions", ret (VArr []));
           ("similarApps", ret (VArr [])) ])
      (fun _ => Ok VNull)
  | _ => Ok VNull
  end.

(** *** parseCategories *)

Definition fallback_categories : list string :=
  [ "APPLICATION"; "GAME"; "ART_AND_DESIGN"; "AUTO_AND_VEHICLES"; "BEAUTY";
    "BOOKS_AND_REFERENCE"; "BUSINESS"; "COMICS"; "COMMUNICATION"; "DATING";
    "EDUCATION"; "ENTERTAINMENT"; "EVENTS"; "FINANCE"; "FOOD_AND_DRINK";
    "HEALTH_AND_FITNESS"; "HOUSE_AND_HOME"; "LIBRARIES_AND_DEMO"; "LIFESTYLE";
    "MAPS_AND_NAVIGATION"; "MEDICAL"; "MUSIC_AND_AUDIO"; "NEWS_AND_MAGAZINES";
    "PARENTING"; "PERSONALIZATION"; "PHOTOGRAPHY"; "PRODUCTIVITY"; "SHOPPING";
    "SOCIAL"; "SPORTS"; "TOOLS"; "TRAVEL_AND_LOCAL"; "VIDEO_PLAYERS"; "WEATHER" ].

Definition str_in (s : string) (l : list string) : bool := existsb (String.eqb s) l.

(** [if (category && !categories.includes(category)) categories.push(category)] *)
Definition push_category (categories : list string) (category : value) : list string :=
  match category with
  | VStr c => if negb (c =? "") && negb (str_in c categories) then categories ++ [c]
              else categories
  | _ => categories
  end.

Definition scriptPattern : regex := re "<script[^>]*>([\s\S]*?)<\/script>" "gi".
Definition categoryLinkPattern : regex :=
  re "<a[^>]*href=[`'][^`']*\/store\/apps\/category\/([^/`']+)[`'][^>]*>" "gi".
Definition categoryArrayPattern : regex := re "categories[`']?\s*:\s*\[([\s\S]*?)\]" "i".
Definition quotedPattern : regex := re "`([^`]+)`" "g".

(** The body of the loop over script elements. *)
Definition categories_of_script (categories : list string) (m : mres) : result (list string) :=
  let* scriptContent := as_string (group m 1) in
  if includes scriptContent "category" || includes scriptContent "CATEGORY" then
    try_catch
      (match smatch scriptContent categoryArrayPattern with
       | Some am =>
           let* categoryData := as_string (group am 1) in
           Ok (fold_left (fun cs cm => push_category cs (group cm 1))
                 (matchAll categoryData quotedPattern) categories)
       | None => Ok categories
       end)
      (fun _ => Ok categories)
  else Ok categories.

(** [categories.sort()]: by code units. *)
Definition sort_strings (l : list string) : list string := sort_by String.compare l.

Definition strings (l : list string) : value := VArr (map VStr l).

(** [parseCategories(html)] of [parsers/googlePlay/categories.js] *)
Definition parseCategories (html : value) : result value :=
  match html with
  | VStr html =>
    if html =? "" then Ok (VArr []) else
    try_catch
      (let linked :=
         fold_left (fun cs m => push_category cs (group m 1))
           (matchAll html categoryLinkPattern) [] in
       let* categories := foldM categories_of_script (matchAll html scriptPattern) linked in
       if (List.length categories =? 0)%nat then Ok (strings fallback_categories)
       else Ok (strings (sort_strings categories)))
      (fun _ => Ok (VArr []))
  | _ => Ok (VArr [])
  end.

(** *** parsePermissions *)

(** The list being built and the lower-cased names seen so far. *)
Definition perm_state : Type := list value * list string.

(** [seenPermissions.add(name.toLowerCase())] and the [push] that follows. *)
Definition add_permission (short : bool) (name : string) (type : value) (st : perm_state)
  : perm_state :=
  ((fst st ++ [if short then VStr name
               else VObj [("permission", VStr name); ("type", type)]])%list,
   (snd st ++ [toLowerCase name])%list).

Definition seen_permission (st : perm_state) (name : string) : bool :=
  str_in (toLowerCase name) (snd st).

Definition permissionsSectionPatterns : list regex :=
  [ re "<div[^>]*class=[`'][^`']*permissions[`'][^>]*>([\s\S]*?)<\/div>" "i";
    re "<div[^>]*id=[`']permissions[`'][^>]*>([\s\S]*?)<\/div>" "i";
    re "<section[^>]*class=[`'][^`']*permissions[`'][^>]*>([\s\S]*?)<\/section>" "i";
    re "<div[^>]*data-permissions[^>]*>([\s\S]*?)<\/div>" "i" ].

Definition permissionItemPatterns : list regex :=
  [ re "<div[^>]*class=[`'][^`']*permission[`'][^>]*>([\s\S]*?)<\/div>" "gi";
    re "<li[^>]*class=[`'][^`']*permission[`'][^>]*>([\s\S]*?)<\/li>" "gi";
    re "<div[^>]*data-permission[^>]*>([\s\S]*?)<\/div>" "gi" ].

Definition namePatterns : list regex :=
  [ re "<div[^>]*class=[`'][^`']*permission-name[`'][^>]*>([^<]+)<\/div>" "i";
    re "<span[^>]*class=[`'][^`']*permission-name[`'][^>]*>([^<]+)<\/span>" "i";
    re "<div[^>]*class=[`'][^`']*title[`'][^>]*>([^<]+)<\/div>" "i";
    re "<span[^>]*>([^<]+)<\/span>" "i";
    re "<p[^>]*>([^<]+)<\/p>" "i" ].

Definition typePatterns : list regex :=
  [ re "<div[^>]*class=[`'][^`']*permission-type[`'][^>]*>([^<]+)<\/div>" "i";
    re "<span[^>]*class=[`'][^`']*permission-type[`'][^>]*>([^<]+)<\/span>" "i";
    re "<div[^>]*class=[`'][^`']*category[`'][^>]*>([^<]+)<\/div>" "i";
    re "data-type=[`']([^`']+)[`']" "i" ].

Definition permissionJsonPatterns : list regex :=
  [ re "permissions[`']?\s*:\s*\[([\s\S]*?)\]" "i";
    re "`permissions`[`']?\s*:\s*\[([\s\S]*?)\]" "i";
    re "permissionList[`']?\s*:\s*\[([\s\S]*?)\]" "i";
    re "usesPermissions[`']?\s*:\s*\[([\s\S]*?)\]" "i" ].

Definition metaPermissionPattern : regex :=
  re "<meta[^>]*name=[`']permission[`'][^>]*content=[`']([^`']+)[`']" "gi".

Definition commonPermissionPatterns : list regex :=
  [ re "(?:permission|allows?)\s+(?:the\s+)?(?:app\s+)?(?:to\s+)?(?:access|read|write|modify|delete|use|send|receive|view|get|set|manage|control|change|enable|disable)\s+([^.,!?]+)" "gi" ].

(** Strategy 1, one permission item of the permissions section. *)
Definition permission_of_item (short : bool) (st : perm_state) (m : mres) : result perm_state :=
  let* permHtml := as_string (group m 1) in
  let* permissionName := if_match (first_match permHtml namePatterns) group1_trim (ret VNull) in
  let* type := if_match (first_match permHtml typePatterns) group1_trim (ret (VStr "")) in
  match permissionName with
  | VStr name =>
      if negb (name =? "") && negb (seen_permission st name)
      then Ok (add_permission short name type st)
      else Ok st
  | _ => Ok st
  end.

(** Strategy 1, one section pattern. *)
Definition permissions_of_section (short : bool) (html : string) (st : perm_state) (pattern : regex)
  : result perm_state :=
  match smatch html pattern with
  | Some sm =>
      let* sectionHtml := as_string (group sm 1) in
      foldM (fun st itemPattern =>
               foldM (permission_of_item short) (matchAll sectionHtml itemPattern) st)
        permissionItemPatterns st
  | None => Ok st
  end.

(** Strategy 2, one element of a parsed permission array. *)
Definition permission_of_json (short : bool) (st : perm_state) (item : value) : result perm_state :=
  match item with
  | VStr s =>
      if negb (seen_permission st s) then Ok (add_permission short s (VStr "") st) else Ok st
  | VArr _ | VObj _ =>
      let* permName := item ~> "name" <|> item ~> "permission" <|> item ~> "label"
                       <|> item ~> "title" in
      let* permType := item ~> "type" <|> item ~> "category" <|> ret (VStr "") in
      if truthy permName then
        let* name := as_string permName in
        if negb (seen_permission st name) then Ok (add_permission short name permType st)
        else Ok st
      else Ok st
  | _ => Ok st
  end.

(** Strategy 2, one JSON pattern applied to one script. *)
Definition permissions_of_array (short : bool) (scriptContent : string) (st : perm_state)
    (pattern : regex) : result perm_state :=
  match smatch scriptContent pattern with
  | Some am =>
      let* permData := as_string (group am 1) in
      let* st1 :=
        foldM (fun st sm =>
                 let* raw := as_string (group sm 1) in
                 let permName := trim raw in
                 if negb (permName =? "") && (3 <? String.length permName)%nat
                    && negb (seen_permission st permName)
                 then Ok (add_permission short permName (VStr "") st)
                 else Ok st)
          (matchAll permData quotedPattern) st in
      match Json.parse ("[" ++ permData ++ "]") with
      | Ok (VArr items) => Ok (forEach_caught (permission_of_json short) items st1)
      | _ => Ok st1
      end
  | None => Ok st
  end.

(** Strategy 2, one script element. *)
Definition permissions_of_script (short : bool) (st : perm_state) (m : mres) : result perm_state :=
  let* scriptContent := as_string (group m 1) in
  if includes scriptContent "permission" || includes scriptContent "PERMISSION"
     || includes scriptContent "uses-permission"
  then foldM (permissions_of_array short scriptContent) permissionJsonPatterns st
  else Ok st.

(** Strategy 3, one [meta] element. *)
Definition permission_of_meta (short : bool) (st : perm_state) (m : mres) : result perm_state :=
  let* raw := as_string (group m 1) in
  let permName := trim raw in
  if negb (permName =? "") && negb (seen_permission st permName)
  then Ok (add_permission short permName (VStr "") st)
  else Ok st.

(** Strategy 4, one phrase of the page text. *)
Definition permission_of_text (short : bool) (st : perm_state) (m : mres) : result perm_state :=
  let* raw := as_string (group m 1) in
  let permText := trim raw in
  if negb (permText =? "") && (5 <? String.length permText)%nat
     && (String.length permText <? 100)%nat && negb (seen_permission st permText)
  then Ok (add_permission short permText (VStr "") st)
  else Ok st.

(** [parsePermissions(html, short)] of [parsers/googlePlay/permissions.js] *)
Definition parsePermissions (html : value) (short : bool) : result value :=
  match html with
  | VStr html =>
    if html =? "" then Ok (VArr []) else
    try_catch
      (let* st1 := foldM (permissions_of_section short html) permissionsSectionPatterns ([], []) in
       let* st2 := foldM (permissions_of_script short) (matchAll html scriptPattern) st1 in
       let* st3 :=
         foldM (permission_of_meta short) (matchAll html metaPermissionPattern) st2 in
       let* st4 :=
         if (List.length (fst st3) <? 3)%nat then
           foldM (fun st pattern => foldM (permission_of_text short) (matchAll html pattern) st)
             commonPermissionPatterns st3
         else Ok st3 in
       Ok (VArr (fst st4)))
      (fun _ => Ok (VArr []))
  | _ => Ok (VArr [])
  end.

(** *** parseReviews *)

(** [reviews] and [seenReviewIds]. *)
Definition rev_state : Type := list value * list value.

(** [if (!seen.has(key)) { seen.add(key); reviews.push(review) }] *)
Definition add_review (key review : value) (st : rev_state) : rev_state :=
  if set_has (snd st) key then st
  else ((fst st ++ [review])%list, (snd st ++ [key])%list).

(** [if (review && !seen.has(review.reviewId || review.text)) { ... }] *)
Definition push_if_new (review : value) (st : rev_state) : result rev_state :=
  if truthy review then
    let* key := review ~> "reviewId" <|> review ~> "text" in
    Ok (add_review key review st)
  else Ok st.

(** [extractFromJsonLd(jsonLd)] *)
Definition extractFromJsonLd (jsonLd : value) : result value :=
  try_catch
    (object
       [ ("reviewId", jsonLd ~> "@id" <|> jsonLd ~> "identifier" <|> ret VNull);
         ("userName", getr_opt (jsonLd ~> "author") "name" <|> jsonLd ~> "author"
                      <|> ret (VStr "Anonymous"));
         ("userImage", getr_opt (jsonLd ~> "author") "image" <|> ret VNull);
         ("date", jsonLd ~> "datePublished" <|> jsonLd ~> "dateCreated" <|> ret VNull);
         ("dateText", jsonLd ~> "datePublished" <|> jsonLd ~> "dateCreated" <|> ret VNull);
         ("score", getr_opt (jsonLd ~> "reviewRating") "ratingValue"
                   <|> jsonLd ~> "ratingValue" <|> ret (num 0));
         ("scoreText",
            let* s := getr_opt (jsonLd ~> "reviewRating") "ratingValue"
                      <|> jsonLd ~> "ratingValue" <|> ret (num 0) in
            call_toString s);
         ("title", jsonLd ~> "headline" <|> jsonLd ~> "name" <|> ret VNull);
         ("text", jsonLd ~> "reviewBody" <|> jsonLd ~> "description" <|> jsonLd ~> "text"
                  <|> ret VNull);
         ("replyDate", ret VNull);
         ("replyText", ret VNull);
         ("version", ret VNull);
         ("thumbsUp", jsonLd ~> "upvoteCount" <|> ret (num 0));
         ("criterias", ret (VArr [])) ])
    (fun _ => Ok VNull).

(** [normalizeReview(review)] *)
Definition normalizeReview (review : value) : result value :=
  if negb (truthy review) || negb (typeof_object review) then Ok VNull else
  object
    [ ("reviewId", review ~> "reviewId" <|> review ~> "id" <|> review ~> "identifier"
                   <|> ret VNull);
      ("userName", review ~> "userName" <|> review ~> "author" <|> review ~> "authorName"
                   <|> review ~> "name" <|> ret (VStr "Anonymous"));
      ("userImage", review ~> "userImage" <|> review ~> "avatar" <|> review ~> "authorImage"
                    <|> ret VNull);
      ("date", review ~> "date" <|> review ~> "timestamp" <|> review ~> "datePublished"
               <|> review ~> "createdAt" <|> ret VNull);
      ("dateText", review ~> "dateText" <|> review ~> "date" <|> review ~> "timestamp"
                   <|> ret VNull);
      ("score", review ~> "score" <|> review ~> "rating" <|> review ~> "starRating"
                <|> review ~> "ratingValue" <|> ret (num 0));
      ("scoreText",
         let* s := review ~> "score" <|> review ~> "rating" <|> review ~> "starRating"
                   <|> review ~> "ratingValue" <|> ret (num 0) in
         call_toString s);
      ("title", review ~> "title" <|> review ~> "headline" <|> ret VNull);
      ("text", review ~> "text" <|> review ~> "comment" <|> review ~> "body"
               <|> review ~> "reviewBody" <|> review ~> "description" <|> ret VNull);
      ("replyDate", review ~> "replyDate" <|> review ~> "developerCommentDate" <|> ret VNull);
      ("replyText", review ~> "replyText" <|> review ~> "developerComment" <|> review ~> "reply"
                    <|> ret VNull);
      ("version", review ~> "version" <|> review ~> "appVersion" <|> ret VNull);
      ("thumbsUp", review ~> "thumbsUp" <|> review ~> "helpful" <|> review ~> "upvoteCount"
                   <|> ret (num 0));
      ("criterias", review ~> "criterias" <|> review ~> "criteria" <|> ret (VArr [])) ].

Definition jsonLdPattern : regex :=
  re "<script[^>]*type=[`']application\/ld\+json[`'][^>]*>([\s\S]*?)<\/script>" "gi".

(** Strategy 1, one element of the review list of a JSON-LD block. *)
Definition review_of_jsonld_item (st : rev_state) (item : value) : result rev_state :=
  let* ty := item ~> "@type" in
  let* wanted := if strict_eq ty (VStr "Review") then Ok true
                 else let* body := item ~> "reviewBody" in Ok (truthy body) in
  if wanted then
    let* review := extractFromJsonLd item in
    push_if_new review st
  else Ok st.

(** Strategy 1, one JSON-LD block: the body of the [try]. *)
Definition reviews_of_jsonld (st : rev_state) (m : mres) : rev_state :=
  match
    (let* jsonLd := Json.parse_of (group m 1) in
     let* ty := jsonLd ~> "@type" in
     let* listed := if strict_eq ty (VStr "Review") then Ok true
                    else if strict_eq ty (VStr "ItemList")
                         then let* e := jsonLd ~> "itemListElement" in Ok (truthy e)
                         else Ok false in
     if listed then
       let* reviewList := if strict_eq ty (VStr "Review") then Ok (VArr [jsonLd])
                          else jsonLd ~> "itemListElement" in
       let* items := as_array reviewList in
       Ok (forEach_caught review_of_jsonld_item items st)
     else Ok st)
  with
  | Ok st' => st'
  | Throw _ => st
  end.

Definition reviewJsonPatterns : list regex :=
  [ re "\[([\s\S]{100,}?)\]" "g";
    re "\{[\s\S]*?`reviews`[\s\S]*?:[\s\S]*?\[([\s\S]*?)\][\s\S]*?\}" "g";
    re "\{[\s\S]*?`data`[\s\S]*?:[\s\S]*?\[([\s\S]*?)\][\s\S]*?\}" "g" ].

(** Strategy 2: an element of an array found in a script.  [with_comment]
    tells the two call sites apart: only the first also accepts an element
    that has a [comment]. *)
Definition review_of_json_item (with_comment : bool) (st : rev_state) (item : value)
  : result rev_state :=
  if truthy item then
    let* marked := item ~> "reviewId" <|> item ~> "text" <|> item ~> "rating"
                   <|> (if with_comment then item ~> "comment" else ret VUndefined) in
    if truthy marked then
      let* review := normalizeReview item in
      push_if_new review st
    else Ok st
  else Ok st.

(** Strategy 2, one span matched by a JSON pattern. *)
Definition reviews_of_json_span (st : rev_state) (jm : mres) : rev_state :=
  match
    (let* inner := to_string (group jm 1) in
     let* jsonData := Json.parse ("[" ++ inner ++ "]") in
     if isArray jsonData then
       let* items := as_array jsonData in
       Ok (forEach_caught (review_of_json_item true) items st)
     else Ok st)
  with
  | Ok st' => st'
  | Throw _ => st
  end.

(** Strategy 2, an element of [reviews] or [data] of a script that is one
    JSON object. *)
Definition review_of_listed_item (st : rev_state) (item : value) : result rev_state :=
  let* review := normalizeReview item in
  push_if_new review st.

(** Strategy 2, the script parsed as a whole. *)
Definition reviews_of_json_script (scriptContent : string) (st : rev_state) : rev_state :=
  match
    (let* jsonData := Json.parse scriptContent in
     if isArray jsonData then
       let* items := as_array jsonData in
       Ok (forEach_caught (review_of_json_item false) items st)
     else
       let* found := jsonData ~> "reviews" <|> jsonData ~> "data" <|> geti jsonData 0 in
       if truthy found then
         let* reviewList := jsonData ~> "reviews" <|> jsonData ~> "data"
                            <|> ret (if isArray jsonData then jsonData else VArr []) in
         let* items := as_array reviewList in
         Ok (forEach_caught review_of_listed_item items st)
       else Ok st)
  with
  | Ok st' => st'
  | Throw _ => st
  end.

(** Strategy 2, one script element. *)
Definition reviews_of_script (st : rev_state) (m : mres) : result rev_state :=
  let* scriptContent := as_string (group m 1) in
  if includes scriptContent "review" || includes scriptContent "rating"
     || includes scriptContent "_df_"
  then
    let st1 :=
      fold_left (fun st pattern =>
                   fold_left reviews_of_json_span (matchAll scriptContent pattern) st)
        reviewJsonPatterns st in
    let t := trim scriptContent in
    if startsWith t "{" || startsWith t "[" then Ok (reviews_of_json_script scriptContent st1)
    else Ok st1
  else Ok st.

Definition reviewPatterns : list regex :=
  [ re "<div[^>]*class=[`'][^`']*review[`'][^>]*>([\s\S]*?)<\/div>" "gi";
    re "<div[^>]*itemprop=[`']review[`'][^>]*>([\s\S]*?)<\/div>" "gi";
    re "<article[^>]*class=[`'][^`']*review[`'][^>]*>([\s\S]*?)<\/article>" "gi";
    re "<div[^>]*data-review-id=[`'][^`']*[`'][^>]*>([\s\S]*?)<\/div>" "gi" ].

Definition reviewRatingPatterns : list regex :=
  [ re "aria-label=[`'](\d+)\s*stars?[`']" "i";
    re "<div[^>]*class=[`'][^`']*rating[`'][^>]*>(\d+)[^<]*<\/div>" "i";
    re "ratingValue[`']:\s*[`']?(\d+)" "i";
    re "<meta[^>]*itemprop=[`']ratingValue[`'][^>]*content=[`'](\d+)[`']" "i";
    re "<span[^>]*class=[`'][^`']*star-rating[`'][^>]*>(\d+)" "i" ].

Definition reviewTextPatterns : list regex :=
  [ re "<span[^>]*class=[`'][^`']*review-body[`'][^>]*>([\s\S]*?)<\/span>" "i";
    re "<div[^>]*class=[`'][^`']*review-text[`'][^>]*>([\s\S]*?)<\/div>" "i";
    re "<p[^>]*class=[`'][^`']*review-text[`'][^>]*>([\s\S]*?)<\/p>" "i";
    re "reviewBody[`']:\s*[`']([^`']+)[`']" "i";
    re "<span[^>]*itemprop=[`']reviewBody[`'][^>]*>([\s\S]*?)<\/span>" "i" ].

Definition reviewAuthorPatterns : list regex :=
  [ re "<span[^>]*class=[`'][^`']*author-name[`'][^>]*>([^<]+)<\/span>" "i";
    re "<a[^>]*class=[`'][^`']*author[`'][^>]*>([^<]+)<\/a>" "i";
    re "<span[^>]*itemprop=[`']author[`'][^>]*>([^<]+)<\/span>" "i";
    re "author[`']:\s*[`']([^`']+)[`']" "i" ].

Definition reviewDatePatterns : list regex :=
  [ re "<span[^>]*class=[`'][^`']*review-date[`'][^>]*>([^<]+)<\/span>" "i";
    re "<time[^>]*datetime=[`']([^`']+)[`']" "i";
    re "<span[^>]*itemprop=[`']datePublished[`'][^>]*>([^<]+)<\/span>" "i";
    re "datePublished[`']:\s*[`']([^`']+)[`']" "i" ].

Definition reviewIdPatterns : list regex :=
  [ re "data-review-id=[`']([^`']+)[`']" "i";
    re "reviewId[`']:\s*[`']([^`']+)[`']" "i" ].

(** The fourth word of the first pattern is the source's [U+00C3 U+00BA "til"]. *)
Definition thumbsUpPatterns : list regex :=
  [ re ("(\d+)\s*(?:thumbs?|helpful|"
        ++ String (ascii_of_nat 195) (String (ascii_of_nat 186) "til") ++ ")") "i";
    re "thumbsUp[`']:\s*[`']?(\d+)" "i" ].

Definition paginationPatterns : list regex :=
  [ re "nextPaginationToken[`']:\s*[`']([^`']+)[`']" "i";
    re "`paginationToken`[`']:\s*[`']([^`']+)[`']" "i";
    re "data-pagination-token=[`']([^`']+)[`']" "i" ].

(** [parseInt(m[1], 10)] *)
Definition group1_int (m : mres) : result value :=
  let* s := to_string (group m 1) in ret (VNum (parseInt10 s)).

(** The four entity replacements applied to a review text. *)
Definition quotPattern : regex := re "&quot;" "g".
Definition ampPattern : regex := re "&amp;" "g".
Definition ltPattern : regex := re "&lt;" "g".
Definition gtPattern : regex := re "&gt;" "g".

Definition unescape_entities (text : string) : string :=
  let t1 := replaceAll text quotPattern (String dq EmptyString) in
  let t2 := replaceAll t1 ampPattern "&" in
  let t3 := replaceAll t2 ltPattern "<" in
  replaceAll t3 gtPattern ">".

(** Strategy 3, one review block of the visible markup. *)
Definition review_of_block (st : rev_state) (blockMatch : mres) : result rev_state :=
  let* reviewHtml := as_string (group blockMatch 1) in
  let* rating := if_match (first_match reviewHtml reviewRatingPatterns) group1_int (ret VNull) in
  let* text0 :=
    if_match (first_match reviewHtml reviewTextPatterns)
      (fun m => let* t := group1_text m in ret (VStr t)) (ret VNull) in
  let text := match text0 with
              | VStr t => if t =? "" then text0 else VStr (unescape_entities t)
              | _ => text0
              end in
  let* author := if_match (first_match reviewHtml reviewAuthorPatterns) group1_trim (ret VNull) in
  let* date := if_match (first_match reviewHtml reviewDatePatterns) group1_trim (ret VNull) in
  let* reviewId :=
    if_match (first_match reviewHtml reviewIdPatterns) (fun m => ret (group m 1)) (ret VNull) in
  let* thumbsUp := if_match (first_match reviewHtml thumbsUpPatterns) group1_int (ret (num 0)) in
  if truthy rating || truthy text || truthy author then
    let* reviewKey :=
      ret reviewId <|> ret text
      <|> (let* a := to_string author in
           let* d := to_string date in
           ret (VStr (a ++ "-" ++ d))) in
    let* review :=
      object
        [ ("reviewId", ret reviewId);
          ("userName", ret author <|> ret (VStr "Anonymous"));
          ("userImage", ret VNull);
          ("date", ret date);
          ("dateText", ret date);
          ("score", ret rating <|> ret (num 0));
          ("scoreText", if truthy rating then call_toString rating else ret (VStr "0"));
          ("title", ret VNull);
          ("text", ret text);
          ("replyDate", ret VNull);
          ("replyText", ret VNull);
          ("version", ret VNull);
          ("thumbsUp", ret thumbsUp);
          ("criterias", ret (VArr [])) ] in
    Ok (add_review reviewKey review st)
  else Ok st.

Definition reviews_result (data : list value) (token : value) : value :=
  VObj [("data", VArr data); ("nextPaginationToken", token)].

Definition empty_reviews : value := reviews_result [] VNull.

(** Strategy 4: the pagination token. *)
Definition nextToken (html : string) : value :=
  match first_match html paginationPatterns with
  | Some m => group m 1
  | None => VNull
  end.

(** [parseReviews(html)] of [parsers/googlePlay/reviews.js] *)
Definition parseReviews (html : value) : result value :=
  match html with
  | VStr html =>
    if html =? "" then Ok empty_reviews else
    try_catch
      (let st1 := fold_left reviews_of_jsonld (matchAll html jsonLdPattern) ([], []) in
       let* st2 := foldM reviews_of_script (matchAll html scriptPattern) st1 in
       let* st3 :=
         foldM (fun st pattern => foldM review_of_block (matchAll html pattern) st)
           reviewPatterns st2 in
       Ok (reviews_result (fst st3) (nextToken html)))
      (fun _ => Ok empty_reviews)
  | _ => Ok empty_reviews
  end.

End GooglePlay.

(* ================================================================== *)
(** ** Review candidates and the first-wins rule *)
(* ================================================================== *)

(** The reviews parser seen as a stream of candidates: every strategy yields
    pairs of an identity key and a record, in the order the source visits
    them, and the result keeps a candidate exactly when its key is new. *)

Module Candidates.
Import JS Regex Control GooglePlay.
Local Open Scope js_scope.

(** An identity key and the record it stands for. *)
Definition cand : Type := value * value.

Definition add_cand (st : rev_state) (c : cand) : rev_state :=
  add_review (fst c) (snd c) st.

Definition add_all (cs : list cand) (st : rev_state) : rev_state :=
  fold_left add_cand cs st.

(** The rule in words: go through the candidates in order and keep a record
    exactly when no earlier candidate had its key. *)
Fixpoint first_wins (seen : list value) (cs : list cand) : list value :=
  match cs with
  | [] => []
  | (key, review) :: rest =>
      if set_has seen key then first_wins seen rest
      else review :: first_wins (seen ++ [key]) rest
  end.

(** Candidates of the elements visited before the first one that throws. *)
Fixpoint until_throw (f : value -> result (list cand)) (items : list value) : list cand :=
  match items with
  | [] => []
  | x :: r =>
      match f x with
      | Ok cs => cs ++ until_throw f r
      | Throw _ => []
      end
  end.

Definition caught (r : result (list cand)) : list cand :=
  match r with
  | Ok cs => cs
  | Throw _ => []
  end.

Definition cand_of_review (review : value) : result (list cand) :=
  if truthy review then
    let* key := review ~> "reviewId" <|> review ~> "text" in
    Ok [(key, review)]
  else Ok [].

(** Strategy 1 *)
Definition cand_of_jsonld_item (item : value) : result (list cand) :=
  let* ty := item ~> "@type" in
  let* wanted := if strict_eq ty (VStr "Review") then Ok true
                 else let* body := item ~> "reviewBody" in Ok (truthy body) in
  if wanted then
    let* review := extractFromJsonLd item in
    cand_of_review review
  else Ok [].

Definition cands_of_jsonld (m : mres) : list cand :=
  caught
    (let* jsonLd := Json.parse_of (group m 1) in
     let* ty := jsonLd ~> "@type" in
     let* listed := if strict_eq ty (VStr "Review") then Ok true
                    else if strict_eq ty (VStr "ItemList")
                         then let* e := jsonLd ~> "itemListElement" in Ok (truthy e)
                         else Ok false in
     if listed then
       let* reviewList := if strict_eq ty (VStr "Review") then Ok (VArr [jsonLd])
                          else jsonLd ~> "itemListElement" in
       let* items := as_array reviewList in
       Ok (until_throw cand_of_jsonld_item items)
     else Ok []).

Definition cands_structured (html : string) : list cand :=
  flat_map cands_of_jsonld (matchAll html jsonLdPattern).

(** Strategy 2 *)
Definition cand_of_json_item (with_comment : bool) (item : value) : result (list cand) :=
  if truthy item then
    let* marked := item ~> "reviewId" <|> item ~> "text" <|> item ~> "rating"
                   <|> (if with_comment then item ~> "comment" else ret VUndefined) in
    if truthy marked then
      let* review := normalizeReview item in
      cand_of_review review
    else Ok []
  else Ok [].

Definition cands_of_json_span (jm : mres) : list cand :=
  caught
    (let* inner := to_string (group jm 1) in
     let* jsonData := Json.parse ("[" ++ inner ++ "]") in
     if isArray jsonData then
       let* items := as_array jsonData in
       Ok (until_throw (cand_of_json_item true) items)
     else Ok []).

Definition cand_of_listed_item (item : value) : result (list cand) :=
  let* review := normalizeReview item in
  cand_of_review review.

Definition cands_of_json_script (scriptContent : string) : list cand :=
  caught
    (let* jsonData := Json.parse scriptContent in
     if isArray jsonData then
       let* items := as_array jsonData in
       Ok (until_throw (cand_of_json_item false) items)
     else
       let* found := jsonData ~> "reviews" <|> jsonData ~> "data" <|> geti jsonData 0 in
       if truthy found then
         let* reviewList := jsonData ~> "reviews" <|> jsonData ~> "data"
                            <|> ret (if isArray jsonData then jsonData else VArr []) in
         let* items := as_array reviewList in
         Ok (until_throw cand_of_listed_item items)
       else Ok []).

Definition cands_of_script (m : mres) : result (list cand) :=
  let* scriptContent := as_string (group m 1) in
  if includes scriptContent "review" || includes scriptContent "rating"
     || includes scriptContent "_df_"
  then
    let spans :=
      flat_map (fun pattern => flat_map cands_of_json_span (matchAll scriptContent pattern))
        reviewJsonPatterns in
    let t := trim scriptContent in
    Ok (if startsWith t "{" || startsWith t "["
        then (spans ++ cands_of_json_script scriptContent)%list
        else spans)
  else Ok [].

Definition concatM {A : Type} (f : A -> result (list cand)) (l : list A) : result (list cand) :=
  let* ls := mapM f l in Ok (concat ls).

Definition cands_embedded (html : string) : result (list cand) :=
  concatM cands_of_script (matchAll html scriptPattern).

(** Strategy 3 *)
Definition cand_of_block (blockMatch : mres) : result (list cand) :=
  let* reviewHtml := as_string (group blockMatch 1) in
  let* rating := if_match (first_match reviewHtml reviewRatingPatterns) group1_int (ret VNull) in
  let* text0 :=
    if_match (first_match reviewHtml reviewTextPatterns)
      (fun m => let* t := group1_text m in ret (VStr t)) (ret VNull) in
  let text := match text0 with
              | VStr t => if t =? "" then text0 else VStr (unescape_entities t)
              | _ => text0
              end in
  let* author := if_match (first_match reviewHtml reviewAuthorPatterns) group1_trim (ret VNull) in
  let* date := if_match (first_match reviewHtml reviewDatePatterns) group1_trim (ret VNull) in
  let* reviewId :=
    if_match (first_match reviewHtml reviewIdPatterns) (fun m => ret (group m 1)) (ret VNull) in
  let* thumbsUp := if_match (first_match reviewHtml thumbsUpPatterns) group1_int (ret (num 0)) in
  if truthy rating || truthy text || truthy author then
    let* reviewKey :=
      ret reviewId <|> ret text
      <|> (let* a := to_string author in
           let* d := to_string date in
           ret (VStr (a ++ "-" ++ d))) in
    let* review :=
      object
        [ ("reviewId", ret reviewId);
          ("userName", ret author <|> ret (VStr "Anonymous"));
          ("userImage", ret VNull);
          ("date", ret date);
          ("dateText", ret date);
          ("score", ret rating <|> ret (num 0));
          ("scoreText", if truthy rating then call_toString rating else ret (VStr "0"));
          ("title", ret VNull);
          ("text", ret text);
          ("replyDate", ret VNull);
          ("replyText", ret VNull);
          ("version", ret VNull);
          ("thumbsUp", ret thumbsUp);
          ("criterias", ret (VArr [])) ] in
    Ok [(reviewKey, review)]
  else Ok [].

Definition cands_visible (html : string) : result (list cand) :=
  concatM (fun pattern => concatM cand_of_block (matchAll html pattern)) reviewPatterns.

(** All candidates of a document, structured data first. *)
Definition candidates (html : string) : result (list cand) :=
  let* embedded := cands_embedded html in
  let* visible := cands_visible html in
  Ok (cands_structured html ++ embedded ++ visible)%list.

End Candidates.

(* ================================================================== *)
(** ** Readings of the results and the documents used below *)
(* ================================================================== *)

Module Samples.
Import JS Regex Control.

(** Property [k] of the record a parser returned, when it returned one. *)
Definition prop_of (r : result value) (k : string) : option value :=
  match r with
  | Ok (VObj fs) => assoc k fs
  | _ => None
  end.

(** Scenario A of the specification. *)
Definition scenarioA : value :=
  VObj [("results",
         VArr [VObj [("trackId", num 123); ("bundleId", VStr "com.x");
                     ("trackName", VStr "X"); ("price", num 0)]])].

(** A lookup answer whose only app has no [price]. *)
Definition noPrice : value :=
  VObj [("results", VArr [VObj [("trackId", num 123)]])].

(** An app page with a JSON-LD block and visible markup for the same fields. *)
Definition bothSources : string :=
  bq ("<script type='application/ld+json'>"
      ++ "{`@type`:`SoftwareApplication`,`name`:`A`,`image`:`i1`,`description`:`d1`}"
      ++ "</script><h1 class='title'>B</h1>"
      ++ "<meta property='og:image' content='i2'><div class='description'>d2</div>").

(** A reviews page with two JSON-LD reviews of the same [@id]: the first
    has a text and no rating, the second a rating and no text. *)
Definition sameIdTwice : string :=
  bq ("<script type='application/ld+json'>"
      ++ "{`@type`:`Review`,`@id`:`r1`,`reviewBody`:`great`}</script>"
      ++ "<script type='application/ld+json'>"
      ++ "{`@type`:`Review`,`@id`:`r1`,`reviewRating`:{`ratingValue`:5}}</script>").

Definition firstReview : value :=
  VObj [ ("reviewId", VStr "r1"); ("userName", VStr "Anonymous"); ("userImage", VNull);
         ("date", VNull); ("dateText", VNull); ("score", num 0); ("scoreText", VStr "0");
         ("title", VNull); ("text", VStr "great"); ("replyDate", VNull);
         ("replyText", VNull); ("version", VNull); ("thumbsUp", num 0);
         ("criterias", VArr []) ].

Definition secondReview : value :=
  VObj [ ("reviewId", VStr "r1"); ("userName", VStr "Anonymous"); ("userImage", VNull);
         ("date", VNull); ("dateText", VNull); ("score", num 5); ("scoreText", VStr "5");
         ("title", VNull); ("text", VNull); ("replyDate", VNull);
         ("replyText", VNull); ("version", VNull); ("thumbsUp", num 0);
         ("criterias", VArr []) ].

(** The same page without the visible markup. *)
Definition structuredOnly : string :=
  bq ("<script type='application/ld+json'>"
      ++ "{`@type`:`SoftwareApplication`,`name`:`A`,`image`:`i1`,`description`:`d1`}"
      ++ "</script>").

(** The record [parseApp] returns for [bothSources]. *)
Definition bothSourcesFields : list (string * value) :=
  Eval vm_compute in
    match GooglePlay.parseApp (VStr bothSources) with
    | Ok (VObj fs) => fs
    | _ => []
    end.

(** A page without any category link or script. *)
Definition noCategories : string := "<html></html>".

(** A page whose only script lists one permission, the empty string. *)
Definition emptyPermission : string := bq "<script>permissions: [``]</script>".

(** A page with a pagination token and nothing else. *)
Definition tokenOnly : string := "<a data-pagination-token='abc'></a>".

(** A page with no script, no review block and no token. *)
Definition plainPage : string := "<p>hello</p>".

(** No script element, hence no JSON-LD block and no embedded JSON. *)
Definition no_embedded_json (html : string) : Prop :=
  matchAll html GooglePlay.jsonLdPattern = [] /\ matchAll html GooglePlay.scriptPattern = [].

(** No block of the visible markup is a review block. *)
Definition no_review_markup (html : string) : Prop :=
  Forall (fun pattern => matchAll html pattern = []) GooglePlay.reviewPatterns.

(** [l] in ascending order of code units, without repetition. *)
Fixpoint strictly_sorted (l : list string) : bool :=
  match l with
  | a :: ((b :: _) as r) =>
      match String.compare a b with Lt => strictly_sorted r | _ => false end
  | _ => true
  end.

(** [l] in ascending order of code units, repetitions allowed. *)
Fixpoint sorted (l : list string) : bool :=
  match l with
  | a :: ((b :: _) as r) =>
      match String.compare a b with Gt => false | _ => sorted r end
  | _ => true
  end.

(** The guard of [parseRatings]: the input has rating data. *)
Definition has_rating (appData : value) : bool :=
  truthy appData &&
  match getp appData "rating" with
  | Ok r => truthy r
  | Throw _ => false
  end.

(** Every regular expression of the Google Play parsers. *)
Definition all_patterns : list regex :=
  (GooglePlay.appIdPatterns ++ GooglePlay.titlePatterns ++ GooglePlay.devPatterns
   ++ GooglePlay.pricePatterns ++ GooglePlay.ratingPatterns
   ++ GooglePlay.ratingCountPatterns ++ GooglePlay.iconPatterns
   ++ GooglePlay.descPatterns ++ GooglePlay.adSupportedPatterns
   ++ GooglePlay.inAppPurchasesPatterns
   ++ [GooglePlay.quotPattern; GooglePlay.ampPattern; GooglePlay.ltPattern;
       GooglePlay.gtPattern; GooglePlay.tagPattern; GooglePlay.appJsonLdPattern; GooglePlay.devIdPattern;
       GooglePlay.commaPattern; GooglePlay.nonDigitPattern;
       GooglePlay.versionNumberPattern; GooglePlay.screenshotPattern;
       GooglePlay.categoryPattern; GooglePlay.updatedPattern;
       GooglePlay.categoryLinkPattern; GooglePlay.categoryArrayPattern;
       GooglePlay.quotedPattern; GooglePlay.metaPermissionPattern]
   ++ GooglePlay.versionPatterns ++ GooglePlay.contentRatingPatterns
   ++ GooglePlay.installsPatterns ++ GooglePlay.sizePatterns
   ++ GooglePlay.androidVersionPatterns ++ GooglePlay.recentChangesPatterns
   ++ GooglePlay.permissionsSectionPatterns ++ GooglePlay.permissionItemPatterns
   ++ GooglePlay.namePatterns ++ GooglePlay.typePatterns
   ++ GooglePlay.permissionJsonPatterns ++ GooglePlay.commonPermissionPatterns
   ++ GooglePlay.reviewJsonPatterns ++ GooglePlay.reviewPatterns
   ++ GooglePlay.reviewRatingPatterns ++ GooglePlay.reviewTextPatterns
   ++ GooglePlay.reviewAuthorPatterns ++ GooglePlay.reviewDatePatterns
   ++ GooglePlay.reviewIdPatterns ++ GooglePlay.thumbsUpPatterns
   ++ GooglePlay.paginationPatterns
   ++ [GooglePlay.jsonLdPattern; GooglePlay.scriptPattern])%list.

End Samples.

(* ================================================================== *)
(** ** The other App Store parsers

    [parseReviews], [parseVersionHistory], [parsePrivacy] and [parseList] of
    [parsers/appStore] read the JSON of the RSS feeds and of the lookup
    pages, [parseSimilarFromHTML] the page of an app.  The
    property names they read are own properties of the parsed document; the
    one exception is [link], which a string inherits as a method: indexing
    that method, or reading [attributes] from it, gives [undefined], as
    reading from the [undefined] of this model does. *)
(* ================================================================== *)

Module AppStoreFeeds.
Import JS Regex Control.
Local Open Scope js_scope.

(** [v?.[i]] *)
Definition geti_opt (v : value) (i : nat) : result value :=
  match v with
  | VUndefined | VNull => Ok VUndefined
  | _ => geti v i
  end.

(** [r?.[i]] where [r] is itself the outcome of an expression. *)
Definition getr_iopt (r : result value) (i : nat) : result value :=
  bind r (fun v => geti_opt v i).

(** [n || 0] for a number [n] *)
Definition num_or_zero (n : number) : value :=
  if num_truthy n then VNum n else num 0.

(** The record [parseVersionHistory] maps a version to. *)
Definition version_record (version : value) : result value :=
  object
    [ ("versionDisplay", version ~> "versionDisplay" <|> version ~> "version" <|> ret VNull);
      ("releaseNotes", version ~> "releaseNotes" <|> ret VNull);
      ("releaseDate", version ~> "releaseDate" <|> ret VNull);
      ("releaseTimestamp", version ~> "releaseTimestamp" <|> ret VNull) ].

(** [parseVersionHistory(data)] *)
Definition parseVersionHistory (data : value) : result value :=
  if negb (truthy data) || negb (isArray data) then Ok (VArr []) else
  let* items := as_array data in
  let* out := mapM version_record items in
  Ok (VArr out).

Definition userIdPattern : regex := re "\/id(\d+)" "".

(** The record [parseReviews] maps an entry of the feed to. *)
Definition review_record (entry : value) : result value :=
  let* author := getr_iopt (entry ~> "author") 0 <|> entry ~> "author" <|> ret (VObj []) in
  let* rating := getr_opt (entry ~> "im:rating") "label" <|> entry ~> "im:rating"
                 <|> ret (VStr "0") in
  let* version := getr_opt (entry ~> "im:version") "label" <|> entry ~> "im:version"
                  <|> ret VNull in
  let* title := getr_opt (entry ~> "title") "label" <|> entry ~> "title" <|> ret VNull in
  let* content := getr_opt (entry ~> "content") "label"
                  <|> getr_opt (getr_iopt (entry ~> "content") 0) "label"
                  <|> entry ~> "content" <|> ret VNull in
  let* updated := getr_opt (entry ~> "updated") "label" <|> entry ~> "updated" <|> ret VNull in
  let* id := getr_opt (entry ~> "id") "label" <|> entry ~> "id" <|> ret VNull in
  let* has_uri := getr_opt (author ~> "uri") "label" <|> author ~> "uri" in
  let* userUrl :=
    if truthy has_uri then
      let* uri := getr (author ~> "uri") "label" <|> author ~> "uri" in
      let* text := as_string uri in
      match smatch text userIdPattern with
      | Some _ => Ok uri
      | None => Ok VNull
      end
    else Ok VNull in
  object
    [ ("id", ret id <|> ret VNull);
      ("userName", getr_opt (author ~> "name") "label" <|> author ~> "name"
                   <|> ret (VStr "Anonymous"));
      ("userUrl", ret userUrl <|> ret VNull);
      ("version", ret version);
      ("score", let* s := to_string rating in ret (num_or_zero (parseInt10 s)));
      ("title", ret title);
      ("text", ret content);
      ("updated", ret updated);
      ("url", getr_opt (getr_opt (getr_iopt (entry ~> "link") 0) "attributes") "href"
              <|> getr_opt (getr_opt (entry ~> "link") "attributes") "href"
              <|> ret VNull) ].

(** [parseReviews(data)] of [parsers/appStore/reviews.js]; [slice(1)] leaves
    the first entry unread. *)
Definition parseReviews (data : value) : result value :=
  if negb (truthy data) then Ok (VArr []) else
  let* feed := data ~> "feed" in
  if negb (truthy feed) then Ok (VArr []) else
  let* entry := getr (data ~> "feed") "entry" in
  if negb (truthy entry) then Ok (VArr []) else
  let reviews := match entry with VArr l => tl l | _ => [] end in
  let* out := mapM review_record reviews in
  Ok (VArr out).

Definition category_record (category : value) : result value :=
  object
    [ ("dataCategory", category ~> "dataCategory" <|> ret VNull);
      ("identifier", category ~> "identifier" <|> ret VNull);
      ("dataTypes", category ~> "dataTypes" <|> ret (VArr [])) ].

Definition privacyType_record (privacyType : value) : result value :=
  object
    [ ("privacyType", privacyType ~> "privacyType" <|> ret VNull);
      ("identifier", privacyType ~> "identifier" <|> ret VNull);
      ("description", privacyType ~> "description" <|> ret VNull);
      ("dataCategories",
         let* categories := privacyType ~> "dataCategories" <|> ret (VArr []) in
         let* items := as_array categories in
         let* out := mapM category_record items in
         ret (VArr out));
      ("purposes", privacyType ~> "purposes" <|> ret (VArr [])) ].

(** [parsePrivacy(data)] of [parsers/appStore/privacy.js] *)
Definition parsePrivacy (data : value) : result value :=
  if negb (truthy data) || negb (typeof_object data) then Ok VNull else
  object
    [ ("managePrivacyChoicesUrl", data ~> "managePrivacyChoicesUrl" <|> ret VNull);
      ("privacyTypes",
         let* types := data ~> "privacyTypes" <|> ret (VArr []) in
         let* items := as_array types in
         let* out := mapM privacyType_record items in
         ret (VArr out)) ].

(** *** The ranking feed: [parseList] and its helpers *)

Definition extractId (entry : value) : result value :=
  getr_opt (getr_opt (entry ~> "id") "attributes") "im:id"
  <|> getr_opt (entry ~> "im:id") "label"
  <|> getr_opt (entry ~> "id") "label"
  <|> ret VNull.

Definition extractBundleId (entry : value) : result value :=
  getr_opt (entry ~> "im:bundleId") "label" <|> ret VNull.

Definition extractTitle (entry : value) : result value :=
  getr_opt (entry ~> "title") "label"
  <|> getr_opt (entry ~> "im:name") "label"
  <|> entry ~> "title"
  <|> ret VNull.

Definition extractArtist (entry : value) : result value :=
  getr_opt (entry ~> "im:artist") "label"
  <|> getr_opt (getr_opt (entry ~> "author") "name") "label"
  <|> getr_opt (entry ~> "im:artist") "label"
  <|> ret VNull.

Definition artistIdPattern : regex := re "id(\d+)" "".

(** [href?.match(...)] asks only whether [href] is there: a value that is
    no string has no method [match]. *)
Definition extractArtistId (entry : value) : result value :=
  let* href := getr_opt (getr_opt (entry ~> "im:artist") "attributes") "href" in
  (match href with
   | VUndefined | VNull => Ok VUndefined
   | _ =>
       let* text := as_string href in
       match smatch text artistIdPattern with
       | Some m => Ok (group m 1)
       | None => Ok VUndefined
       end
   end) <|> ret VNull.

Definition extractDescription (entry : value) : result value :=
  getr_opt (entry ~> "summary") "label"
  <|> getr_opt (entry ~> "content") "label"
  <|> getr_opt (entry ~> "description") "label"
  <|> ret VNull.

Definition notPricePattern : regex := re "[^0-9.]" "g".
Definition notCountPattern : regex := re "[^0-9]" "g".

Definition extractPrice (entry : value) : result value :=
  let* priceStr := getr_opt (entry ~> "im:price") "label" <|> entry ~> "im:price"
                   <|> ret (VStr "0") in
  let* text := as_string priceStr in
  Ok (num_or_zero (parseFloat (replaceAll text notPricePattern ""))).

Definition extractRating (entry : value) : result value :=
  let* ratingStr := getr_opt (entry ~> "im:rating") "label" <|> entry ~> "im:rating"
                    <|> ret VNull in
  if truthy ratingStr then
    let* text := to_string ratingStr in Ok (VNum (parseFloat text))
  else Ok VNull.

Definition extractRatingCount (entry : value) : result value :=
  let* countStr := getr_opt (entry ~> "im:ratingCount") "label" <|> entry ~> "im:ratingCount"
                   <|> ret (VStr "0") in
  let* text := as_string countStr in
  Ok (num_or_zero (parseInt10 (replaceAll text notCountPattern ""))).

Definition extractIcon (entry : value) : result value :=
  let* images := entry ~> "im:image" in
  match images with
  | VArr (_ :: _ as l) =>
      getp_opt (nth (List.length l - 1) l VUndefined) "label"
      <|> getp_opt (nth 0 l VUndefined) "label" <|> ret VNull
  | _ => getp_opt images "label" <|> ret VNull
  end.

Definition extractScreenshots (entry : value) : result value := Ok (VArr []).

Definition extractCategory (entry : value) : result value :=
  getr_opt (getr_opt (entry ~> "category") "attributes") "label"
  <|> getr_opt (getr_opt (entry ~> "im:category") "attributes") "label"
  <|> getr_opt (entry ~> "category") "label"
  <|> ret VNull.

Definition extractReleaseDate (entry : value) : result value :=
  getr_opt (entry ~> "im:releaseDate") "label"
  <|> getr_opt (entry ~> "published") "label"
  <|> getr_opt (entry ~> "updated") "label"
  <|> ret VNull.

(** The raw app [parseList] builds from an entry of the feed. *)
Definition rss_app (entry : value) : result value :=
  object
    [ ("trackId", extractId entry);
      ("bundleId", extractBundleId entry);
      ("trackName", extractTitle entry);
      ("artistName", extractArtist entry);
      ("artistId", extractArtistId entry);
      ("description", extractDescription entry);
      ("price", extractPrice entry);
      ("currency", ret (VStr "USD"));
      ("averageUserRating", extractRating entry);
      ("userRatingCount", extractRatingCount entry);
      ("artworkUrl100", extractIcon entry);
      ("artworkUrl512", extractIcon entry);
      ("screenshotUrls", extractScreenshots entry);
      ("primaryGenreName", extractCategory entry);
      ("releaseDate", extractReleaseDate entry);
      ("kind", ret (VStr "software")) ].

(** One turn of the loop of [parseList]. *)
Definition list_step (apps : list value) (entry : value) : result (list value) :=
  let* app := rss_app entry in
  let* normalizedApp := AppStore.parseApp (VObj [("results", VArr [app])]) in
  Ok (if truthy normalizedApp then (apps ++ [normalizedApp])%list else apps).

(** [parseList(data)]: the loop runs in a [try] whose handler only logs, so
    the apps pushed before an entry throws are returned. *)
Definition parseList (data : value) : result value :=
  if negb (truthy data) then Ok (VArr []) else
  let* feed := data ~> "feed" in
  if negb (truthy feed) then Ok (VArr []) else
  let body :=
    let* entry := getr (data ~> "feed") "entry" in
    if truthy entry && isArray entry then
      let* entries := as_array entry in
      Ok (forEach_caught list_step entries [])
    else Ok [] in
  match body with
  | Ok apps => Ok (VArr apps)
  | Throw _ => Ok (VArr [])
  end.

(** *** Similar apps: [parseSimilarFromHTML] *)

Definition similarJsonLdPattern : regex :=
  re "<script[^>]*type=[`']application\/ld\+json[`'][^>]*>(.*?)<\/script>" "gis".
Definition appLinkPattern : regex := re "apps\.apple\.com\/[^\/]+\/app\/id(\d+)" "gi".
Definition urlIdPattern : regex := re "\/id(\d+)" "".

(** [extractIdFromUrl(url)] *)
Definition extractIdFromUrl (url : value) : result value :=
  if negb (truthy url) then Ok VNull else
  let* text := as_string url in
  match smatch text urlIdPattern with
  | Some m => Ok (group m 1)
  | None => Ok VNull
  end.

(** The body of [apps.forEach]. *)
Definition similar_of_app (similarApps : list value) (app : value) : result (list value) :=
  let* url := app ~> "url" in
  if truthy url then
    let* r := object
      [ ("id", (let* u := app ~> "url" in extractIdFromUrl u) <|> ret VNull);
        ("appId", ret VNull);
        ("title", app ~> "name" <|> ret VNull);
        ("url", app ~> "url" <|> ret VNull) ] in
    Ok (similarApps ++ [r])%list
  else Ok similarApps.

(** One JSON-LD block, in its own [try]: what [forEach] pushed before an
    app throws stays in the list. *)
Definition similar_of_jsonld (similarApps : list value) (m : mres) : list value :=
  let body :=
    let* jsonLd := Json.parse_of (group m 1) in
    let* graph := jsonLd ~> "@graph" in
    if truthy graph then
      let* items := as_array graph in
      let* apps :=
        filterM (fun item =>
          let* t := item ~> "@type" in
          Ok (strict_eq t (VStr "SoftwareApplication"))) items in
      Ok (forEach_caught similar_of_app apps similarApps)
    else Ok similarApps in
  match body with
  | Ok apps => apps
  | Throw _ => similarApps
  end.

(** One link to an app page; the state is [seenIds] and [similarApps]. *)
Definition similar_of_link (st : list value * list value) (m : mres)
  : result (list value * list value) :=
  let '(seenIds, similarApps) := st in
  let appId := group m 1 in
  if negb (set_has seenIds appId) then
    let* text := to_string appId in
    Ok ((seenIds ++ [appId])%list,
        (similarApps ++
         [VObj [ ("id", VNum (parseInt10 text));
                 ("appId", VNull);
                 ("title", VNull);
                 ("url", VStr ("https://apps.apple.com/app/id" ++ text)) ]])%list)
  else Ok st.

(** [parseSimilarFromHTML(html)]: the whole body runs in a [try] whose
    handler does nothing, and the list is returned after it.  A value that
    is no string has no method [matchAll], so nothing is pushed for it. *)
Definition parseSimilarFromHTML (html : value) : result value :=
  match html with
  | VStr text =>
      let similarApps := fold_left similar_of_jsonld (matchAll text similarJsonLdPattern) [] in
      Ok (VArr (snd (forEach_caught similar_of_link (matchAll text appLinkPattern)
                       ([], similarApps))))
  | _ => Ok (VArr [])
  end.

End AppStoreFeeds.

(* ================================================================== *)
(** ** The other Google Play parsers: [parseSimilar] and [parseDataSafety] *)
(* ================================================================== *)

Module GooglePlayPages.
Import JS Regex Control.
Local Open Scope js_scope.

(** [l.find(a => a[k] === x)] *)
Fixpoint find_by (k : string) (x : value) (l : list value) : result value :=
  match l with
  | [] => Ok VUndefined
  | a :: r => let* y := a ~> k in if strict_eq y x then Ok a else find_by k x r
  end.

Fixpoint index_from (s p : string) (i : Z) : Z :=
  if startsWith s p then i else
  match s with
  | String _ s' => index_from s' p (i + 1)
  | EmptyString => (-1)%Z
  end.

(** [s.indexOf(p)] *)
Definition indexOf (s p : string) : Z := index_from s p 0.

(** [s.substring(a, b)]: both ends are clamped to the string and swapped
    when they come in the wrong order. *)
Definition substring (s : string) (a b : Z) : string :=
  let len := Z.of_nat (String.length s) in
  let a' := Z.min (Z.max a 0) len in
  let b' := Z.min (Z.max b 0) len in
  stake (Z.to_nat (Z.max a' b' - Z.min a' b')) (sdrop (Z.to_nat (Z.min a' b')) s).

(** *** parseSimilar *)

Definition similarSectionPatterns : list regex :=
  [ re "<div[^>]*class=[`'][^`']*similar[`'][^>]*>([\s\S]*?)<\/div>" "i";
    re "<section[^>]*class=[`'][^`']*you-might-also-like[`'][^>]*>([\s\S]*?)<\/section>" "i" ].
Definition similarLinkPattern : regex :=
  re "<a[^>]*href=[`']\/store\/apps\/details\?id=([^&`']+)[`'][^>]*>" "gi".
Definition similarTitlePatterns : list regex :=
  [ re "<span[^>]*title=[`']([^`']+)[`']" "i";
    re "<div[^>]*class=[`'][^`']*title[`'][^>]*>([^<]+)<\/div>" "i" ].
Definition similarIconPattern : regex := re "<img[^>]*src=[`']([^`']+)[`'][^>]*>" "i".
Definition similarScorePattern : regex := re "(\d+\.?\d*)\s*stars?" "i".
Definition similarAppsPattern : regex := re "similarApps[`']?\s*:\s*\[([\s\S]*?)\]" "i".
Definition similarIdPattern : regex := re "id[`']?\s*:\s*[`']([^`']+)[`']" "gi".

Definition details_url (appId : string) : string :=
  "https://play.google.com/store/apps/details?id=" ++ appId.

(** One link of the similar-apps section. *)
Definition similar_of_link (sectionHtml : string) (similarApps : list value) (m : mres)
  : result (list value) :=
  let appId := group m 1 in
  let linkStart := indexOf sectionHtml (m_text m) in
  let contextHtml :=
    substring sectionHtml (Z.max 0 (linkStart - 500)) (linkStart + 500) in
  let* title := GooglePlay.if_match (GooglePlay.first_match contextHtml similarTitlePatterns)
                         GooglePlay.group1_trim (ret VNull) in
  let icon := match smatch contextHtml similarIconPattern with
              | Some iconMatch => group iconMatch 1
              | None => VNull
              end in
  let* score := match smatch contextHtml similarScorePattern with
                | Some scoreMatch =>
                    let* t := to_string (group scoreMatch 1) in ret (VNum (parseFloat t))
                | None => ret VNull
                end in
  if truthy appId then
    let* found := find_by "appId" appId similarApps in
    if negb (truthy found) then
      let* text := to_string appId in
      let* r := object
        [ ("appId", ret appId);
          ("url", ret (VStr (details_url text)));
          ("title", ret title);
          ("icon", ret icon);
          ("score", ret score);
          ("scoreText", if truthy score then
                          match score with
                          | VNum n => ret (VStr (toFixed1 n))
                          | _ => Throw TypeError
                          end
                        else ret VNull);
          ("priceText", ret VNull);
          ("free", ret VNull);
          ("summary", ret VNull);
          ("developer", ret VNull);
          ("developerId", ret VNull) ] in
      Ok (similarApps ++ [r])%list
    else Ok similarApps
  else Ok similarApps.

(** One identifier of a [similarApps] array of a script. *)
Definition similar_of_id (similarApps : list value) (idMatch : mres) : result (list value) :=
  let appId := group idMatch 1 in
  if truthy appId then
    let* found := find_by "appId" appId similarApps in
    if negb (truthy found) then
      let* text := to_string appId in
      Ok (similarApps ++ [VObj [("appId", appId); ("url", VStr (details_url text))]])%list
    else Ok similarApps
  else Ok similarApps.

(** One script element; the search inside it runs in a [try] of its own. *)
Definition similar_of_script (similarApps : list value) (m : mres) : result (list value) :=
  let* scriptContent := as_string (group m 1) in
  if includes scriptContent "similar" || includes scriptContent "recommended" then
    Ok (match smatch scriptContent similarAppsPattern with
        | Some similarMatch =>
            match as_string (group similarMatch 1) with
            | Ok similarData =>
                forEach_caught similar_of_id (matchAll similarData similarIdPattern) similarApps
            | Throw _ => similarApps
            end
        | None => similarApps
        end)
  else Ok similarApps.

(** [parseSimilar(html)] of [parsers/googlePlay/similar.js] *)
Definition parseSimilar (html : value) : result value :=
  match html with
  | VStr text =>
      if text =? "" then Ok (VArr []) else
      try_catch
        (let* fromSection :=
           match GooglePlay.first_match text similarSectionPatterns with
           | Some similarSection =>
               let* sectionHtml := as_string (group similarSection 1) in
               foldM (similar_of_link sectionHtml)
                     (matchAll sectionHtml similarLinkPattern) []
           | None => Ok []
           end in
         let* similarApps :=
           foldM similar_of_script (matchAll text GooglePlay.scriptPattern) fromSection in
         Ok (VArr similarApps))
        (fun _ => Ok (VArr []))
  | _ => Ok (VArr [])
  end.

(** *** parseDataSafety *)

(** A regular expression literal with its source text and flags, for the
    places that read one of them: [matchAll] demands the [g] flag, and the
    section loops read [pattern.source]. *)
Record pattern := mkPattern { p_source : string; p_flags : string }.

Definition compile (p : pattern) : regex := re (p_source p) (p_flags p).

(** [s.matchAll(p)]: an expression without the [g] flag is a TypeError. *)
Definition matchAll_of (s : string) (p : pattern) : result (list mres) :=
  if has_flag (p_flags p) "g" then Ok (matchAll s (compile p)) else Throw TypeError.

(** The object [result] of [parseDataSafety]. *)
Record safety := mkSafety {
  dataShared : list value;
  dataCollected : list value;
  securityPractices : list value;
  privacyPolicyUrl : value
}.

Definition privacyPolicyPatterns : list regex :=
  [ re "<a[^>]*href=[`']([^`']*privacy[^`']*)[`'][^>]*>" "i";
    re "privacy[^`']*policy[`'][^>]*href=[`']([^`']+)[`']" "i";
    re "<link[^>]*rel=[`']privacy-policy[`'][^>]*href=[`']([^`']+)[`']" "i";
    re "privacyPolicyUrl[`']:\s*[`']([^`']+)[`']" "i";
    re "privacy.*?policy.*?url[`']:\s*[`']([^`']+)[`']" "i" ].

Definition safetyJsonLdPattern : regex :=
  re "<script[^>]*type=[`']application\/ld\+json[`'][^>]*>([\s\S]*?)<\/script>" "gi".

(** [Array.isArray(v) ? v : []] *)
Definition array_or_empty (v : value) : list value :=
  match v with
  | VArr l => l
  | _ => []
  end.

(** The three assignments from a parsed object [src].  Reading a property
    of [src] throws only when [src] is [null], and then at the first read,
    so no assignment is lost to a later throw. *)
Definition take_lists (src : value) (st : safety) : result safety :=
  let* shared := src ~> "dataShared" in
  let st := if truthy shared
            then mkSafety (array_or_empty shared) (dataCollected st)
                          (securityPractices st) (privacyPolicyUrl st)
            else st in
  let* collected := src ~> "dataCollected" in
  let st := if truthy collected
            then mkSafety (dataShared st) (array_or_empty collected)
                          (securityPractices st) (privacyPolicyUrl st)
            else st in
  let* practices := src ~> "securityPractices" in
  Ok (if truthy practices
      then mkSafety (dataShared st) (dataCollected st)
                    (array_or_empty practices) (privacyPolicyUrl st)
      else st).

(** Strategy 2, one JSON-LD block in its own [try]. *)
Definition safety_of_jsonld (st : safety) (m : mres) : safety :=
  let body :=
    let* jsonLd := Json.parse_of (group m 1) in
    let* found := jsonLd ~> "dataSafety" <|> jsonLd ~> "data-safety"
                  <|> jsonLd ~> "data_safety" in
    if truthy found then
      let* ds := jsonLd ~> "dataSafety" <|> jsonLd ~> "data-safety"
                 <|> jsonLd ~> "data_safety" in
      take_lists ds st
    else Ok st in
  match body with
  | Ok st' => st'
  | Throw _ => st
  end.

Definition safetyJsonPatterns : list regex :=
  [ re "dataSafety[`']?\s*:\s*\{([\s\S]*?)\}" "i";
    re "`data-safety`[`']?\s*:\s*\{([\s\S]*?)\}" "i";
    re "data_safety[`']?\s*:\s*\{([\s\S]*?)\}" "i" ].

(** Strategy 3, one pattern on one script; the parse has its own [try]. *)
Definition safety_of_pattern (scriptContent : string) (st : safety) (p : regex)
  : result safety :=
  match smatch scriptContent p with
  | Some jsonMatch =>
      Ok (match (let* inner := to_string (group jsonMatch 1) in
                 let* jsonData := Json.parse ("{" ++ inner ++ "}") in
                 take_lists jsonData st) with
          | Ok st' => st'
          | Throw _ => st
          end)
  | None => Ok st
  end.

Definition safety_of_script (st : safety) (m : mres) : result safety :=
  let* scriptContent := as_string (group m 1) in
  if includes scriptContent "dataSafety" || includes scriptContent "data-safety"
     || includes scriptContent "data_safety"
  then foldM (safety_of_pattern scriptContent) safetyJsonPatterns st
  else Ok st.

Definition dataSafetySectionPatterns : list regex :=
  [ re "<div[^>]*class=[`'][^`']*data-safety[`'][^>]*>([\s\S]*?)<\/div>" "i";
    re "<section[^>]*id=[`']data-safety[`'][^>]*>([\s\S]*?)<\/section>" "i";
    re "<div[^>]*id=[`']data-safety[`'][^>]*>([\s\S]*?)<\/div>" "i";
    re "<section[^>]*class=[`'][^`']*data-safety[`'][^>]*>([\s\S]*?)<\/section>" "i" ].

Definition dataSharedPatterns : list pattern :=
  [ mkPattern "data.*?shared[`']?\s*:\s*\[([\s\S]*?)\]" "i";
    mkPattern "<div[^>]*class=[`'][^`']*data-shared[`'][^>]*>([\s\S]*?)<\/div>" "gi";
    mkPattern "<section[^>]*class=[`'][^`']*data-shared[`'][^>]*>([\s\S]*?)<\/section>" "gi" ].

Definition dataCollectedPatterns : list pattern :=
  [ mkPattern "data.*?collected[`']?\s*:\s*\[([\s\S]*?)\]" "i";
    mkPattern "<div[^>]*class=[`'][^`']*data-collected[`'][^>]*>([\s\S]*?)<\/div>" "gi";
    mkPattern "<section[^>]*class=[`'][^`']*data-collected[`'][^>]*>([\s\S]*?)<\/section>" "gi" ].

Definition securityPatterns : list pattern :=
  [ mkPattern "security.*?practices[`']?\s*:\s*\[([\s\S]*?)\]" "i";
    mkPattern "<div[^>]*class=[`'][^`']*security-practices[`'][^>]*>([\s\S]*?)<\/div>" "gi" ].

Definition dataItemPatterns : list pattern :=
  [ mkPattern "<span[^>]*>([^<]+)<\/span>" "gi";
    mkPattern "<div[^>]*class=[`'][^`']*item[`'][^>]*>([^<]+)<\/div>" "gi";
    mkPattern "`([^`]+)`" "g" ].

Definition purposePatterns : list regex :=
  [ re "purpose[`']:\s*[`']([^`']+)[`']" "i";
    re "<span[^>]*class=[`'][^`']*purpose[`'][^>]*>([^<]+)<\/span>" "i" ].

(** [extractPurpose(html)] *)
Definition extractPurpose (html : string) : result value :=
  GooglePlay.if_match (GooglePlay.first_match html purposePatterns)
                      GooglePlay.group1_trim (ret (VStr "")).

Definition dataTypes : list (string * string) :=
  [ ("name", "Personal info"); ("email", "Personal info"); ("phone", "Personal info");
    ("address", "Personal info"); ("location", "Location"); ("contacts", "Contacts");
    ("photos", "Photos/Media/Files"); ("camera", "Photos/Media/Files");
    ("microphone", "Audio"); ("calendar", "Calendar"); ("sms", "Messages");
    ("call", "Phone") ].

(** [extractDataType(dataName)] *)
Definition extractDataType (dataName : string) : string :=
  let lowerName := toLowerCase dataName in
  match find (fun kv => includes lowerName (fst kv)) dataTypes with
  | Some kv => snd kv
  | None => ""
  end.

Definition descriptionPatterns : list regex :=
  [ re "description[`']:\s*[`']([^`']+)[`']" "i";
    re "<p[^>]*>([^<]+)<\/p>" "i";
    re "<span[^>]*>([^<]+)<\/span>" "i" ].

(** [extractDescription(html)] *)
Definition extractDescription (html : string) : result value :=
  GooglePlay.if_match (GooglePlay.first_match html descriptionPatterns)
                      GooglePlay.group1_trim (ret (VStr "")).

Definition stop_words : list string := ["and"; "or"; "the"; "a"; "an"].

(** One data item of an item pattern; [items] is [result.dataShared] or
    [result.dataCollected], the two loops being the same text. *)
Definition add_data_item (itemHtml : string) (items : list value) (itemMatch : mres)
  : result (list value) :=
  let* raw := as_string (group itemMatch 1) in
  let dataText := trim raw in
  if negb (dataText =? "") && (2 <? String.length dataText)%nat
     && (String.length dataText <? 100)%nat then
    if negb (startsWith dataText "<")
       && negb (GooglePlay.str_in (toLowerCase dataText) stop_words) then
      let* existing := find_by "data" (VStr dataText) items in
      if negb (truthy existing) then
        let* r := object
          [ ("data", ret (VStr dataText));
            ("optional", ret (VBool (includes itemHtml "optional")));
            ("purpose", extractPurpose itemHtml);
            ("type", ret (VStr (extractDataType dataText))) ] in
        Ok (items ++ [r])%list
      else Ok items
    else Ok items
  else Ok items.

Definition data_of_item_pattern (itemHtml : string) (items : list value) (p : pattern)
  : result (list value) :=
  let* itemMatches := matchAll_of itemHtml p in
  foldM (add_data_item itemHtml) itemMatches items.

Definition data_of_match (p : pattern) (items : list value) (m : mres)
  : result (list value) :=
  let* itemHtml :=
    as_string (if includes (p_source p) "div" || includes (p_source p) "section"
               then group m 1 else group m 0) in
  foldM (data_of_item_pattern itemHtml) dataItemPatterns items.

(** One pattern of [dataSharedPatterns] or [dataCollectedPatterns]. *)
Definition data_of_pattern (sectionHtml : string) (items : list value) (p : pattern)
  : result (list value) :=
  let* matches := matchAll_of sectionHtml p in
  foldM (data_of_match p) matches items.

Definition practicePattern : regex := re "([^<]+)" "".

Definition add_practice (practices : list value) (m : mres) : result (list value) :=
  let* practiceHtml := as_string (group m 1) in
  match smatch practiceHtml practicePattern with
  | Some practiceMatch =>
      let* raw := as_string (group practiceMatch 1) in
      let practice := trim raw in
      if negb (practice =? "") && (5 <? String.length practice)%nat then
        let* r := object
          [ ("practice", ret (VStr practice));
            ("description", extractDescription practiceHtml) ] in
        Ok (practices ++ [r])%list
      else Ok practices
  | None => Ok practices
  end.

Definition practices_of_pattern (sectionHtml : string) (practices : list value) (p : pattern)
  : result (list value) :=
  let* matches := matchAll_of sectionHtml p in
  foldM add_practice matches practices.

(** Strategy 4 on the text of the data-safety section. *)
Definition safety_of_section (sectionHtml : string) (st : safety) : result safety :=
  let* shared := foldM (data_of_pattern sectionHtml) dataSharedPatterns (dataShared st) in
  let* collected :=
    foldM (data_of_pattern sectionHtml) dataCollectedPatterns (dataCollected st) in
  let* practices :=
    foldM (practices_of_pattern sectionHtml) securityPatterns (securityPractices st) in
  Ok (mkSafety shared collected practices (privacyPolicyUrl st)).

(** [parseDataSafety(html)] of [parsers/googlePlay/datasafety.js] *)
Definition parseDataSafety (html : value) : result value :=
  match html with
  | VStr text =>
      if text =? "" then Ok VNull else
      try_catch
        (let st0 := mkSafety [] [] []
                      (match GooglePlay.first_match text privacyPolicyPatterns with
                       | Some m => group m 1
                       | None => VNull
                       end) in
         let st1 := fold_left safety_of_jsonld (matchAll text safetyJsonLdPattern) st0 in
         let* st2 := foldM safety_of_script (matchAll text GooglePlay.scriptPattern) st1 in
         let sectionHtml := match GooglePlay.first_match text dataSafetySectionPatterns with
                            | Some m => group m 1
                            | None => VNull
                            end in
         let* st3 := if truthy sectionHtml then
                       let* section := as_string sectionHtml in
                       safety_of_section section st2
                     else Ok st2 in
         if (0 <? List.length (dataShared st3))%nat
            || (0 <? List.length (dataCollected st3))%nat
            || (0 <? List.length (securityPractices st3))%nat
            || truthy (privacyPolicyUrl st3)
         then Ok (VObj [ ("dataShared", VArr (dataShared st3));
                         ("dataCollected", VArr (dataCollected st3));
                         ("securityPractices", VArr (securityPractices st3));
                         ("privacyPolicyUrl", privacyPolicyUrl st3) ])
         else Ok VNull)
        (fun _ => Ok VNull)
  | _ => Ok VNull
  end.

End GooglePlayPages.

(* ================================================================== *)
(** ** The URL builders of the two [endpoints] modules

    A builder takes the object [params] of a tool call, here the list of
    its own properties, and returns an address or throws: an [Error] of its
    own when an identifier is missing, a TypeError when a value cannot be
    turned into text. *)
(* ================================================================== *)

Module Urls.
Import JS Control.

Inductive failure :=
| Thrown (e : exn)
| Error (message : string).

Inductive built :=
| Url (address : string)
| Fails (f : failure).

(** An expression of the embedding inside a builder. *)
Definition conv {A : Type} (r : result A) (k : A -> built) : built :=
  match r with
  | Ok a => k a
  | Throw e => Fails (Thrown e)
  end.

(** [const { k = d } = params]: the default stands in for [undefined]. *)
Definition param (params : list (string * value)) (k : string) (d : value) : value :=
  match assoc k params with
  | Some VUndefined | None => d
  | Some v => v
  end.

(** [Math.min(a, b)] *)
Definition num_min (a b : number) : number :=
  match a, b with
  | NaN, _ | _, NaN => NaN
  | Inf true, _ | _, Inf true => Inf true
  | Inf false, x | x, Inf false => x
  | Fin p, Fin q => if Qle_bool p q then a else b
  end.

End Urls.

Module AppStoreUrls.
Import JS Control Urls.

Definition ITUNES_BASE : string := "https://itunes.apple.com".
Definition APP_STORE_BASE : string := "https://apps.apple.com".

(** [buildAppUrl(params)] *)
Definition buildAppUrl (params : list (string * value)) : built :=
  let id := param params "id" VUndefined in
  let appId := param params "appId" VUndefined in
  let country := param params "country" (VStr "us") in
  if truthy id then
    conv (to_string id) (fun i =>
    conv (to_string country) (fun c =>
    Url (ITUNES_BASE ++ "/lookup?id=" ++ i ++ "&country=" ++ c)))
  else if truthy appId then
    conv (to_string appId) (fun a =>
    conv (to_string country) (fun c =>
    Url (ITUNES_BASE ++ "/lookup?bundleId=" ++ a ++ "&country=" ++ c)))
  else Fails (Error "Either id or appId must be provided").

(** [buildReviewsUrl(params)] *)
Definition buildReviewsUrl (params : list (string * value)) : built :=
  let id := param params "id" VUndefined in
  let appId := param params "appId" VUndefined in
  let country := param params "country" (VStr "us") in
  let page := param params "page" (num 1) in
  let sort := param params "sort" (VStr "mostRecent") in
  if negb (truthy id) && negb (truthy appId) then
    Fails (Error "Either id or appId must be provided")
  else
    let appIdParam := if truthy id then id else appId in
    conv (to_number page) (fun p =>
    let pageNum := num_min p (ofZ 10) in
    let sortParam := if strict_eq sort (VStr "mostHelpful") then "mostHelpful"
                     else "mostRecent" in
    conv (to_string country) (fun c =>
    conv (to_string appIdParam) (fun a =>
    Url (ITUNES_BASE ++ "/" ++ c ++ "/rss/customerreviews/page=" ++ num_to_string pageNum
         ++ "/id=" ++ a ++ "/sortby=" ++ sortParam ++ "/json")))).

(** [buildRatingsUrl(params)] *)
Definition buildRatingsUrl (params : list (string * value)) : built := buildAppUrl params.

(** [buildSimilarUrl(params)] *)
Definition buildSimilarUrl (params : list (string * value)) : built :=
  let id := param params "id" VUndefined in
  let appId := param params "appId" VUndefined in
  let country := param params "country" (VStr "us") in
  if negb (truthy id) && negb (truthy appId) then
    Fails (Error "Either id or appId must be provided")
  else
    let appIdParam := if truthy id then id else appId in
    conv (to_string country) (fun c =>
    conv (to_string appIdParam) (fun a =>
    Url (APP_STORE_BASE ++ "/" ++ c ++ "/app/id" ++ a))).

(** [buildPrivacyUrl(params)] *)
Definition buildPrivacyUrl (params : list (string * value)) : built :=
  let id := param params "id" VUndefined in
  if negb (truthy id) then Fails (Error "id must be provided for privacy data") else
  conv (to_string id) (fun i =>
  Url (ITUNES_BASE ++ "/us/app-privacy-details/" ++ i ++ ".json")).

(** [buildVersionHistoryUrl(params)] *)
Definition buildVersionHistoryUrl (params : list (string * value)) : built :=
  let id := param params "id" VUndefined in
  if negb (truthy id) then Fails (Error "id must be provided for version history") else
  conv (to_string id) (fun i =>
  Url (ITUNES_BASE ++ "/us/app-version-history/" ++ i ++ ".json")).

(** [buildListUrl(params)]; the query parameters are built, which turns
    their values into text, and then left unused. *)
Definition buildListUrl (params : list (string * value)) : built :=
  let country := param params "country" (VStr "us") in
  let genre := param params "genre" (VStr "all") in
  let limit := param params "limit" (num 200) in
  let chart := param params "chart" (VStr "topfreeapplications") in
  conv (call_toString limit) (fun _ =>
  conv (to_string country) (fun _ =>
  conv (if negb (strict_eq genre (VStr "all")) then to_string genre else Ok "") (fun _ =>
  conv (to_string country) (fun c =>
  conv (to_string chart) (fun ch =>
  conv (to_string limit) (fun l =>
  Url (ITUNES_BASE ++ "/" ++ c ++ "/rss/" ++ ch ++ "/limit=" ++ l ++ "/json"))))))).

End AppStoreUrls.

Module GooglePlayUrls.
Import JS Control Urls.

Definition GOOGLE_PLAY_BASE : string := "https://play.google.com".

(** The address three builders end with. *)
Definition details (appId country lang : value) : built :=
  conv (to_string appId) (fun a =>
  conv (to_string country) (fun c =>
  conv (to_string lang) (fun l =>
  Url (GOOGLE_PLAY_BASE ++ "/store/apps/details?id=" ++ a ++ "&gl=" ++ c ++ "&hl=" ++ l)))).

(** [buildReviewsUrl(params)]; the query parameters, the sort order and the
    page among them, are built and then left unused. *)
Definition buildReviewsUrl (params : list (string * value)) : built :=
  let appId := param params "appId" VUndefined in
  let lang := param params "lang" (VStr "en") in
  let country := param params "country" (VStr "us") in
  let page := param params "page" (num 0) in
  let sort := param params "sort" (num 0) in
  if negb (truthy appId) then Fails (Error "appId is required") else
  conv (call_toString sort) (fun _ =>
  conv (call_toString page) (fun _ =>
  conv (to_string appId) (fun _ =>
  conv (to_string country) (fun _ =>
  conv (to_string lang) (fun _ =>
  conv (to_string appId) (fun a =>
  conv (to_string country) (fun c =>
  conv (to_string lang) (fun l =>
  Url (GOOGLE_PLAY_BASE ++ "/store/apps/details?id=" ++ a ++ "&gl=" ++ c ++ "&hl=" ++ l
       ++ "#Reviews"))))))))).

(** [buildSimilarUrl(params)] *)
Definition buildSimilarUrl (params : list (string * value)) : built :=
  let appId := param params "appId" VUndefined in
  let lang := param params "lang" (VStr "en") in
  let country := param params "country" (VStr "us") in
  if negb (truthy appId) then Fails (Error "appId is required") else
  details appId country lang.

(** [buildPermissionsUrl(params)] *)
Definition buildPermissionsUrl (params : list (string * value)) : built :=
  let appId := param params "appId" VUndefined in
  let lang := param params "lang" (VStr "en") in
  let country := param params "country" (VStr "us") in
  if negb (truthy appId) then Fails (Error "appId is required") else
  details appId country lang.

(** [buildDataSafetyUrl(params)] *)
Definition buildDataSafetyUrl (params : list (string * value)) : built :=
  let appId := param params "appId" VUndefined in
  let lang := param params "lang" (VStr "en") in
  if negb (truthy appId) then Fails (Error "appId is required") else
  conv (to_string appId) (fun a =>
  conv (to_string lang) (fun l =>
  Url (GOOGLE_PLAY_BASE ++ "/store/apps/details?id=" ++ a ++ "&hl=" ++ l))).

(** [buildCategoriesUrl()] *)
Definition buildCategoriesUrl : built := Url (GOOGLE_PLAY_BASE ++ "/store/apps").

End GooglePlayUrls.

(* ================================================================== *)
(** ** The HTTP client: [fetchWithRetry]

    The function is asynchronous; what it does depends on how the
    successive calls of [fetch] end.  The model takes these outcomes as a
    list, the first for the first attempt, and returns how the promise
    settles together with the delays slept in between.  When the list ends
    before the promise settles, the function is waiting for the outcome of
    one more attempt. *)
(* ================================================================== *)

Module HttpClient.
Import JS.

Definition MAX_RETRIES : Z := 3.
Definition RETRY_DELAY : Z := 1000.

(** How a call of [fetch] ends: with a response, or with an error; a
    request aborted by the timeout ends with an error named AbortError. *)
Inductive outcome :=
| Responds (ok : bool) (status : Z) (statusText : string)
| Rejects (name message : string).

Inductive settled :=
| Returns (status : Z) (statusText : string)
| Throws (name message : string)
| Waiting.

(** [`HTTP ${response.status}: ${response.statusText}`] *)
Definition http_message (status : Z) (statusText : string) : string :=
  "HTTP " ++ num_to_string (ofZ status) ++ ": " ++ statusText.

(** [fetchWithRetry(url, options, retries)] on the outcomes [world]. *)
Fixpoint fetchWithRetry (world : list outcome) (retries : Z) : settled * list Z :=
  match world with
  | [] => (Waiting, [])
  | o :: rest =>
      let again :=
        let '(s, delays) := fetchWithRetry rest (retries - 1) in
        (s, (RETRY_DELAY * (MAX_RETRIES - retries + 1))%Z :: delays) in
      let handler (name message : string) :=
        if (name =? "AbortError") || (includes message "fetch" && (0 <? retries)%Z)
        then again
        else (Throws name message, []) in
      match o with
      | Responds ok status statusText =>
          if negb ok then
            if ((500 <=? status)%Z || (status =? 429)%Z) && (0 <? retries)%Z then again
            else handler "Error" (http_message status statusText)
          else (Returns status statusText, [])
      | Rejects name message => handler name message
      end
  end.

End HttpClient.

(* ================================================================== *)
(** ** Definitions and tactics of the proofs *)
(* ================================================================== *)

Import JS Regex Control Samples Candidates.

(** The expression of property [k] in an object literal. *)
Fixpoint entry_of (k : string) (es : list (string * result value)) : option (result value) :=
  match es with
  | [] => None
  | (k', e) :: r => if k =? k' then Some e else entry_of k r
  end.

(** The state a loop body reaches is the state it started from with the
    candidates of its element added. *)
Definition emits {A : Type} (f : GooglePlay.rev_state -> A -> result GooglePlay.rev_state)
    (g : A -> result (list cand)) : Prop :=
  forall st x, f st x = bind (g x) (fun cs => Ok (add_all cs st)).

(** [H : bind e k = Ok _]: [e] returned some [x], recorded as [E]. *)
Ltac bind_as H x E :=
  match type of H with
  | bind ?e _ = Ok _ => destruct e as [x|] eqn:E; [cbn [bind] in H | discriminate H]
  end.

(** The value of property [k] of an object literal that evaluated to [F]'s
    fields, by lemma [L]. *)
Ltac field_of L F k :=
  let v := fresh "v" in
  let Hv := fresh "Hv" in
  let Ha := fresh "Ha" in
  destruct (L _ _ F k _ eq_refl) as [v [Hv Ha]];
  injection Hv as <-.

(** Takes the expression that the left-hand side is waiting for and splits
    on its outcome. *)
Ltac elim_head t :=
  lazymatch t with
  | bind ?e _ => first [elim_head e | destruct e eqn:?]
  | caught ?e => first [elim_head e | destruct e eqn:?]
  | match ?e with _ => _ end => first [elim_head e | destruct e eqn:?]
  end.

Ltac step :=
  match goal with
  | |- ?l = _ => elim_head l; cbn [bind caught]
  end.

(** *** Vocabulary of the further properties *)

(** [v == null] *)
Definition nullish (v : value) : bool :=
  match v with
  | VUndefined | VNull => true
  | _ => false
  end.

Definition returns {A : Type} (r : result A) : Prop := exists a, r = Ok a.

(** The property names of a record, in the order of [Object.keys]. *)
Definition keys (v : value) : list string :=
  match v with
  | VObj fs => map fst fs
  | _ => []
  end.

(** An own property of a record. *)
Definition field (v : value) (k : string) : option value :=
  match v with
  | VObj fs => assoc k fs
  | _ => None
  end.

Definition version_keys : list string :=
  ["versionDisplay"; "releaseNotes"; "releaseDate"; "releaseTimestamp"].

Definition review_keys : list string :=
  ["id"; "userName"; "userUrl"; "version"; "score"; "title"; "text"; "updated"; "url"].

(** What [parseInt(s, 10) || 0] can be: an integer, or an infinity when
    the digits spell an integer beyond binary64; never NaN. *)
Definition integer_or_infinite (v : value) : Prop :=
  (exists z, v = num z) \/ (exists neg, v = VNum (Inf neg)).

(** What every review of the App Store feed parser looks like. *)
Definition review_shape (r : value) : Prop :=
  keys r = review_keys /\
  (exists name, field r "userName" = Some name /\ truthy name = true) /\
  (exists score, field r "score" = Some score /\ integer_or_infinite score).

(** What every app of the App Store ranking parser looks like. *)
Definition listed_app_shape (r : value) : Prop :=
  exists price,
    price <> NaN /\
    field r "price" = Some (VNum price) /\
    field r "free" = Some (VBool (num_eq price (ofZ 0))) /\
    field r "currency" = Some (VStr "USD") /\
    field r "kind" = Some (VStr "software") /\
    field r "screenshotUrls" = Some (VArr []).

(** The feed document with the given entries. *)
Definition rss_feed (entries : list value) : value :=
  VObj [("feed", VObj [("entry", VArr entries)])].

Definition sampleReviewEntry : value :=
  VObj [("author", VObj [("name", VObj [("label", VStr "Ann")]);
                         ("uri", VObj [("label", VStr "https://itunes.apple.com/us/reviews/id42")])]);
        ("im:rating", VObj [("label", VStr "4")]);
        ("title", VObj [("label", VStr "Fine")]);
        ("content", VObj [("label", VStr "Works")])].

Definition similar_keys : list string := ["id"; "appId"; "title"; "url"].

(** What every entry of the App Store similar-apps parser looks like. *)
Definition store_similar_shape (r : value) : Prop :=
  keys r = similar_keys /\
  field r "appId" = Some VNull /\
  exists url, field r "url" = Some url /\ truthy url = true.

(** The apps of the Google Play similar-apps parser carry the identifiers
    [ids], in this order, each with the address of its details page, and no
    identifier comes twice. *)
Definition similar_apps_of (ids : list string) (apps : list value) : Prop :=
  Forall2 (fun a id => field a "appId" = Some (VStr id) /\
                       field a "url" = Some (VStr (GooglePlayPages.details_url id)))
          apps ids /\
  NoDup ids.

Definition safetyPage : string :=
  "<a href='https://dev.example/privacy'>Privacy</a>" ++
  "<div class='data-safety'><span>Location</span></div>".

(** The permissions [perms] carry the names [names], in this order: as
    strings in the short form, as records with a type otherwise. *)
Definition permissions_of (short : bool) (names : list string) (perms : list value) : Prop :=
  Forall2 (fun p n =>
             if short then p = VStr n
             else exists type, p = VObj [("permission", VStr n); ("type", type)])
          perms names.

(** The state of [parsePermissions] between two steps. *)
Definition perm_inv (short : bool) (st : GooglePlay.perm_state) : Prop :=
  exists names,
    permissions_of short names (fst st) /\
    snd st = map toLowerCase names /\
    NoDup (snd st).

(** Neighbours of a list are related by [R]. *)
Fixpoint chain {A : Type} (R : A -> A -> Prop) (l : list A) : Prop :=
  match l with
  | a :: ((b :: _) as r) => R a b /\ chain R r
  | _ => True
  end.


(** The test of the filter of [parseApps]. *)
Definition is_software (app : value) : bool :=
  match getp app "kind", getp app "wrapperType" with
  | Ok kind, Ok wrapper =>
      strict_eq kind (VStr "software") || strict_eq wrapper (VStr "software")
  | _, _ => false
  end.

Definition app_keys : list string :=
  [ "id"; "appId"; "title"; "url"; "description"; "releaseNotes"; "version"; "releaseDate";
    "currentVersionReleaseDate"; "price"; "currency"; "free"; "developer"; "category";
    "rating"; "contentAdvisoryRating"; "screenshotUrls"; "ipadScreenshotUrls";
    "appletvScreenshotUrls"; "artwork"; "supportedDevices"; "minimumOsVersion";
    "languageCodesISO2A"; "fileSizeBytes"; "sellerName"; "formattedPrice";
    "isGameCenterEnabled"; "features"; "advisories"; "kind";
    "averageUserRatingForCurrentVersion"; "userRatingCountForCurrentVersion" ].

Definition sampleResults : value :=
  VObj [("results",
         VArr [ VObj [("kind", VStr "software"); ("trackId", num 1)];
                VObj [("kind", VStr "song"); ("trackId", num 2)];
                VObj [("wrapperType", VStr "software"); ("trackId", num 3)] ])].

Definition play_app_keys : list string :=
  [ "appId"; "title"; "url"; "summary"; "description"; "developer"; "developerId";
    "developerEmail"; "developerWebsite"; "developerAddress"; "icon"; "headerImage";
    "score"; "scoreText"; "ratings"; "reviews"; "price"; "priceText"; "free"; "currency";
    "version"; "contentRating"; "contentRatingDescription"; "adSupported";
    "inAppPurchases"; "screenshots"; "video"; "videoImage"; "recentChanges"; "comments";
    "editorsChoice"; "category"; "categoryId"; "size"; "androidVersion";
    "androidVersionText"; "updated"; "installs"; "minInstalls"; "maxInstalls";
    "requiresAndroid"; "permissions"; "similarApps" ].

Definition play_review_keys : list string :=
  [ "reviewId"; "userName"; "userImage"; "date"; "dateText"; "score"; "scoreText"; "title";
    "text"; "replyDate"; "replyText"; "version"; "thumbsUp"; "criterias" ].

(** What every review of the Google Play reviews parser looks like. *)
Definition play_review_shape (r : value) : Prop :=
  keys r = play_review_keys /\
  exists name, field r "userName" = Some name /\ truthy name = true.

Definition reviews_inv (st : GooglePlay.rev_state) : Prop :=
  Forall play_review_shape (fst st).

(** The entries of a ranking feed up to the first that [rss_app] cannot
    read. *)
Fixpoint readable_prefix (entries : list value) : list value :=
  match entries with
  | [] => []
  | e :: r =>
      match AppStoreFeeds.rss_app e with
      | Ok _ => e :: readable_prefix r
      | Throw _ => []
      end
  end.

Definition sampleRankingEntry : value :=
  VObj [("im:name", VObj [("label", VStr "Maps")]);
        ("im:price", VObj [("label", VStr "$4.99")])].

(** A ranking whose second entry has a number where the price text is
    expected. *)
Definition sampleRanking : list value :=
  [sampleRankingEntry; VObj [("im:price", num 5)]; sampleRankingEntry].

Definition privacy_keys : list string := ["managePrivacyChoicesUrl"; "privacyTypes"].
Definition privacy_type_keys : list string :=
  ["privacyType"; "identifier"; "description"; "dataCategories"; "purposes"].
Definition privacy_category_keys : list string := ["dataCategory"; "identifier"; "dataTypes"].

(** What every privacy type of [parsePrivacy] looks like. *)
Definition privacy_type_shape (t : value) : Prop :=
  keys t = privacy_type_keys /\
  exists categories,
    field t "dataCategories" = Some (VArr categories) /\
    Forall (fun c => keys c = privacy_category_keys) categories.

Definition samplePrivacy : value :=
  VObj [("privacyTypes",
         VArr [ VObj [("privacyType", VStr "Data Linked to You");
                      ("dataCategories", VArr [VObj [("dataCategory", VStr "Location")]])];
                VObj [("privacyType", VStr "Data Not Collected")] ])].

(** Every regular expression of the other parsers. *)
Definition more_patterns : list regex :=
  ([ AppStoreFeeds.userIdPattern; AppStoreFeeds.artistIdPattern;
     AppStoreFeeds.notPricePattern; AppStoreFeeds.notCountPattern;
     AppStoreFeeds.similarJsonLdPattern; AppStoreFeeds.appLinkPattern;
     AppStoreFeeds.urlIdPattern; GooglePlayPages.similarLinkPattern;
     GooglePlayPages.similarIconPattern; GooglePlayPages.similarScorePattern;
     GooglePlayPages.similarAppsPattern; GooglePlayPages.similarIdPattern;
     GooglePlayPages.safetyJsonLdPattern; GooglePlayPages.practicePattern ]
   ++ GooglePlayPages.similarSectionPatterns ++ GooglePlayPages.similarTitlePatterns
   ++ GooglePlayPages.privacyPolicyPatterns ++ GooglePlayPages.safetyJsonPatterns
   ++ GooglePlayPages.dataSafetySectionPatterns ++ GooglePlayPages.purposePatterns
   ++ GooglePlayPages.descriptionPatterns
   ++ map GooglePlayPages.compile
        (GooglePlayPages.dataSharedPatterns ++ GooglePlayPages.dataCollectedPatterns
         ++ GooglePlayPages.securityPatterns ++ GooglePlayPages.dataItemPatterns))%list.

(** A response that [fetchWithRetry] answers with another attempt while it
    has retries left: a server error or a rate limit. *)
Definition retryable (o : HttpClient.outcome) : Prop :=
  match o with
  | HttpClient.Responds ok status _ =>
      ok = false /\ ((500 <=? status)%Z || (status =? 429)%Z) = true
  | HttpClient.Rejects _ _ => False
  end.

(** An attempt that the timeout aborted. *)
Definition timed_out (o : HttpClient.outcome) : Prop :=
  match o with
  | HttpClient.Rejects name _ => name = "AbortError"
  | HttpClient.Responds _ _ _ => False
  end.

(** The delays before the attempts that follow the first [n], for a call
    that started with [retries] retries. *)
Fixpoint delays_from (retries : Z) (n : nat) : list Z :=
  match n with
  | O => []
  | S k =>
      (HttpClient.RETRY_DELAY * (HttpClient.MAX_RETRIES - retries + 1))%Z
      :: delays_from (retries - 1) k
  end.

(** [a <= b] on numbers; NaN is below nothing and above nothing. *)
Definition num_leb (a b : number) : bool :=
  match a, b with
  | NaN, _ | _, NaN => false
  | Inf true, _ => true
  | _, Inf false => true
  | Inf false, _ => false
  | _, Inf true => false
  | Fin p, Fin q => Qle_bool p q
  end.

(** The suggestion has a number as priority, or no priority. *)
Definition number_priority (x : value) : bool :=
  match getp x "priority" with
  | Ok (VNum _) | Ok VUndefined => true
  | _ => false
  end.

(** What the comparator of the sort reads from such a suggestion:
    [x.priority || 0]. *)
Definition priority_number (x : value) : number :=
  match getp x "priority" with
  | Ok (VNum n) => if num_truthy n then n else ofZ 0
  | _ => ofZ 0
  end.

(** Every element is related by [R] to every element after it. *)
Fixpoint strongly {A : Type} (R : A -> A -> Prop) (l : list A) : Prop :=
  match l with
  | [] => True
  | a :: r => Forall (R a) r /\ strongly R r
  end.

(** In order of falling priority: no suggestion has a priority below that
    of a suggestion after it. *)
Definition falling (l : list value) : Prop :=
  strongly (fun a b => num_leb (priority_number b) (priority_number a) = true) l.


Definition sampleSuggestions : value :=
  VArr [ VObj [("term", VStr "maps"); ("priority", num 2)];
         VStr "mail";
         VObj [("suggestion", VStr "music"); ("priority", num 5)] ].




(* ================================================================== *)
(** ** Properties *)
(* ================================================================== *)

(** Every pattern of the Google Play parsers is inside the grammar that
    [re] reads. *)
Lemma all_patterns_well_formed : forallb well_formed all_patterns = true.
Proof. vm_compute. reflexivity. Qed.

(** *** General facts about the value model *)

Lemma getp_truthy (v : value) (k : string) :
  truthy v = true -> exists r, getp v k = Ok r.
Proof.
  destruct v; simpl; intros H; try discriminate; eexists; reflexivity.
Qed.

Lemma try_catch_returns {A : Type} (body : result A) (a : A) :
  exists r, try_catch body (fun _ => Ok a) = Ok r.
Proof.
  destruct body; simpl; eexists; reflexivity.
Qed.

Lemma or_else_ok (v d : value) :
  or_else (Ok v) (Ok d) = Ok (if truthy v then v else d).
Proof.
  unfold or_else; simpl. destruct (truthy v); reflexivity.
Qed.

(** A property of an object literal holds the value of its expression. *)
Lemma fields_assoc (es : list (string * result value)) :
  forall vs, fields es = Ok vs ->
  forall k e, entry_of k es = Some e ->
  exists v, e = Ok v /\ assoc k vs = Some v.
Proof.
  induction es as [|[k' e'] es IH]; intros vs H k e He; simpl in He; [discriminate|].
  simpl in H. destruct e' as [v'|]; simpl in H; [|discriminate].
  destruct (fields es) as [vs'|] eqn:F; simpl in H; [|discriminate].
  injection H as <-. simpl.
  destruct (k =? k') eqn:K.
  - injection He as <-. exists v'. split; reflexivity.
  - eapply IH; eauto.
Qed.

(** *** App Store: the lookup record *)

(** C7.  [parseApp] applied to
    [{results:[{trackId:123, bundleId:"com.x", trackName:"X", price:0}]}]
    returns the record with id 123, appId "com.x", title "X", price 0 and
    free true; every other field of the record is present and holds its
    default: null, 0, the empty list or false. *)
Theorem parseApp_scenarioA :
  AppStore.parseApp scenarioA =
  Ok (VObj
    [ ("id", num 123); ("appId", VStr "com.x"); ("title", VStr "X"); ("url", VNull);
      ("description", VNull); ("releaseNotes", VNull); ("version", VNull);
      ("releaseDate", VNull); ("currentVersionReleaseDate", VNull);
      ("price", num 0); ("currency", VNull); ("free", VBool true);
      ("developer", VObj [("id", VNull); ("name", VNull); ("url", VNull)]);
      ("category", VObj [("id", VNull); ("name", VNull); ("genres", VArr [])]);
      ("rating", VObj [("average", VNull); ("count", num 0)]);
      ("contentAdvisoryRating", VNull); ("screenshotUrls", VArr []);
      ("ipadScreenshotUrls", VArr []); ("appletvScreenshotUrls", VArr []);
      ("artwork", VObj [("icon", VNull); ("icon60", VNull); ("icon100", VNull);
                        ("icon512", VNull)]);
      ("supportedDevices", VArr []); ("minimumOsVersion", VNull);
      ("languageCodesISO2A", VArr []); ("fileSizeBytes", VNull); ("sellerName", VNull);
      ("formattedPrice", VNull); ("isGameCenterEnabled", VBool false);
      ("features", VArr []); ("advisories", VArr []); ("kind", VNull);
      ("averageUserRatingForCurrentVersion", VNull);
      ("userRatingCountForCurrentVersion", num 0) ]).
Proof. vm_compute. reflexivity. Qed.

(** C3.  On a lookup answer whose app has no [price], the App Store
    [parseApp] returns price 0 together with free false: the price falls
    back to 0 while [free] is computed from the missing raw field. *)
Theorem parseApp_free_without_price :
  prop_of (AppStore.parseApp noPrice) "price" = Some (num 0) /\
  prop_of (AppStore.parseApp noPrice) "free" = Some (VBool false).
Proof. split; vm_compute; reflexivity. Qed.

(** In general [price] is the raw price or 0 and [free] tells whether the
    raw price is the number 0: they agree whenever the raw price is a
    number. *)
Lemma parseApp_free_reads_raw_price (fs r : list (string * value)) :
  AppStore.parseApp (VObj [("results", VArr [VObj fs])]) = Ok (VObj r) ->
  let raw := match assoc "price" fs with Some p => p | None => VUndefined end in
  assoc "free" r = Some (VBool (strict_eq raw (num 0))) /\
  assoc "price" r = Some (if truthy raw then raw else num 0).
Proof.
  intros H raw.
  change (AppStore.app_record (VObj fs) = Ok (VObj r)) in H.
  unfold AppStore.app_record, object in H.
  bind_as H vs F. injection H as <-.
  destruct (fields_assoc _ _ F "free" _ eq_refl) as [v1 [H1 A1]].
  destruct (fields_assoc _ _ F "price" _ eq_refl) as [v2 [H2 A2]].
  cbn [getp bind ret] in H1. injection H1 as <-.
  cbn [getp] in H2. unfold ret in H2. rewrite or_else_ok in H2. injection H2 as <-.
  split; assumption.
Qed.

(** *** App Store: search, suggestions, ratings *)

(** C1.  [parseSearch] throws on [null] and on [undefined]: [parseApps]
    guards against a missing answer and returns the empty list, after which
    [data.resultCount] is read from the same missing answer.  The App Store
    [parseSuggest] and [parseApp] throw likewise on a list that holds
    [null]. *)
Theorem parseSearch_throws_on_null :
  AppStore.parseApps VNull = Ok [] /\
  AppStore.parseSearch VNull = Throw TypeError /\
  AppStore.parseSearch VUndefined = Throw TypeError /\
  AppStore.parseSuggest (VObj [("hints", VArr [VNull])]) = Throw TypeError /\
  AppStore.parseApp (VObj [("results", VArr [VNull])]) = Throw TypeError.
Proof. repeat split; vm_compute; reflexivity. Qed.

(** C9.  On the suggestion list [["a"]] the Google Play [parseSuggest]
    returns the single record [{term: "a"}], which has no [priority]
    property; the same list under [suggestions] gets priority 0. *)
Theorem parseSuggest_string_item_lacks_priority :
  GooglePlay.parseSuggest (VArr [VStr "a"]) = Ok (VArr [VObj [("term", VStr "a")]]) /\
  GooglePlay.parseSuggest (VStr (bq "[`a`]")) = Ok (VArr [VObj [("term", VStr "a")]]) /\
  has_key "priority" (VObj [("term", VStr "a")]) = false /\
  GooglePlay.parseSuggest (VObj [("suggestions", VArr [VStr "a"])]) =
    Ok (VArr [VObj [("term", VStr "a"); ("priority", num 0)]]).
Proof. repeat split; vm_compute; reflexivity. Qed.

(** Scenario E: priorities 2 and 5 come out as 5, then 2, in both variants. *)
Lemma parseSuggest_scenarioE :
  let a := VObj [("term", VStr "a"); ("priority", num 2)] in
  let b := VObj [("term", VStr "b"); ("priority", num 5)] in
  GooglePlay.parseSuggest (VArr [a; b]) = Ok (VArr [b; a]) /\
  AppStore.parseSuggest (VObj [("hints", VArr [a; b])]) = Ok (VArr [b; a]).
Proof. split; vm_compute; reflexivity. Qed.

(** The App Store variant gives every record both properties. *)

Lemma insert_sorted_Forall {A : Type} (P : A -> Prop) (cmp : A -> A -> comparison)
    (x : A) (l : list A) :
  P x -> Forall P l -> Forall P (insert_sorted cmp x l).
Proof.
  intros Hx. induction 1 as [|a l Ha Hl IH]; simpl.
  - repeat constructor. exact Hx.
  - destruct (cmp x a); repeat constructor; assumption.
Qed.

Lemma sort_by_Forall {A : Type} (P : A -> Prop) (cmp : A -> A -> comparison) (l : list A) :
  Forall P l -> Forall P (sort_by cmp l).
Proof.
  unfold sort_by. induction 1 as [|a l Ha Hl IH]; simpl; [constructor|].
  apply insert_sorted_Forall; assumption.
Qed.

Lemma mapM_Forall {A B : Type} (P : A -> Prop) (Q : B -> Prop) (f : A -> result B) :
  (forall x y, P x -> f x = Ok y -> Q y) ->
  forall l l', Forall P l -> mapM f l = Ok l' -> Forall Q l'.
Proof.
  intros Hf l. induction l as [|a l IH]; intros l' Hl E; simpl in E.
  - injection E as <-. constructor.
  - inversion Hl as [|? ? Ha Hl']; subst.
    bind_as E y Ey. bind_as E ys Eys. injection E as <-.
    constructor; [eapply Hf; eauto|apply IH; auto].
Qed.



(** C10.  For every input, [parseRatings] returns a record made of
    [ratings], possibly [average], and a [histogram] whose buckets '1' to
    '5' are all 0.  Without rating data [ratings] is 0 and [average] is
    absent; with rating data they are [rating.count || 0] and
    [rating.average || null]. *)
Theorem parseRatings_histogram_zero (appData : value) :
  exists (ratings : value) (average : list (string * value)),
    AppStore.parseRatings appData =
      Ok (VObj (("ratings", ratings) :: average
                ++ [("histogram",
                     VObj [("1", num 0); ("2", num 0); ("3", num 0);
                           ("4", num 0); ("5", num 0)])])%list) /\
    match getp appData "rating" with
    | Ok rating =>
        if has_rating appData then
          or_else (getp rating "count") (Ok (num 0)) = Ok ratings /\
          exists a, average = [("average", a)] /\
                    or_else (getp rating "average") (Ok VNull) = Ok a
        else ratings = num 0 /\ average = []
    | Throw _ => ratings = num 0 /\ average = []
    end.
Proof.
  unfold AppStore.parseRatings, has_rating.
  destruct (truthy appData) eqn:T; cbn [negb andb].
  - destruct (getp_truthy appData "rating" T) as [rating E]. rewrite E.
    cbn [bind]. destruct (truthy rating) eqn:TR; cbn [negb].
    + destruct (getp_truthy rating "count" TR) as [c Ec].
      destruct (getp_truthy rating "average" TR) as [a Ea].
      unfold object, getr. cbn [fields bind]. rewrite Ec, Ea.
      rewrite !or_else_ok. cbn [bind ret].
      exists (if truthy c then c else num 0), [("average", if truthy a then a else VNull)].
      split; [reflexivity|]. split; [reflexivity|].
      eexists; split; reflexivity.
    + exists (num 0), []. split; [reflexivity|]. split; reflexivity.
  - exists (num 0), []. split; [reflexivity|].
    destruct (getp appData "rating"); split; reflexivity.
Qed.

(** *** Google Play: categories and permissions *)

(** C5.  On a page without category links and scripts, [parseCategories]
    returns the fixed fallback list as it is written in the source, which
    starts APPLICATION, GAME, ART_AND_DESIGN: it has no repetition but is
    not in lexicographic order, the sort of the other path being skipped. *)
Theorem parseCategories_fallback_unsorted :
  GooglePlay.parseCategories (VStr noCategories)
    = Ok (GooglePlay.strings GooglePlay.fallback_categories) /\
  firstn 3 GooglePlay.fallback_categories = ["APPLICATION"; "GAME"; "ART_AND_DESIGN"] /\
  String.compare "GAME" "ART_AND_DESIGN" = Gt /\
  strictly_sorted GooglePlay.fallback_categories = false /\
  strictly_sorted (GooglePlay.sort_strings GooglePlay.fallback_categories) = true.
Proof. repeat split; vm_compute; reflexivity. Qed.

(** The fallback list is what every page without category links and
    scripts gets. *)
Lemma parseCategories_fallback (html : string) :
  html <> "" ->
  matchAll html GooglePlay.categoryLinkPattern = [] ->
  matchAll html GooglePlay.scriptPattern = [] ->
  GooglePlay.parseCategories (VStr html) = Ok (GooglePlay.strings GooglePlay.fallback_categories).
Proof.
  intros Hne Hl Hs. unfold GooglePlay.parseCategories.
  destruct (html =? "") eqn:E; [apply String.eqb_eq in E; contradiction|].
  rewrite Hl, Hs. reflexivity.
Qed.

(** On the other path the links found come out sorted and without
    repetition. *)
Lemma parseCategories_sorts_links :
  GooglePlay.parseCategories
    (VStr ("<a href='/store/apps/category/TOOLS'>t</a>"
           ++ "<a href='/store/apps/category/GAME'>g</a>"
           ++ "<a href='/store/apps/category/TOOLS'>t</a>"))
  = Ok (VArr [VStr "GAME"; VStr "TOOLS"]).
Proof. vm_compute. reflexivity. Qed.

(** Apart from the fallback, the list returned is in ascending order and
    without repetition, whatever the page. *)

Lemma str_in_In (c : string) (l : list string) : GooglePlay.str_in c l = true <-> In c l.
Proof.
  unfold GooglePlay.str_in. rewrite existsb_exists. split.
  - intros [x [Hin Hx]]. apply String.eqb_eq in Hx. subst. exact Hin.
  - intros Hin. exists c. split; [exact Hin|apply String.eqb_refl].
Qed.

Lemma push_category_NoDup (cs : list string) (v : value) :
  NoDup cs -> NoDup (GooglePlay.push_category cs v).
Proof.
  intros H. destruct v; simpl; try exact H.
  destruct (negb (s =? "")); simpl; [|exact H].
  destruct (GooglePlay.str_in s cs) eqn:E; simpl; [exact H|].
  apply NoDup_app; [exact H|repeat constructor; intros []|].
  intros x Hx [<-|[]]. apply str_in_In in Hx. congruence.
Qed.

Lemma fold_push_NoDup (ms : list mres) :
  forall cs, NoDup cs ->
  NoDup (fold_left (fun cs m => GooglePlay.push_category cs (group m 1)) ms cs).
Proof.
  induction ms as [|m ms IH]; intros cs H; simpl; [exact H|].
  apply IH. apply push_category_NoDup. exact H.
Qed.

Lemma categories_of_script_NoDup (cs cs' : list string) (m : mres) :
  NoDup cs -> GooglePlay.categories_of_script cs m = Ok cs' -> NoDup cs'.
Proof.
  intros H E. unfold GooglePlay.categories_of_script in E.
  bind_as E scriptContent Es.
  destruct (includes scriptContent "category" || includes scriptContent "CATEGORY");
    [|injection E as <-; exact H].
  destruct (smatch scriptContent GooglePlay.categoryArrayPattern) as [am|];
    [|injection E as <-; exact H].
  destruct (as_string (group am 1)) as [categoryData|]; cbn [bind try_catch] in E;
    injection E as <-; [apply fold_push_NoDup|]; exact H.
Qed.

Lemma foldM_categories_NoDup (ms : list mres) :
  forall cs cs', NoDup cs ->
  foldM GooglePlay.categories_of_script ms cs = Ok cs' -> NoDup cs'.
Proof.
  induction ms as [|m ms IH]; intros cs cs' H E; simpl in E.
  - injection E as <-. exact H.
  - bind_as E cs1 E1. eapply IH; [|exact E].
    eapply categories_of_script_NoDup; eauto.
Qed.

Lemma insert_sorted_In (x y : string) (l : list string) :
  In y (insert_sorted String.compare x l) <-> y = x \/ In y l.
Proof.
  induction l as [|a l IH]; simpl.
  - intuition.
  - destruct (String.compare x a); simpl; rewrite ?IH; intuition.
Qed.

Lemma insert_sorted_NoDup (x : string) (l : list string) :
  NoDup l -> ~ In x l -> NoDup (insert_sorted String.compare x l).
Proof.
  induction l as [|a l IH]; intros H Hx; simpl.
  - repeat constructor. intros [].
  - destruct (String.compare x a); try (constructor; assumption).
    inversion H as [|? ? Ha Hl]; subst. constructor.
    + rewrite insert_sorted_In. intros [->|Hin]; [apply Hx; left; reflexivity|contradiction].
    + apply IH; [exact Hl|]. intros Hin. apply Hx. right. exact Hin.
Qed.

Lemma insert_sorted_sorted (x : string) (l : list string) :
  sorted l = true -> sorted (insert_sorted String.compare x l) = true.
Proof.
  induction l as [|a l IH]; intros H; [reflexivity|].
  simpl. destruct (String.compare x a) eqn:C.
  - simpl. rewrite C. exact H.
  - simpl. rewrite C. exact H.
  - assert (Hax : String.compare a x = Lt).
    { rewrite String.compare_antisym, C. reflexivity. }
    destruct l as [|b l].
    + simpl. rewrite Hax. reflexivity.
    + simpl in H. destruct (String.compare a b) eqn:Cab; try discriminate H.
      * specialize (IH H). simpl in IH |- *.
        destruct (String.compare x b); simpl; rewrite ?Hax, ?Cab; auto.
      * specialize (IH H). simpl in IH |- *.
        destruct (String.compare x b); simpl; rewrite ?Hax, ?Cab; auto.
Qed.

Lemma sort_strings_spec (l : list string) :
  NoDup l ->
  sorted (GooglePlay.sort_strings l) = true /\ NoDup (GooglePlay.sort_strings l) /\
  forall y, In y (GooglePlay.sort_strings l) <-> In y l.
Proof.
  unfold GooglePlay.sort_strings, sort_by.
  induction l as [|a l IH]; intros H; simpl.
  - repeat split; auto; constructor.
  - inversion H as [|? ? Ha Hl]; subst.
    destruct (IH Hl) as [Hs [Hn Hi]].
    repeat split.
    + apply insert_sorted_sorted. exact Hs.
    + apply insert_sorted_NoDup; [exact Hn|]. rewrite Hi. exact Ha.
    + rewrite insert_sorted_In, Hi. intuition.
    + rewrite insert_sorted_In, Hi. intuition.
Qed.

Lemma sorted_NoDup_strictly (l : list string) :
  sorted l = true -> NoDup l -> strictly_sorted l = true.
Proof.
  induction l as [|a [|b l] IH]; intros Hs Hn; try reflexivity.
  simpl in Hs |- *. inversion Hn as [|? ? Ha Hl]; subst.
  destruct (String.compare a b) eqn:C; try discriminate Hs.
  - apply String.compare_eq_iff in C. subst. exfalso. apply Ha. left. reflexivity.
  - apply IH; assumption.
Qed.

Lemma strings_inj (l l' : list string) :
  @Ok value (GooglePlay.strings l) = Ok (GooglePlay.strings l') -> l = l'.
Proof.
  unfold GooglePlay.strings. intros H. injection H as H. revert l' H.
  induction l as [|a l IH]; intros [|b l'] H; simpl in H; try discriminate; [reflexivity|].
  injection H as -> H. f_equal. apply IH. exact H.
Qed.

Lemma parseCategories_sorted_unless_fallback (html : value) (l : list string) :
  GooglePlay.parseCategories html = Ok (GooglePlay.strings l) ->
  l = GooglePlay.fallback_categories \/ strictly_sorted l = true.
Proof.
  intros H.
  assert (Hnil : forall l0, Ok (VArr []) = Ok (GooglePlay.strings l0) -> strictly_sorted l0 = true).
  { intros [|? ?] E; [reflexivity|discriminate E]. }
  unfold GooglePlay.parseCategories in H.
  destruct html as [| |b|n|s|items|fs]; try (right; apply Hnil; exact H).
  destruct (s =? ""); [right; apply Hnil; exact H|].
  match type of H with
  | try_catch ?body _ = _ => destruct body as [r|] eqn:B; cbn [try_catch] in H
  end; [|right; apply Hnil; exact H].
  injection H as ->.
  bind_as B categories Ec.
  destruct (List.length categories =? 0)%nat.
  - apply strings_inj in B. left. symmetry. exact B.
  - apply strings_inj in B. subst l. right.
    assert (Hn : NoDup categories).
    { eapply foldM_categories_NoDup; [|exact Ec]. apply fold_push_NoDup. constructor. }
    destruct (sort_strings_spec categories Hn) as [Hs [Hn' _]].
    apply sorted_NoDup_strictly; assumption.
Qed.

(** C6.  On a page whose script holds [permissions: [""]],
    [parsePermissions] returns one element whose permission name is the
    empty string, in the object form and in the short form: the branch for
    string elements of a parsed array does not test the name. *)
Theorem parsePermissions_empty_name :
  GooglePlay.parsePermissions (VStr emptyPermission) false
    = Ok (VArr [VObj [("permission", VStr ""); ("type", VStr "")]]) /\
  GooglePlay.parsePermissions (VStr emptyPermission) true = Ok (VArr [VStr ""]).
Proof. split; vm_compute; reflexivity. Qed.

(** In the same loop an object with an empty [name] is dropped, a string
    element that is empty is not. *)
Lemma permission_of_json_name_test :
  GooglePlay.permission_of_json false ([], []) (VObj [("name", VStr "")]) = Ok ([], []) /\
  GooglePlay.permission_of_json false ([], []) (VStr "")
    = Ok ([VObj [("permission", VStr ""); ("type", VStr "")]], [""]).
Proof. split; vm_compute; reflexivity. Qed.

(** *** Google Play: the app record *)

(** C2 (as the code has it).  In the record that the Google Play
    [parseApp] returns, title, icon and description hold the value of the
    visible markup whenever one of its patterns matches; the value of the
    JSON-LD block is used only when none matches. *)
Theorem parseApp_markup_first (html : string) (fs : list (string * value)) :
  GooglePlay.parseApp (VStr html) = Ok (VObj fs) ->
  exists appData title icon description,
    GooglePlay.jsonLdData html = Ok appData /\
    assoc "title" fs = Some title /\
    assoc "icon" fs = Some icon /\
    assoc "description" fs = Some description /\
    match GooglePlay.titleMatch html with
    | Some m => GooglePlay.group1_trim m = Ok title
    | None => getp appData "title" = Ok title
    end /\
    match GooglePlay.iconMatch html with
    | Some m => group m 1 = icon
    | None => getp appData "icon" = Ok icon
    end /\
    match GooglePlay.descMatch html with
    | Some m => bind (GooglePlay.group1_text m) (fun t => Ok (VStr t)) = Ok description
    | None => getp appData "description" = Ok description
    end.
Proof.
  intros H. unfold GooglePlay.parseApp in H.
  destruct (html =? ""); [discriminate H|].
  match type of H with
  | try_catch ?body _ = _ => destruct body as [r|] eqn:B; cbn [try_catch] in H;
                             [|discriminate H]
  end.
  injection H as ->.
  bind_as B appData EappData. bind_as B appId EappId. bind_as B title Etitle.
  bind_as B developer Edev. bind_as B developerId EdevId.
  bind_as B priceText EpriceText. bind_as B priceStr EpriceStr.
  bind_as B rating Erating. bind_as B ratingCount EratingCount.
  bind_as B icon Eicon. bind_as B description Edesc.
  bind_as B version Eversion. bind_as B contentRating EcontentRating.
  bind_as B installs Einstalls. bind_as B size Esize.
  bind_as B androidVersionText EandroidText. bind_as B androidVersion Eandroid.
  bind_as B recentChanges Erecent. bind_as B category Ecategory.
  bind_as B updated Eupdated.
  unfold object in B. bind_as B vs F. injection B as <-.
  field_of fields_assoc F "title". field_of fields_assoc F "icon".
  field_of fields_assoc F "description".
  exists appData, title, icon, description.
  repeat split; try assumption.
  - destruct (GooglePlay.titleMatch html); exact Etitle.
  - destruct (GooglePlay.iconMatch html); cbn [GooglePlay.if_match] in Eicon.
    + unfold ret in Eicon. injection Eicon as Eicon. exact Eicon.
    + exact Eicon.
  - destruct (GooglePlay.descMatch html); exact Edesc.
Qed.

Lemma parseApp_markup_first_witness :
  GooglePlay.parseApp (VStr bothSources) = Ok (VObj bothSourcesFields) /\
  exists appData title icon description,
    GooglePlay.jsonLdData bothSources = Ok appData /\
    assoc "title" bothSourcesFields = Some title /\
    assoc "icon" bothSourcesFields = Some icon /\
    assoc "description" bothSourcesFields = Some description /\
    match GooglePlay.titleMatch bothSources with
    | Some m => GooglePlay.group1_trim m = Ok title
    | None => getp appData "title" = Ok title
    end /\
    match GooglePlay.iconMatch bothSources with
    | Some m => group m 1 = icon
    | None => getp appData "icon" = Ok icon
    end /\
    match GooglePlay.descMatch bothSources with
    | Some m => bind (GooglePlay.group1_text m) (fun t => Ok (VStr t)) = Ok description
    | None => getp appData "description" = Ok description
    end.
Proof.
  split.
  - vm_compute. reflexivity.
  - apply (parseApp_markup_first bothSources bothSourcesFields).
    vm_compute. reflexivity.
Defined.

(** C2, as stated, fails on [bothSources]: the JSON-LD block supplies the
    title "A", the icon "i1" and the description "d1", the visible markup
    supplies "B", "i2" and "d2", and the record carries the latter. *)
Lemma parseApp_structured_value_loses :
  prop_of (GooglePlay.jsonLdData bothSources) "title" = Some (VStr "A") /\
  prop_of (GooglePlay.jsonLdData bothSources) "icon" = Some (VStr "i1") /\
  prop_of (GooglePlay.jsonLdData bothSources) "description" = Some (VStr "d1") /\
  prop_of (GooglePlay.parseApp (VStr bothSources)) "title" = Some (VStr "B") /\
  prop_of (GooglePlay.parseApp (VStr bothSources)) "icon" = Some (VStr "i2") /\
  prop_of (GooglePlay.parseApp (VStr bothSources)) "description" = Some (VStr "d2") /\
  VStr "B" <> VStr "A" /\ VStr "i2" <> VStr "i1" /\ VStr "d2" <> VStr "d1".
Proof. repeat split; try (vm_compute; reflexivity); discriminate. Qed.

(** Without the visible markup the values of the JSON-LD block are
    returned. *)
Lemma parseApp_structured_value_alone :
  prop_of (GooglePlay.parseApp (VStr structuredOnly)) "title" = Some (VStr "A") /\
  prop_of (GooglePlay.parseApp (VStr structuredOnly)) "icon" = Some (VStr "i1") /\
  prop_of (GooglePlay.parseApp (VStr structuredOnly)) "description" = Some (VStr "d1").
Proof. repeat split; vm_compute; reflexivity. Qed.

(** In the Google Play record, [free] is true exactly when [price] is 0;
    a page without price markup is free. *)
Lemma parseApp_free_iff_price_zero (html : string) (fs : list (string * value)) :
  GooglePlay.parseApp (VStr html) = Ok (VObj fs) ->
  exists free : bool,
    assoc "free" fs = Some (VBool free) /\
    assoc "price" fs = Some (if free then num 0 else VNull).
Proof.
  intros H. unfold GooglePlay.parseApp in H.
  destruct (html =? ""); [discriminate H|].
  match type of H with
  | try_catch ?body _ = _ => destruct body as [r|] eqn:B; cbn [try_catch] in H;
                             [|discriminate H]
  end.
  injection H as ->.
  bind_as B appData EappData. bind_as B appId EappId. bind_as B title Etitle.
  bind_as B developer Edev. bind_as B developerId EdevId.
  bind_as B priceText EpriceText. bind_as B priceStr EpriceStr.
  bind_as B rating Erating. bind_as B ratingCount EratingCount.
  bind_as B icon Eicon. bind_as B description Edesc.
  bind_as B version Eversion. bind_as B contentRating EcontentRating.
  bind_as B installs Einstalls. bind_as B size Esize.
  bind_as B androidVersionText EandroidText. bind_as B androidVersion Eandroid.
  bind_as B recentChanges Erecent. bind_as B category Ecategory.
  bind_as B updated Eupdated.
  unfold object in B. bind_as B vs F. injection B as <-.
  field_of fields_assoc F "free". field_of fields_assoc F "price".
  eexists. split; eassumption.
Qed.

(** *** Google Play: reviews as a stream of candidates *)

Lemma add_all_app (a b : list cand) (st : GooglePlay.rev_state) :
  add_all (a ++ b) st = add_all b (add_all a st).
Proof. unfold add_all. apply fold_left_app. Qed.

Lemma push_if_new_emits (review : value) (st : GooglePlay.rev_state) :
  GooglePlay.push_if_new review st = bind (cand_of_review review) (fun cs => Ok (add_all cs st)).
Proof.
  unfold GooglePlay.push_if_new, cand_of_review.
  repeat (step; try reflexivity).
Qed.

Lemma review_of_jsonld_item_emits :
  emits GooglePlay.review_of_jsonld_item cand_of_jsonld_item.
Proof.
  intros st item. unfold GooglePlay.review_of_jsonld_item, cand_of_jsonld_item.
  repeat (step; try reflexivity; try apply push_if_new_emits).
Qed.

Lemma review_of_json_item_emits (with_comment : bool) :
  emits (GooglePlay.review_of_json_item with_comment) (cand_of_json_item with_comment).
Proof.
  intros st item. unfold GooglePlay.review_of_json_item, cand_of_json_item.
  repeat (step; try reflexivity; try apply push_if_new_emits).
Qed.

Lemma review_of_listed_item_emits :
  emits GooglePlay.review_of_listed_item cand_of_listed_item.
Proof.
  intros st item. unfold GooglePlay.review_of_listed_item, cand_of_listed_item.
  repeat (step; try reflexivity; try apply push_if_new_emits).
Qed.

Lemma forEach_caught_until (f : GooglePlay.rev_state -> value -> result GooglePlay.rev_state)
    (g : value -> result (list cand)) :
  emits f g ->
  forall items st, forEach_caught f items st = add_all (until_throw g items) st.
Proof.
  intros H items. induction items as [|x items IH]; intros st; simpl; [reflexivity|].
  rewrite (H st x). destruct (g x) as [cs|]; cbn [bind]; [|reflexivity].
  rewrite IH, add_all_app. reflexivity.
Qed.

Lemma reviews_of_jsonld_adds (st : GooglePlay.rev_state) (m : mres) :
  GooglePlay.reviews_of_jsonld st m = add_all (cands_of_jsonld m) st.
Proof.
  unfold GooglePlay.reviews_of_jsonld, cands_of_jsonld.
  repeat (step; try reflexivity;
          try apply (forEach_caught_until _ _ review_of_jsonld_item_emits)).
Qed.

Lemma reviews_of_json_span_adds (st : GooglePlay.rev_state) (jm : mres) :
  GooglePlay.reviews_of_json_span st jm = add_all (cands_of_json_span jm) st.
Proof.
  unfold GooglePlay.reviews_of_json_span, cands_of_json_span.
  repeat (step; try reflexivity;
          try apply (forEach_caught_until _ _ (review_of_json_item_emits true))).
Qed.

Lemma reviews_of_json_script_adds (scriptContent : string) (st : GooglePlay.rev_state) :
  GooglePlay.reviews_of_json_script scriptContent st
  = add_all (cands_of_json_script scriptContent) st.
Proof.
  unfold GooglePlay.reviews_of_json_script, cands_of_json_script.
  repeat (step; try reflexivity;
          try apply (forEach_caught_until _ _ (review_of_json_item_emits false));
          try apply (forEach_caught_until _ _ review_of_listed_item_emits)).
Qed.

Lemma fold_left_adds {A : Type} (f : GooglePlay.rev_state -> A -> GooglePlay.rev_state)
    (g : A -> list cand) :
  (forall st x, f st x = add_all (g x) st) ->
  forall l st, fold_left f l st = add_all (flat_map g l) st.
Proof.
  intros H l. induction l as [|x l IH]; intros st; simpl; [reflexivity|].
  rewrite H, IH, add_all_app. reflexivity.
Qed.

Lemma foldM_emits {A : Type} (f : GooglePlay.rev_state -> A -> result GooglePlay.rev_state)
    (g : A -> result (list cand)) :
  emits f g ->
  forall l st, foldM f l st = bind (concatM g l) (fun cs => Ok (add_all cs st)).
Proof.
  intros H l. induction l as [|x l IH]; intros st; [reflexivity|].
  unfold concatM in *. simpl. rewrite (H st x).
  destruct (g x) as [cs|]; cbn [bind]; [|reflexivity].
  rewrite IH. destruct (mapM g l) as [ls|]; cbn [bind]; [|reflexivity].
  simpl. rewrite add_all_app. reflexivity.
Qed.

Lemma reviews_of_script_emits : emits GooglePlay.reviews_of_script cands_of_script.
Proof.
  intros st m. unfold GooglePlay.reviews_of_script, cands_of_script.
  destruct (as_string (group m 1)) as [scriptContent|]; cbn [bind]; [|reflexivity].
  destruct (includes scriptContent "review" || includes scriptContent "rating"
            || includes scriptContent "_df_"); [|reflexivity].
  cbv zeta.
  rewrite (fold_left_adds _
             (fun pattern => flat_map cands_of_json_span (matchAll scriptContent pattern))).
  - destruct (startsWith (trim scriptContent) "{" || startsWith (trim scriptContent) "[");
      cbn [bind].
    + rewrite reviews_of_json_script_adds, add_all_app. reflexivity.
    + reflexivity.
  - intros st' pattern. apply fold_left_adds. apply reviews_of_json_span_adds.
Qed.

Lemma review_of_block_emits : emits GooglePlay.review_of_block cand_of_block.
Proof.
  intros st bm. unfold GooglePlay.review_of_block, cand_of_block.
  repeat (step; try reflexivity).
Qed.

(** [parseReviews] keeps, of the candidates of the document, those whose
    key is new. *)
Lemma parseReviews_adds_candidates (html : string) :
  html <> "" ->
  GooglePlay.parseReviews (VStr html) =
  match candidates html with
  | Ok cs => Ok (GooglePlay.reviews_result (fst (add_all cs ([], []))) (GooglePlay.nextToken html))
  | Throw _ => Ok GooglePlay.empty_reviews
  end.
Proof.
  intros Hne. unfold GooglePlay.parseReviews, candidates, cands_embedded, cands_visible,
    cands_structured.
  destruct (html =? "") eqn:E; [apply String.eqb_eq in E; contradiction|].
  rewrite (fold_left_adds _ _ reviews_of_jsonld_adds).
  rewrite (foldM_emits _ _ reviews_of_script_emits).
  destruct (concatM cands_of_script (matchAll html GooglePlay.scriptPattern)) as [c2|];
    cbn [bind try_catch]; [|reflexivity].
  rewrite (foldM_emits _ (fun pattern => concatM cand_of_block (matchAll html pattern))).
  - destruct (concatM _ GooglePlay.reviewPatterns) as [c3|]; cbn [bind try_catch];
      [|reflexivity].
    rewrite !add_all_app. reflexivity.
  - intros st pattern. apply foldM_emits. apply review_of_block_emits.
Qed.

(** *** The first-wins rule *)

Lemma add_all_first_wins (cs : list cand) :
  forall rs seen, fst (add_all cs (rs, seen)) = (rs ++ first_wins seen cs)%list.
Proof.
  induction cs as [|[k r] cs IH]; intros rs seen.
  - simpl. rewrite app_nil_r. reflexivity.
  - change (add_all ((k, r) :: cs) (rs, seen))
      with (add_all cs (GooglePlay.add_review k r (rs, seen))).
    unfold GooglePlay.add_review. cbn [fst snd first_wins].
    destruct (set_has seen k).
    + apply IH.
    + rewrite IH, <- app_assoc. reflexivity.
Qed.

Lemma num_eq_trans (a b c : number) :
  num_eq a b = true -> num_eq b c = true -> num_eq a c = true.
Proof.
  destruct a, b, c; simpl; try discriminate; try (intros; assumption).
  - destruct neg, neg0, neg1; simpl; auto.
  - rewrite !Qeq_bool_iff. intros H1 H2. rewrite H1. exact H2.
Qed.

Lemma same_value_zero_trans (a b c : value) :
  same_value_zero a b = true -> same_value_zero b c = true -> same_value_zero a c = true.
Proof.
  destruct a, b, c; simpl; try discriminate; try (intros; assumption); try reflexivity;
    repeat match goal with
           | x : bool |- _ => destruct x
           | x : number |- _ => destruct x
           end;
    simpl; try discriminate; try (intros; assumption); try reflexivity.
  - rewrite !Qeq_bool_iff. intros H1 H2. rewrite H1. exact H2.
  - rewrite !String.eqb_eq. congruence.
Qed.

Lemma set_has_app (a b : list value) (k : value) :
  set_has (a ++ b) k = set_has a k || set_has b k.
Proof. unfold set_has. apply existsb_app. Qed.

Lemma set_has_same (seen : list value) (k1 k2 : value) :
  same_value_zero k2 k1 = true -> set_has seen k1 = true -> set_has seen k2 = true.
Proof.
  unfold set_has. intros H. rewrite !existsb_exists.
  intros [x [Hin Hx]]. exists x. split; [exact Hin|].
  eapply same_value_zero_trans; eauto.
Qed.

(** A candidate whose key is already seen leaves the result as it is
    without it. *)
Lemma first_wins_seen (k2 r2 : value) (mid post : list cand) :
  forall seen, set_has seen k2 = true ->
  first_wins seen (mid ++ (k2, r2) :: post) = first_wins seen (mid ++ post).
Proof.
  induction mid as [|[k r] mid IH]; intros seen H; simpl.
  - rewrite H. reflexivity.
  - destruct (set_has seen k).
    + apply IH. exact H.
    + f_equal. apply IH. rewrite set_has_app, H. reflexivity.
Qed.

Lemma first_wins_drops_later (k1 r1 k2 r2 : value) (pre mid post : list cand) :
  same_value_zero k2 k1 = true ->
  forall seen,
  first_wins seen (pre ++ (k1, r1) :: mid ++ (k2, r2) :: post)
  = first_wins seen (pre ++ (k1, r1) :: mid ++ post).
Proof.
  intros H. induction pre as [|[k r] pre IH]; intros seen; simpl.
  - destruct (set_has seen k1) eqn:S.
    + apply first_wins_seen. eapply set_has_same; eauto.
    + f_equal. apply first_wins_seen.
      rewrite set_has_app. simpl. rewrite H. rewrite orb_true_r. reflexivity.
  - destruct (set_has seen k); [apply IH | f_equal; apply IH].
Qed.

Lemma first_wins_keeps_first (k1 r1 : value) (rest : list cand) :
  forall pre seen,
  set_has seen k1 = false ->
  set_has (map fst pre) k1 = false ->
  In r1 (first_wins seen (pre ++ (k1, r1) :: rest)).
Proof.
  induction pre as [|[k r] pre IH]; intros seen Hs Hp; simpl.
  - rewrite Hs. left. reflexivity.
  - simpl in Hp. apply orb_false_iff in Hp. destruct Hp as [Hk Hp].
    destruct (set_has seen k).
    + apply IH; assumption.
    + right. apply IH; [|exact Hp].
      rewrite set_has_app, Hs. simpl. rewrite Hk. reflexivity.
Qed.

(** C4 (as the code has it).  When two candidates of a document share an
    identity key, the later one is discarded whole: the reviews returned
    are those of the document's candidates without it, none of its fields
    fills a gap, and the record of the first candidate with that key is
    returned as that candidate had it. *)
Theorem parseReviews_keeps_first_candidate
    (html : string) (pre mid post : list cand) (k1 r1 k2 r2 : value) :
  candidates html = Ok (pre ++ (k1, r1) :: mid ++ (k2, r2) :: post)%list ->
  same_value_zero k2 k1 = true ->
  set_has (map fst pre) k1 = false ->
  exists data,
    GooglePlay.parseReviews (VStr html)
      = Ok (GooglePlay.reviews_result data (GooglePlay.nextToken html)) /\
    data = first_wins [] (pre ++ (k1, r1) :: mid ++ post)%list /\
    In r1 data.
Proof.
  intros Hc Hk Hp.
  assert (Hne : html <> "").
  { intros ->. vm_compute in Hc. injection Hc as Hc.
    destruct pre; discriminate Hc. }
  exists (first_wins [] (pre ++ (k1, r1) :: mid ++ post)%list).
  split; [|split; [reflexivity|]].
  - rewrite (parseReviews_adds_candidates html Hne), Hc.
    rewrite add_all_first_wins. cbn [app].
    rewrite (first_wins_drops_later k1 r1 k2 r2 pre mid post Hk). reflexivity.
  - apply first_wins_keeps_first; [reflexivity|exact Hp].
Qed.

Lemma parseReviews_keeps_first_candidate_witness :
  candidates sameIdTwice = Ok ([] ++ (VStr "r1", firstReview)
                               :: [] ++ (VStr "r1", secondReview) :: [])%list /\
  same_value_zero (VStr "r1") (VStr "r1") = true /\
  set_has (map fst (@nil cand)) (VStr "r1") = false /\
  exists data,
    GooglePlay.parseReviews (VStr sameIdTwice)
      = Ok (GooglePlay.reviews_result data (GooglePlay.nextToken sameIdTwice)) /\
    data = first_wins [] ([] ++ (VStr "r1", firstReview) :: [] ++ [])%list /\
    In firstReview data.
Proof.
  assert (Hc : candidates sameIdTwice
               = Ok ([] ++ (VStr "r1", firstReview)
                     :: [] ++ (VStr "r1", secondReview) :: [])%list).
  { vm_compute. reflexivity. }
  split; [exact Hc|]. split; [reflexivity|]. split; [reflexivity|].
  exact (parseReviews_keeps_first_candidate sameIdTwice [] [] []
           (VStr "r1") firstReview (VStr "r1") secondReview Hc eq_refl eq_refl).
Defined.

(** C4, as stated, fails on [sameIdTwice]: its two candidates share the key
    "r1", the first has the text "great" and no rating, the second the
    rating 5 and no text; the single record returned is the first one, with
    score 0. *)
Lemma parseReviews_drops_second_candidate :
  candidates sameIdTwice = Ok [(VStr "r1", firstReview); (VStr "r1", secondReview)] /\
  prop_of (Ok firstReview) "text" = Some (VStr "great") /\
  prop_of (Ok secondReview) "score" = Some (num 5) /\
  GooglePlay.parseReviews (VStr sameIdTwice)
    = Ok (GooglePlay.reviews_result [firstReview] VNull) /\
  prop_of (Ok firstReview) "score" = Some (num 0) /\
  num 0 <> num 5.
Proof. repeat split; try (vm_compute; reflexivity); discriminate. Qed.

(** The same happens across strategies: a review block of the visible
    markup with the id of a JSON-LD review adds nothing to it. *)
Lemma parseReviews_drops_markup_duplicate :
  GooglePlay.parseReviews
    (VStr (bq ("<script type='application/ld+json'>"
               ++ "{`@type`:`Review`,`@id`:`r1`,`reviewBody`:`great`}</script>"
               ++ "<div class='review'><span data-review-id='r1' aria-label='5 stars'>"
               ++ "</span></div>")))
  = Ok (GooglePlay.reviews_result [firstReview] VNull).
Proof. vm_compute. reflexivity. Qed.

(** *** Google Play: reviews without anything to extract *)

Lemma concatM_no_matches (html : string) (g : mres -> result (list cand)) (ps : list regex) :
  Forall (fun p => matchAll html p = []) ps ->
  concatM (fun p => concatM g (matchAll html p)) ps = Ok [].
Proof.
  unfold concatM. induction 1 as [|p ps Hp _ IH]; simpl; [reflexivity|].
  rewrite Hp. simpl.
  destruct (mapM _ ps) as [ls|]; simpl in *; [|discriminate IH].
  injection IH as ->. reflexivity.
Qed.

(** A page without script element and without review block has no
    candidate. *)
Lemma candidates_without_markup (html : string) :
  no_embedded_json html -> no_review_markup html -> candidates html = Ok [].
Proof.
  intros [Hj Hs] Hm.
  unfold candidates, cands_embedded, cands_visible, cands_structured.
  rewrite Hj, Hs. unfold no_review_markup in Hm.
  rewrite (concatM_no_matches html _ _ Hm). reflexivity.
Qed.


(** A pagination token is surfaced also when no review is found: the page
    [tokenOnly] has no script element and no review block, and the result
    carries its token "abc". *)
Lemma parseReviews_token_without_reviews :
  no_embedded_json tokenOnly /\ no_review_markup tokenOnly /\
  candidates tokenOnly = Ok [] /\
  GooglePlay.parseReviews (VStr tokenOnly)
    = Ok (GooglePlay.reviews_result [] (VStr "abc")) /\
  GooglePlay.reviews_result [] (VStr "abc") <> GooglePlay.empty_reviews.
Proof.
  split; [split; vm_compute; reflexivity|].
  split; [unfold no_review_markup, GooglePlay.reviewPatterns;
          repeat constructor; vm_compute; reflexivity|].
  split; [vm_compute; reflexivity|].
  split; [vm_compute; reflexivity|discriminate].
Qed.





(** *** Which parsers return normally on every input *)

(** X20.  The Google Play parsers answer every value: a guard sends whatever
    is not a non-empty string to the empty result, and the rest runs inside a
    [try] whose [catch] returns the empty result. *)
Lemma googlePlay_parsers_return (v : value) (short : bool) :
  (exists r, GooglePlay.parseApp v = Ok r) /\
  (exists r, GooglePlay.parseReviews v = Ok r) /\
  (exists r, GooglePlay.parseCategories v = Ok r) /\
  (exists r, GooglePlay.parsePermissions v short = Ok r) /\
  (exists r, GooglePlay.parseSuggest v = Ok r).
Proof.
  unfold GooglePlay.parseApp, GooglePlay.parseReviews, GooglePlay.parseCategories,
    GooglePlay.parsePermissions, GooglePlay.parseSuggest.
  repeat split;
    destruct v as [| |b|n|s|l|fs];
    try (eexists; reflexivity);
    try (destruct (s =? ""); [eexists; reflexivity|]);
    try (destruct (negb (truthy _)); [eexists; reflexivity|]);
    apply try_catch_returns.
Qed.

(* ================================================================== *)
(** ** Further properties: the other parsers, the URL builders, the HTTP client *)
(* ================================================================== *)

(** *** Helpers of the further properties *)

Lemma fields_keys (es : list (string * result value)) :
  forall vs, fields es = Ok vs -> map fst vs = map fst es.
Proof.
  induction es as [|[k e] es IH]; intros vs H; simpl in H.
  - injection H as <-. reflexivity.
  - bind_as H v Ev. bind_as H vs' F. injection H as <-. simpl. f_equal. auto.
Qed.

Lemma object_keys (es : list (string * result value)) (r : value) :
  object es = Ok r -> keys r = map fst es /\ exists vs, r = VObj vs /\ fields es = Ok vs.
Proof.
  unfold object. intros H. bind_as H vs F. injection H as <-.
  split; [exact (fields_keys es vs F)|exists vs; auto].
Qed.

Lemma returns_getp (v : value) (k : string) : nullish v = false -> returns (getp v k).
Proof. destruct v; simpl; intros H; try discriminate; eexists; reflexivity. Qed.

Lemma returns_getp_opt (v : value) (k : string) : returns (getp_opt v k).
Proof. destruct v; simpl; eexists; reflexivity. Qed.

Lemma returns_geti_opt (v : value) (i : nat) : returns (AppStoreFeeds.geti_opt v i).
Proof. destruct v; simpl; eexists; reflexivity. Qed.

Lemma returns_getr_opt (r : result value) (k : string) : returns r -> returns (getr_opt r k).
Proof. intros [v ->]. apply returns_getp_opt. Qed.

Lemma returns_getr_iopt (r : result value) (i : nat) :
  returns r -> returns (AppStoreFeeds.getr_iopt r i).
Proof. intros [v ->]. apply returns_geti_opt. Qed.

Lemma returns_or_else (a b : result value) : returns a -> returns b -> returns (or_else a b).
Proof.
  intros [x ->] [y ->]. unfold or_else; simpl. destruct (truthy x); eexists; reflexivity.
Qed.

Lemma returns_ret (v : value) : returns (ret v).
Proof. eexists; reflexivity. Qed.

Lemma returns_fields (es : list (string * result value)) :
  Forall (fun p => returns (snd p)) es -> returns (fields es).
Proof.
  induction 1 as [|[k e] es [v Hv] _ [vs IH]]; simpl.
  - eexists; reflexivity.
  - simpl in Hv. rewrite Hv, IH. eexists; reflexivity.
Qed.

Lemma returns_object (es : list (string * result value)) :
  Forall (fun p => returns (snd p)) es -> returns (object es).
Proof.
  intros H. destruct (returns_fields es H) as [vs E]. unfold object. rewrite E.
  eexists; reflexivity.
Qed.

(** [a || b] is truthy when its last operand is. *)
Lemma or_else_truthy (a b : result value) (x : value) :
  or_else a b = Ok x -> (forall y, b = Ok y -> truthy y = true) -> truthy x = true.
Proof.
  unfold or_else. intros H Hb. bind_as H v Ev.
  destruct (truthy v) eqn:T; [injection H as <-; exact T|auto].
Qed.

Lemma mapM_Forall2 {A B : Type} (f : A -> result B) :
  forall l l', mapM f l = Ok l' -> Forall2 (fun x y => f x = Ok y) l l'.
Proof.
  induction l as [|a l IH]; intros l' E; simpl in E.
  - injection E as <-. constructor.
  - bind_as E y Ey. bind_as E ys Eys. injection E as <-. constructor; auto.
Qed.

Lemma mapM_returns {A B : Type} (f : A -> result B) (l : list A) :
  Forall (fun x => returns (f x)) l -> returns (mapM f l).
Proof.
  induction 1 as [|a l [y Hy] _ [ys IH]]; simpl.
  - eexists; reflexivity.
  - rewrite Hy, IH. eexists; reflexivity.
Qed.

Lemma forEach_caught_inv {A S : Type} (Inv : S -> Prop) (f : S -> A -> result S) :
  (forall s x s', Inv s -> f s x = Ok s' -> Inv s') ->
  forall l s, Inv s -> Inv (forEach_caught f l s).
Proof.
  intros Hf l. induction l as [|x l IH]; intros s Hs; simpl; [exact Hs|].
  destruct (f s x) as [s'|] eqn:E; [|exact Hs]. apply IH. eapply Hf; eauto.
Qed.

Lemma foldM_inv {A S : Type} (Inv : S -> Prop) (f : S -> A -> result S) :
  (forall s x s', Inv s -> f s x = Ok s' -> Inv s') ->
  forall l s s', Inv s -> foldM f l s = Ok s' -> Inv s'.
Proof.
  intros Hf l. induction l as [|x l IH]; intros s s' Hs E; simpl in E.
  - injection E as <-. exact Hs.
  - bind_as E s1 E1. eapply IH; [|exact E]. eapply Hf; eauto.
Qed.

Lemma fold_left_inv {A S : Type} (Inv : S -> Prop) (f : S -> A -> S) :
  (forall s x, Inv s -> Inv (f s x)) ->
  forall l s, Inv s -> Inv (fold_left f l s).
Proof.
  intros Hf l. induction l as [|x l IH]; intros s Hs; simpl; auto.
Qed.

Lemma group_cases (m : mres) (i : nat) :
  group m i = VUndefined \/ exists s, group m i = VStr s.
Proof.
  unfold group. destruct i; [right; eexists; reflexivity|].
  destruct (cap_get (S i) (m_caps m)); [right; eexists|left]; reflexivity.
Qed.

Lemma Forall_snoc {A : Type} (P : A -> Prop) (l : list A) (x : A) :
  Forall P l -> P x -> Forall P (l ++ [x]).
Proof. intros Hl Hx. apply Forall_app. split; [exact Hl|constructor; [exact Hx|constructor]]. Qed.

Lemma NoDup_snoc {A : Type} (l : list A) (x : A) :
  NoDup l -> ~ In x l -> NoDup (l ++ [x]).
Proof.
  induction 1 as [|y l Hy Hl IH]; intros Hx; simpl.
  - constructor; [intros []|constructor].
  - constructor.
    + rewrite in_app_iff. intros [H|[H|[]]]; [exact (Hy H)|].
      apply Hx. left. symmetry. exact H.
    + apply IH. intros H. apply Hx. right. exact H.
Qed.

Lemma nearest_binary64_cases (neg : bool) (n : Z) :
  (exists z, nearest_binary64 neg n = ofZ z) \/ nearest_binary64 neg n = Inf neg.
Proof.
  unfold nearest_binary64.
  destruct (_ <=? 0)%Z; [left; eexists; reflexivity|].
  cbv zeta. destruct (_ <=? _)%Z; [right; reflexivity|left; eexists; reflexivity].
Qed.

Lemma parseInt10_cases (s : string) :
  parseInt10 s = NaN \/ (exists z, parseInt10 s = ofZ z) \/ (exists neg, parseInt10 s = Inf neg).
Proof.
  unfold parseInt10.
  destruct (match trimStart s with
            | String "-" u => (true, u)
            | String "+" u => (false, u)
            | _ => (false, trimStart s)
            end) as [neg r].
  destruct (span_digits r) as [d rest].
  destruct (d =? ""); [left; reflexivity|right].
  destruct (nearest_binary64_cases neg (digits_value d 0)) as [[z ->]| ->];
    [left; exists z|right; exists neg]; reflexivity.
Qed.

Lemma num_or_zero_parseInt10 (s : string) :
  integer_or_infinite (AppStoreFeeds.num_or_zero (parseInt10 s)).
Proof.
  unfold AppStoreFeeds.num_or_zero, integer_or_infinite.
  destruct (parseInt10_cases s) as [->|[[z ->]|[neg ->]]].
  - left. exists 0%Z. reflexivity.
  - left. destruct (num_truthy (ofZ z)); [exists z|exists 0%Z]; reflexivity.
  - right. exists neg. reflexivity.
Qed.

Lemma version_record_nullish (v : value) :
  nullish v = true -> AppStoreFeeds.version_record v = Throw TypeError.
Proof. destruct v; simpl; intros H; try discriminate; reflexivity. Qed.

Lemma version_record_returns (v : value) :
  nullish v = false ->
  exists r, AppStoreFeeds.version_record v = Ok r /\ keys r = version_keys.
Proof.
  intros H.
  destruct (returns_object
    [ ("versionDisplay", or_else (getp v "versionDisplay") (or_else (getp v "version") (ret VNull)));
      ("releaseNotes", or_else (getp v "releaseNotes") (ret VNull));
      ("releaseDate", or_else (getp v "releaseDate") (ret VNull));
      ("releaseTimestamp", or_else (getp v "releaseTimestamp") (ret VNull)) ]) as [r E].
  { repeat constructor; cbn [snd];
      repeat first [apply returns_or_else | apply returns_ret | apply returns_getp; exact H]. }
  exists r. split; [exact E|]. apply object_keys in E. apply E.
Qed.

(** X1.  parseVersionHistory: anything but an array gives the empty list; an
    array holding [null] is a TypeError; every other array gives one record
    per version, in order, each with the four keys of the version record. *)
Theorem parseVersionHistory_one_record_per_version (data : value) :
  match data with
  | VArr items =>
      if existsb nullish items
      then AppStoreFeeds.parseVersionHistory data = Throw TypeError
      else exists out,
             AppStoreFeeds.parseVersionHistory data = Ok (VArr out) /\
             Forall2 (fun version r =>
                        AppStoreFeeds.version_record version = Ok r /\ keys r = version_keys)
                     items out
  | _ => AppStoreFeeds.parseVersionHistory data = Ok (VArr [])
  end.
Proof.
  destruct data as [| |b|n|s|items|fs]; try reflexivity.
  - unfold AppStoreFeeds.parseVersionHistory; simpl. destruct b; reflexivity.
  - unfold AppStoreFeeds.parseVersionHistory; simpl. destruct (num_truthy n); reflexivity.
  - unfold AppStoreFeeds.parseVersionHistory; simpl. destruct (negb (s =? "")); reflexivity.
  - unfold AppStoreFeeds.parseVersionHistory. cbn [truthy isArray negb orb as_array bind].
    induction items as [|x items IH]; cbn [existsb].
    + exists []. split; [reflexivity|constructor].
    + destruct (nullish x) eqn:N; cbn [orb mapM].
      * rewrite (version_record_nullish x N). reflexivity.
      * destruct (version_record_returns x N) as [r [E K]]. rewrite E. cbn [bind].
        destruct (existsb nullish items).
        -- destruct (mapM AppStoreFeeds.version_record items); [discriminate IH|].
           cbn [bind]. injection IH as ->. reflexivity.
        -- destruct IH as [out [Eo F]].
           destruct (mapM AppStoreFeeds.version_record items) as [ys|]; [|discriminate Eo].
           cbn [bind] in Eo |- *. injection Eo as <-.
           exists (r :: ys). split; [reflexivity|]. constructor; auto.
Qed.

Lemma review_record_shape (entry r : value) :
  AppStoreFeeds.review_record entry = Ok r -> review_shape r.
Proof.
  intros E. unfold AppStoreFeeds.review_record in E.
  bind_as E author Ea. bind_as E rating Er. bind_as E version Ev. bind_as E title Et.
  bind_as E content Ec. bind_as E updated Eu. bind_as E rid Ei. bind_as E has_uri Eh.
  bind_as E userUrl Eur.
  apply object_keys in E. destruct E as [K [vs [-> F]]].
  split; [exact K|split].
  - destruct (fields_assoc _ _ F "userName" _ eq_refl) as [name [Hn An]].
    exists name. split; [exact An|].
    eapply or_else_truthy; [exact Hn|]. intros y Hy.
    eapply or_else_truthy; [exact Hy|]. intros z Hz. injection Hz as <-. reflexivity.
  - destruct (fields_assoc _ _ F "score" _ eq_refl) as [score [Hs As]].
    bind_as Hs s Es. unfold ret in Hs. injection Hs as <-.
    eexists. split; [exact As|]. apply num_or_zero_parseInt10.
Qed.

(** X2.  parseReviews of the App Store: the first entry of the feed is not
    read; when the parser returns, it returns one review per later entry, in
    order, each with the nine keys of a review, a truthy userName and a
    score that is never NaN: an integer, or an infinity when the digits of
    the rating spell an integer beyond binary64. *)
Theorem appStore_parseReviews_skips_first_entry (data e : value) (rest : list value)
    (v : value) :
  getr (getp data "feed") "entry" = Ok (VArr (e :: rest)) ->
  AppStoreFeeds.parseReviews data = Ok v ->
  exists out,
    v = VArr out /\
    Forall2 (fun entry r => AppStoreFeeds.review_record entry = Ok r /\ review_shape r)
            rest out.
Proof.
  intros H0 H. unfold AppStoreFeeds.parseReviews in H. unfold getr in H0, H.
  destruct (getp data "feed") as [feed|] eqn:Ef; [|discriminate H0]. cbn [bind] in H0, H.
  assert (Td : truthy data = true).
  { destruct data; simpl in Ef |- *; try discriminate Ef; try reflexivity;
      injection Ef as <-; discriminate H0. }
  assert (Tf : truthy feed = true).
  { destruct feed; simpl in H0 |- *; try discriminate H0; reflexivity. }
  rewrite Td, Tf, H0 in H. cbn [negb bind truthy tl] in H.
  bind_as H out Eo. injection H as <-.
  exists out. split; [reflexivity|].
  apply mapM_Forall2 in Eo. clear H0.
  induction Eo as [|x y l l' Hxy _ IH]; [constructor|].
  constructor; [|exact IH].
  split; [exact Hxy|exact (review_record_shape x y Hxy)].
Qed.

Lemma appStore_parseReviews_skips_first_entry_witness :
  getr (getp (rss_feed [VNull; sampleReviewEntry]) "feed") "entry"
    = Ok (VArr [VNull; sampleReviewEntry]) /\
  exists v out,
    AppStoreFeeds.parseReviews (rss_feed [VNull; sampleReviewEntry]) = Ok v /\
    v = VArr out /\
    Forall2 (fun entry r => AppStoreFeeds.review_record entry = Ok r /\ review_shape r)
            [sampleReviewEntry] out.
Proof.
  split; [reflexivity|].
  assert (E : exists v, AppStoreFeeds.parseReviews (rss_feed [VNull; sampleReviewEntry]) = Ok v).
  { vm_compute. eexists. reflexivity. }
  destruct E as [v E]. exists v.
  destruct (appStore_parseReviews_skips_first_entry
              (rss_feed [VNull; sampleReviewEntry]) VNull [sampleReviewEntry] v
              eq_refl E) as [out [Ev F]].
  exists out. split; [exact E|split; [exact Ev|exact F]].
Defined.

Lemma num_truthy_eq_zero (n : number) :
  n <> NaN -> num_truthy n = negb (num_eq n (ofZ 0)).
Proof.
  destruct n as [|neg|q]; intros H; [contradiction H; reflexivity|reflexivity|].
  simpl. unfold Qeq_bool. simpl. rewrite Z.mul_1_r. reflexivity.
Qed.

Lemma num_or_zero_number (n : number) :
  exists p, AppStoreFeeds.num_or_zero n = VNum p /\ p <> NaN.
Proof.
  unfold AppStoreFeeds.num_or_zero. destruct (num_truthy n) eqn:T.
  - exists n. split; [reflexivity|]. intros ->. discriminate T.
  - exists (ofZ 0). split; [reflexivity|discriminate].
Qed.

Lemma list_step_shape (apps : list value) (entry : value) (apps' : list value) :
  Forall listed_app_shape apps ->
  AppStoreFeeds.list_step apps entry = Ok apps' ->
  Forall listed_app_shape apps'.
Proof.
  intros Ha E. unfold AppStoreFeeds.list_step in E.
  bind_as E raw Eapp. bind_as E n En. injection E as <-.
  destruct (truthy n); [|exact Ha].
  apply Forall_app. split; [exact Ha|]. constructor; [|constructor].
  apply object_keys in Eapp. destruct Eapp as [_ [fs [-> F]]].
  destruct (fields_assoc _ _ F "price" _ eq_refl) as [pv [Hp Ap]].
  destruct (fields_assoc _ _ F "currency" _ eq_refl) as [cv [Hc Ac]].
  destruct (fields_assoc _ _ F "kind" _ eq_refl) as [kv [Hk Ak]].
  destruct (fields_assoc _ _ F "screenshotUrls" _ eq_refl) as [sv [Hs As]].
  injection Hc as <-. injection Hk as <-. injection Hs as <-.
  unfold AppStoreFeeds.extractPrice in Hp.
  bind_as Hp priceStr Eps. bind_as Hp text Etx. injection Hp as <-.
  destruct (num_or_zero_number (parseFloat (replaceAll text AppStoreFeeds.notPricePattern "")))
    as [p [Hp Np]].
  rewrite Hp in Ap.
  change (AppStore.app_record (VObj fs) = Ok n) in En.
  apply object_keys in En. destruct En as [_ [vs [-> G]]].
  destruct (fields_assoc _ _ G "price" _ eq_refl) as [pr [Hpr Apr]].
  destruct (fields_assoc _ _ G "free" _ eq_refl) as [fr [Hfr Afr]].
  destruct (fields_assoc _ _ G "currency" _ eq_refl) as [cu [Hcu Acu]].
  destruct (fields_assoc _ _ G "kind" _ eq_refl) as [ki [Hki Aki]].
  destruct (fields_assoc _ _ G "screenshotUrls" _ eq_refl) as [sc [Hsc Asc]].
  cbn [getp] in Hpr, Hfr, Hcu, Hki, Hsc. rewrite Ap in Hpr, Hfr. rewrite Ac in Hcu.
  rewrite Ak in Hki. rewrite As in Hsc.
  unfold ret in *. rewrite or_else_ok in Hpr, Hcu, Hki, Hsc. cbn [bind] in Hfr.
  injection Hpr as <-. injection Hfr as <-. injection Hcu as <-. injection Hki as <-.
  injection Hsc as <-.
  cbn [truthy] in Apr. cbn [strict_eq num] in Afr.
  rewrite (num_truthy_eq_zero p Np) in Apr.
  destruct (num_eq p (ofZ 0)) eqn:Z; cbn [negb] in Apr.
  - exists (ofZ 0). repeat split; try assumption; discriminate.
  - exists p. rewrite Z. repeat split; assumption.
Qed.

(** X3.  parseList of the App Store never throws, and every app it returns has
    a price that is a number other than NaN, is free exactly when that price
    is 0, and carries the currency USD, the kind software and no screenshot. *)
Theorem appStore_parseList_apps (data : value) :
  exists apps,
    AppStoreFeeds.parseList data = Ok (VArr apps) /\ Forall listed_app_shape apps.
Proof.
  unfold AppStoreFeeds.parseList.
  destruct (truthy data) eqn:Td; cbn [negb]; [|exists []; split; [reflexivity|constructor]].
  destruct (getp_truthy data "feed" Td) as [feed Ef]. unfold getr. rewrite Ef. cbn [bind].
  destruct (truthy feed) eqn:Tf; cbn [negb]; [|exists []; split; [reflexivity|constructor]].
  destruct (getp feed "entry") as [entry|]; cbn [bind];
    [|exists []; split; [reflexivity|constructor]].
  destruct (truthy entry && isArray entry); [|exists []; split; [reflexivity|constructor]].
  destruct (as_array entry) as [entries|]; cbn [bind];
    [|exists []; split; [reflexivity|constructor]].
  eexists. split; [reflexivity|].
  apply (forEach_caught_inv (Forall listed_app_shape)); [|constructor].
  intros s x s' Hs E. exact (list_step_shape s x s' Hs E).
Qed.

Lemma similar_of_app_shape (apps : list value) (a : value) (apps' : list value) :
  Forall store_similar_shape apps ->
  AppStoreFeeds.similar_of_app apps a = Ok apps' ->
  Forall store_similar_shape apps'.
Proof.
  intros Ha E. unfold AppStoreFeeds.similar_of_app in E.
  bind_as E url Eu. destruct (truthy url) eqn:T; [|injection E as <-; exact Ha].
  bind_as E r Er. injection E as <-. apply Forall_snoc; [exact Ha|].
  apply object_keys in Er. destruct Er as [K [vs [-> F]]].
  destruct (fields_assoc _ _ F "appId" _ eq_refl) as [x [Hx Ax]].
  destruct (fields_assoc _ _ F "url" _ eq_refl) as [u [Hu Au]].
  injection Hx as <-. unfold ret in Hu. rewrite or_else_ok, T in Hu. injection Hu as <-.
  split; [exact K|split; [exact Ax|]]. exists url. split; [exact Au|exact T].
Qed.

Lemma similar_of_jsonld_shape (apps : list value) (m : mres) :
  Forall store_similar_shape apps ->
  Forall store_similar_shape (AppStoreFeeds.similar_of_jsonld apps m).
Proof.
  intros Ha. unfold AppStoreFeeds.similar_of_jsonld.
  destruct (Json.parse_of (group m 1)) as [jsonLd|]; cbn [bind]; [|exact Ha].
  destruct (getp jsonLd "@graph") as [graph|]; cbn [bind]; [|exact Ha].
  destruct (truthy graph); [|exact Ha].
  destruct (as_array graph) as [items|]; cbn [bind]; [|exact Ha].
  destruct (filterM _ items) as [found|]; cbn [bind]; [|exact Ha].
  apply forEach_caught_inv; [|exact Ha].
  intros s x s' Hs E. exact (similar_of_app_shape s x s' Hs E).
Qed.

Lemma similar_of_link_shape (st : list value * list value) (m : mres)
    (st' : list value * list value) :
  Forall store_similar_shape (snd st) ->
  AppStoreFeeds.similar_of_link st m = Ok st' ->
  Forall store_similar_shape (snd st').
Proof.
  destruct st as [seen apps]. intros Ha E. unfold AppStoreFeeds.similar_of_link in E.
  destruct (negb (set_has seen (group m 1))); [|injection E as <-; exact Ha].
  bind_as E text Et. injection E as <-. cbn [snd] in Ha |- *.
  apply Forall_snoc; [exact Ha|].
  split; [reflexivity|split; [reflexivity|]].
  eexists. split; reflexivity.
Qed.

(** X6.  parseSimilarFromHTML never throws, whatever it is given; every entry
    it returns has the keys id, appId, title and url, a null appId and a
    truthy url. *)
Theorem appStore_parseSimilarFromHTML_entries (html : value) :
  exists apps,
    AppStoreFeeds.parseSimilarFromHTML html = Ok (VArr apps) /\
    Forall store_similar_shape apps.
Proof.
  destruct html as [| |b|n|text|items|fs];
    try (exists []; split; [reflexivity|constructor]).
  eexists. split; [reflexivity|].
  apply (forEach_caught_inv (fun st => Forall store_similar_shape (snd st))).
  - intros s x s' Hs E. exact (similar_of_link_shape s x s' Hs E).
  - cbn [snd]. apply fold_left_inv; [|constructor].
    intros s x Hs. exact (similar_of_jsonld_shape s x Hs).
Qed.

(** [find] over the apps collected so far answers whether the identifier
    is among theirs. *)
Lemma find_by_appId (ids : list string) (apps : list value) (id : string) :
  Forall2 (fun a i => field a "appId" = Some (VStr i) /\
                      field a "url" = Some (VStr (GooglePlayPages.details_url i)))
          apps ids ->
  exists found,
    GooglePlayPages.find_by "appId" (VStr id) apps = Ok found /\
    (truthy found = false -> ~ In id ids).
Proof.
  induction 1 as [|a i apps ids [Ha _] _ [found [IHf IHn]]]; simpl.
  - exists VUndefined. split; [reflexivity|]. intros _ [].
  - destruct a as [| | | | | |fs]; simpl in Ha; try discriminate Ha.
    cbn [getp]. rewrite Ha. cbn [bind strict_eq].
    destruct (i =? id) eqn:Q.
    + exists (VObj fs). split; [reflexivity|]. intros T. discriminate T.
    + exists found. split; [exact IHf|]. intros T [->|H]; [|exact (IHn T H)].
      rewrite String.eqb_refl in Q. discriminate Q.
Qed.

Lemma similar_apps_snoc (ids : list string) (apps : list value) (id : string) (r : value) :
  similar_apps_of ids apps ->
  ~ In id ids ->
  field r "appId" = Some (VStr id) ->
  field r "url" = Some (VStr (GooglePlayPages.details_url id)) ->
  similar_apps_of (ids ++ [id]) (apps ++ [r]).
Proof.
  intros [F N] Hn Ha Hu. split; [|apply NoDup_snoc; assumption].
  apply Forall2_app; [exact F|]. constructor; [split; assumption|constructor].
Qed.

Lemma similar_of_id_distinct (apps : list value) (m : mres) (apps' : list value) :
  (exists ids, similar_apps_of ids apps) ->
  GooglePlayPages.similar_of_id apps m = Ok apps' ->
  exists ids, similar_apps_of ids apps'.
Proof.
  intros [ids H] E. unfold GooglePlayPages.similar_of_id in E.
  destruct (group_cases m 1) as [G|[id G]]; rewrite G in E; cbn [truthy] in E;
    [injection E as <-; exists ids; exact H|].
  destruct (negb (id =? "")); [|injection E as <-; exists ids; exact H].
  destruct (find_by_appId ids apps id (proj1 H)) as [found [Ef Hn]].
  rewrite Ef in E. cbn [bind] in E.
  destruct (truthy found) eqn:T; cbn [negb] in E; [injection E as <-; exists ids; exact H|].
  cbn [to_string bind] in E. injection E as <-.
  exists (ids ++ [id])%list. apply similar_apps_snoc; auto; reflexivity.
Qed.

Lemma similar_of_link_distinct (section : string) (apps : list value) (m : mres)
    (apps' : list value) :
  (exists ids, similar_apps_of ids apps) ->
  GooglePlayPages.similar_of_link section apps m = Ok apps' ->
  exists ids, similar_apps_of ids apps'.
Proof.
  intros [ids H] E. unfold GooglePlayPages.similar_of_link in E.
  bind_as E title Et. bind_as E score Es.
  destruct (group_cases m 1) as [G|[id G]]; rewrite G in E; cbn [truthy] in E;
    [injection E as <-; exists ids; exact H|].
  destruct (negb (id =? "")); [|injection E as <-; exists ids; exact H].
  destruct (find_by_appId ids apps id (proj1 H)) as [found [Ef Hn]].
  rewrite Ef in E. cbn [bind] in E.
  destruct (truthy found) eqn:T; cbn [negb] in E; [injection E as <-; exists ids; exact H|].
  cbn [to_string bind] in E. bind_as E r Er. injection E as <-.
  apply object_keys in Er. destruct Er as [_ [vs [-> F]]].
  destruct (fields_assoc _ _ F "appId" _ eq_refl) as [x [Hx Ax]].
  destruct (fields_assoc _ _ F "url" _ eq_refl) as [u [Hu Au]].
  injection Hx as <-. injection Hu as <-.
  exists (ids ++ [id])%list. apply similar_apps_snoc; auto.
Qed.

Lemma similar_of_script_distinct (apps : list value) (m : mres) (apps' : list value) :
  (exists ids, similar_apps_of ids apps) ->
  GooglePlayPages.similar_of_script apps m = Ok apps' ->
  exists ids, similar_apps_of ids apps'.
Proof.
  intros H E. unfold GooglePlayPages.similar_of_script in E.
  bind_as E content Ec.
  destruct (includes content "similar" || includes content "recommended");
    [|injection E as <-; exact H].
  injection E as <-.
  destruct (smatch content GooglePlayPages.similarAppsPattern) as [sm|]; [|exact H].
  match goal with
  | |- context [match ?e with Ok _ => _ | Throw _ => _ end] => destruct e as [data|]
  end; [|exact H].
  apply (forEach_caught_inv (fun s => exists ids, similar_apps_of ids s)); [|exact H].
  intros s x s' Hs Es. exact (similar_of_id_distinct s x s' Hs Es).
Qed.

(** X7.  parseSimilar of Google Play never throws; no two apps it returns have
    the same appId, and the url of each is the details page of its appId. *)
Theorem googlePlay_parseSimilar_distinct_apps (html : value) :
  exists apps ids,
    GooglePlayPages.parseSimilar html = Ok (VArr apps) /\ similar_apps_of ids apps.
Proof.
  assert (Hnil : similar_apps_of [] []) by (split; constructor).
  assert (Hnil' : exists ids, similar_apps_of ids []) by (exists []; exact Hnil).
  destruct html as [| |b|n|text|items|fs];
    try (exists [], []; split; [reflexivity|exact Hnil]).
  unfold GooglePlayPages.parseSimilar.
  destruct (text =? ""); [exists [], []; split; [reflexivity|exact Hnil]|].
  match goal with
  | |- context [try_catch ?body _] => destruct body as [r|] eqn:B; cbn [try_catch]
  end; [|exists [], []; split; [reflexivity|exact Hnil]].
  bind_as B s1 E1. bind_as B s2 E2. injection B as <-.
  assert (H1 : exists ids, similar_apps_of ids s1).
  { destruct (GooglePlay.first_match text GooglePlayPages.similarSectionPatterns) as [sec|].
    - bind_as E1 section Es.
      apply (foldM_inv (fun s => exists ids, similar_apps_of ids s)
                       (GooglePlayPages.similar_of_link section)
               (fun s x s' Hs E => similar_of_link_distinct section s x s' Hs E)
               _ _ _ Hnil' E1).
    - injection E1 as <-. exact Hnil'. }
  destruct (foldM_inv (fun s => exists ids, similar_apps_of ids s)
                      GooglePlayPages.similar_of_script
              similar_of_script_distinct _ _ _ H1 E2) as [ids H2].
  exists s2, ids. split; [reflexivity|exact H2].
Qed.

Lemma safety_of_section_throws (section : string) (st : GooglePlayPages.safety) :
  GooglePlayPages.safety_of_section section st = Throw TypeError.
Proof. reflexivity. Qed.

(** X8.  parseDataSafety returns null for every page in which one of the
    data-safety section patterns finds a section that is not empty: the first
    pattern of the shared-data loop lacks the [g] flag that matchAll demands,
    and the handler turns the TypeError into null, whatever the earlier
    strategies found. *)
Theorem parseDataSafety_section_gives_null (html : string) (m : mres) :
  GooglePlay.first_match html GooglePlayPages.dataSafetySectionPatterns = Some m ->
  truthy (group m 1) = true ->
  GooglePlayPages.parseDataSafety (VStr html) = Ok VNull.
Proof.
  intros Hm Ht. unfold GooglePlayPages.parseDataSafety.
  destruct (html =? ""); [reflexivity|].
  rewrite Hm, Ht.
  destruct (foldM GooglePlayPages.safety_of_script _ _) as [st2|]; cbn [bind try_catch];
    [|reflexivity].
  destruct (group_cases m 1) as [G|[s G]]; rewrite G in Ht |- *; [discriminate Ht|].
  cbn [as_string bind]. rewrite safety_of_section_throws. reflexivity.
Qed.

Lemma parseDataSafety_section_gives_null_witness :
  exists m,
    GooglePlay.first_match safetyPage GooglePlayPages.dataSafetySectionPatterns = Some m /\
    truthy (group m 1) = true /\
    GooglePlayPages.parseDataSafety (VStr safetyPage) = Ok VNull.
Proof.
  assert (E : exists m,
    GooglePlay.first_match safetyPage GooglePlayPages.dataSafetySectionPatterns = Some m /\
    truthy (group m 1) = true).
  { vm_compute. eexists. split; reflexivity. }
  destruct E as [m [Hm Ht]]. exists m.
  split; [exact Hm|split; [exact Ht|]].
  exact (parseDataSafety_section_gives_null safetyPage m Hm Ht).
Defined.

Lemma param_skip (k k' : string) (v d : value) (params : list (string * value)) :
  (k =? k') = false -> Urls.param ((k', v) :: params) k d = Urls.param params k d.
Proof. intros H. unfold Urls.param. simpl. rewrite H. reflexivity. Qed.

Lemma param_here (k : string) (v d : value) (params : list (string * value)) :
  v <> VUndefined -> Urls.param ((k, v) :: params) k d = v.
Proof.
  intros H. unfold Urls.param. simpl. rewrite String.eqb_refl.
  destruct v; try reflexivity. contradiction H; reflexivity.
Qed.

Lemma num_min_cap (z : Z) : (10 <= z)%Z -> Urls.num_min (ofZ z) (ofZ 10) = ofZ 10.
Proof.
  intros H. unfold Urls.num_min, ofZ, Qle_bool. simpl.
  destruct (Z.leb_spec (z * 1) 10) as [L|L]; [|reflexivity].
  replace z with 10%Z by lia. reflexivity.
Qed.

(** X9.  buildReviewsUrl of the App Store asks for page 10 whenever the page
    asked for is 10 or more. *)
Theorem appStore_buildReviewsUrl_page_cap (params : list (string * value)) (z : Z) :
  (10 <= z)%Z ->
  AppStoreUrls.buildReviewsUrl (("page", num z) :: params)
  = AppStoreUrls.buildReviewsUrl (("page", num 10) :: params).
Proof.
  intros H. unfold AppStoreUrls.buildReviewsUrl.
  rewrite !(param_skip "id" "page"), !(param_skip "appId" "page"),
    !(param_skip "country" "page"), !(param_skip "sort" "page") by reflexivity.
  rewrite !param_here by discriminate.
  cbn [to_number num Urls.conv]. rewrite (num_min_cap z H), (num_min_cap 10) by lia.
  reflexivity.
Qed.

Lemma appStore_buildReviewsUrl_page_cap_witness :
  (10 <= 25)%Z /\
  AppStoreUrls.buildReviewsUrl [("page", num 25); ("id", num 553834731)]
  = Urls.Url "https://itunes.apple.com/us/rss/customerreviews/page=10/id=553834731/sortby=mostRecent/json".
Proof.
  split; [lia|].
  rewrite (appStore_buildReviewsUrl_page_cap [("id", num 553834731)] 25); [|lia].
  vm_compute. reflexivity.
Defined.

(** X10.  buildReviewsUrl of Google Play does not depend on the page and the
    sort order it is given: two calls that differ only in these numbers build
    the same address. *)
Theorem googlePlay_buildReviewsUrl_ignores_page_and_sort (params : list (string * value))
    (page sort page' sort' : number) :
  GooglePlayUrls.buildReviewsUrl (("page", VNum page) :: ("sort", VNum sort) :: params)
  = GooglePlayUrls.buildReviewsUrl (("page", VNum page') :: ("sort", VNum sort') :: params).
Proof.
  unfold GooglePlayUrls.buildReviewsUrl.
  rewrite !(param_skip "appId" "page"), !(param_skip "appId" "sort"),
    !(param_skip "lang" "page"), !(param_skip "lang" "sort"),
    !(param_skip "country" "page"), !(param_skip "country" "sort"),
    !(param_skip "sort" "page") by reflexivity.
  rewrite !param_here by discriminate.
  reflexivity.
Qed.

(** X11.  buildListUrl of the App Store does not depend on the category and
    the genre it is given: two calls that differ only in these build the same
    address. *)
Theorem appStore_buildListUrl_ignores_category_and_genre (params : list (string * value))
    (category category' : value) (genre genre' : string) :
  AppStoreUrls.buildListUrl (("category", category) :: ("genre", VStr genre) :: params)
  = AppStoreUrls.buildListUrl (("category", category') :: ("genre", VStr genre') :: params).
Proof.
  unfold AppStoreUrls.buildListUrl.
  rewrite !(param_skip "country" "category"), !(param_skip "country" "genre"),
    !(param_skip "limit" "category"), !(param_skip "limit" "genre"),
    !(param_skip "chart" "category"), !(param_skip "chart" "genre"),
    !(param_skip "genre" "category") by reflexivity.
  rewrite !param_here by discriminate.
  destruct (Urls.param params "limit" (num 200)) eqn:L; cbn [call_toString Urls.conv];
    try reflexivity;
    destruct (to_string _); cbn [bind Urls.conv]; try reflexivity;
    destruct (to_string _); cbn [Urls.conv]; try reflexivity;
    destruct (negb _), (negb _); reflexivity.
Qed.

(** X12.  The App Store builders that take both identifiers never look at
    appId when id is given: buildAppUrl, buildRatingsUrl, buildReviewsUrl and
    buildSimilarUrl build the same address whatever appId is. *)
Theorem appStore_builders_prefer_id (params : list (string * value)) (id appId appId' : value) :
  truthy id = true ->
  let with_appId := fun a => ("id", id) :: ("appId", a) :: params in
  AppStoreUrls.buildAppUrl (with_appId appId) = AppStoreUrls.buildAppUrl (with_appId appId') /\
  AppStoreUrls.buildRatingsUrl (with_appId appId)
    = AppStoreUrls.buildRatingsUrl (with_appId appId') /\
  AppStoreUrls.buildReviewsUrl (with_appId appId)
    = AppStoreUrls.buildReviewsUrl (with_appId appId') /\
  AppStoreUrls.buildSimilarUrl (with_appId appId)
    = AppStoreUrls.buildSimilarUrl (with_appId appId').
Proof.
  intros T with_appId. subst with_appId.
  assert (Hid : id <> VUndefined) by (intros ->; discriminate T).
  unfold AppStoreUrls.buildRatingsUrl, AppStoreUrls.buildAppUrl,
    AppStoreUrls.buildReviewsUrl, AppStoreUrls.buildSimilarUrl.
  rewrite !(param_skip "appId" "id"), !(param_skip "country" "id"),
    !(param_skip "country" "appId"), !(param_skip "page" "id"), !(param_skip "page" "appId"),
    !(param_skip "sort" "id"), !(param_skip "sort" "appId") by reflexivity.
  rewrite !(param_here "id" id) by exact Hid. rewrite T. cbn [negb andb].
  repeat split; reflexivity.
Qed.

Lemma appStore_builders_prefer_id_witness :
  truthy (num 553834731) = true /\
  AppStoreUrls.buildAppUrl [("id", num 553834731); ("appId", VStr "com.example.app")]
  = AppStoreUrls.buildAppUrl [("id", num 553834731); ("appId", VNull)].
Proof.
  split; [reflexivity|].
  exact (proj1 (appStore_builders_prefer_id [] (num 553834731) (VStr "com.example.app") VNull
                  eq_refl)).
Defined.

(** X13.  parseCategories never throws and returns a list of strings that is
    either the fallback list or in strictly ascending order of code units,
    hence without repetition. *)
Theorem parseCategories_fallback_or_sorted (html : value) :
  exists l,
    GooglePlay.parseCategories html = Ok (GooglePlay.strings l) /\
    (l = GooglePlay.fallback_categories \/ strictly_sorted l = true).
Proof.
  assert (H : exists l, GooglePlay.parseCategories html = Ok (GooglePlay.strings l)).
  { unfold GooglePlay.parseCategories.
    destruct html as [| |b|n|s|items|fs]; try (exists []; reflexivity).
    destruct (s =? ""); [exists []; reflexivity|].
    match goal with
    | |- context [try_catch ?body _] => destruct body as [r|] eqn:B; cbn [try_catch]
    end; [|exists []; reflexivity].
    bind_as B categories Ec.
    destruct (List.length categories =? 0)%nat; injection B as <-; eexists; reflexivity. }
  destruct H as [l H]. exists l. split; [exact H|].
  exact (parseCategories_sorted_unless_fallback html l H).
Qed.

Lemma add_permission_inv (short : bool) (name : string) (type : value)
    (st : GooglePlay.perm_state) :
  perm_inv short st ->
  GooglePlay.seen_permission st name = false ->
  perm_inv short (GooglePlay.add_permission short name type st).
Proof.
  intros [names [F [S N]]] Hs. exists (names ++ [name])%list.
  unfold GooglePlay.add_permission. cbn [fst snd]. split; [|split].
  - apply Forall2_app; [exact F|]. constructor; [|constructor].
    destruct short; [reflexivity|exists type; reflexivity].
  - rewrite map_app, S. reflexivity.
  - apply NoDup_snoc; [exact N|]. intros Hin.
    apply str_in_In in Hin. unfold GooglePlay.seen_permission in Hs.
    rewrite Hs in Hin. discriminate Hin.
Qed.

Lemma guarded_add_inv (short : bool) (c : bool) (name : string) (type : value)
    (st st' : GooglePlay.perm_state) :
  perm_inv short st ->
  (if c && negb (GooglePlay.seen_permission st name)
   then Ok (GooglePlay.add_permission short name type st) else Ok st) = Ok st' ->
  perm_inv short st'.
Proof.
  intros H E. destruct (GooglePlay.seen_permission st name) eqn:S.
  - rewrite Bool.andb_false_r in E. injection E as <-. exact H.
  - destruct c; cbn [andb negb] in E; injection E as <-; [|exact H].
    apply add_permission_inv; assumption.
Qed.

Lemma permission_of_item_inv (short : bool) (st : GooglePlay.perm_state) (m : mres)
    (st' : GooglePlay.perm_state) :
  perm_inv short st -> GooglePlay.permission_of_item short st m = Ok st' -> perm_inv short st'.
Proof.
  intros H E. unfold GooglePlay.permission_of_item in E.
  bind_as E permHtml Eh. bind_as E permissionName En. bind_as E type Et.
  destruct permissionName; try (injection E as <-; exact H).
  eapply guarded_add_inv; eassumption.
Qed.

Lemma permissions_of_section_inv (short : bool) (html : string) (st : GooglePlay.perm_state)
    (p : regex) (st' : GooglePlay.perm_state) :
  perm_inv short st ->
  GooglePlay.permissions_of_section short html st p = Ok st' -> perm_inv short st'.
Proof.
  intros H E. unfold GooglePlay.permissions_of_section in E.
  destruct (smatch html p) as [sm|]; [|injection E as <-; exact H].
  bind_as E sectionHtml Es.
  eapply (foldM_inv (perm_inv short)); [|exact H|exact E].
  intros s x s' Hs Ex. cbv beta in Ex.
  eapply (foldM_inv (perm_inv short)); [|exact Hs|exact Ex].
  intros s0 x0 s0' Hs0 E0. exact (permission_of_item_inv short s0 x0 s0' Hs0 E0).
Qed.

Lemma permission_of_json_inv (short : bool) (st : GooglePlay.perm_state) (item : value)
    (st' : GooglePlay.perm_state) :
  perm_inv short st -> GooglePlay.permission_of_json short st item = Ok st' -> perm_inv short st'.
Proof.
  intros H E. unfold GooglePlay.permission_of_json in E.
  destruct item as [| |b|n|s|items|fs]; try (injection E as <-; exact H).
  - apply (guarded_add_inv short true s (VStr "") st st' H E).
  - bind_as E permName En. bind_as E permType Et.
    destruct (truthy permName); [|injection E as <-; exact H].
    bind_as E name Ename.
    apply (guarded_add_inv short true name permType st st' H E).
Qed.

Lemma permissions_of_array_inv (short : bool) (content : string) (st : GooglePlay.perm_state)
    (p : regex) (st' : GooglePlay.perm_state) :
  perm_inv short st ->
  GooglePlay.permissions_of_array short content st p = Ok st' -> perm_inv short st'.
Proof.
  intros H E. unfold GooglePlay.permissions_of_array in E.
  destruct (smatch content p) as [am|]; [|injection E as <-; exact H].
  bind_as E permData Ed. bind_as E st1 E1.
  assert (H1 : perm_inv short st1).
  { eapply (foldM_inv (perm_inv short)); [|exact H|exact E1].
    intros s x s' Hs Ex. cbv beta in Ex. bind_as Ex raw Er.
    rewrite <- Bool.andb_assoc in Ex.
    eapply guarded_add_inv; [exact Hs|].
    rewrite <- Bool.andb_assoc. exact Ex. }
  destruct (Json.parse ("[" ++ permData ++ "]")) as [[| | | | |items|]|];
    try (injection E as <-; exact H1).
  injection E as <-. apply forEach_caught_inv; [|exact H1].
  intros s x s' Hs Ex. exact (permission_of_json_inv short s x s' Hs Ex).
Qed.

Lemma permissions_of_script_inv (short : bool) (st : GooglePlay.perm_state) (m : mres)
    (st' : GooglePlay.perm_state) :
  perm_inv short st -> GooglePlay.permissions_of_script short st m = Ok st' -> perm_inv short st'.
Proof.
  intros H E. unfold GooglePlay.permissions_of_script in E.
  bind_as E content Ec.
  destruct (includes content "permission" || includes content "PERMISSION"
            || includes content "uses-permission"); [|injection E as <-; exact H].
  eapply (foldM_inv (perm_inv short)); [|exact H|exact E].
  intros s x s' Hs Ex. exact (permissions_of_array_inv short content s x s' Hs Ex).
Qed.

Lemma permission_of_meta_inv (short : bool) (st : GooglePlay.perm_state) (m : mres)
    (st' : GooglePlay.perm_state) :
  perm_inv short st -> GooglePlay.permission_of_meta short st m = Ok st' -> perm_inv short st'.
Proof.
  intros H E. unfold GooglePlay.permission_of_meta in E.
  bind_as E raw Er. eapply guarded_add_inv; eassumption.
Qed.

Lemma permission_of_text_inv (short : bool) (st : GooglePlay.perm_state) (m : mres)
    (st' : GooglePlay.perm_state) :
  perm_inv short st -> GooglePlay.permission_of_text short st m = Ok st' -> perm_inv short st'.
Proof.
  intros H E. unfold GooglePlay.permission_of_text in E.
  bind_as E raw Er. eapply guarded_add_inv; eassumption.
Qed.

(** X14.  parsePermissions never throws, and no two permissions it returns
    have the same name up to the case of letters; the short form returns the
    names as strings, the other form records with a permission and a type. *)
Theorem parsePermissions_distinct_names (html : value) (short : bool) :
  exists perms names,
    GooglePlay.parsePermissions html short = Ok (VArr perms) /\
    permissions_of short names perms /\
    NoDup (map toLowerCase names).
Proof.
  assert (Hnil : permissions_of short [] [] /\ NoDup (map toLowerCase []))
    by (split; constructor).
  destruct html as [| |b|n|s|items|fs];
    try (exists [], []; split; [reflexivity|exact Hnil]).
  unfold GooglePlay.parsePermissions.
  destruct (s =? ""); [exists [], []; split; [reflexivity|exact Hnil]|].
  match goal with
  | |- context [try_catch ?body _] => destruct body as [r|] eqn:B; cbn [try_catch]
  end; [|exists [], []; split; [reflexivity|exact Hnil]].
  bind_as B st1 E1. bind_as B st2 E2. bind_as B st3 E3. bind_as B st4 E4.
  injection B as <-.
  assert (H0 : perm_inv short ([], [])).
  { exists []. split; [constructor|split; [reflexivity|constructor]]. }
  assert (H1 : perm_inv short st1).
  { eapply (foldM_inv (perm_inv short)); [|exact H0|exact E1].
    intros st x st' Hs Ex. exact (permissions_of_section_inv short s st x st' Hs Ex). }
  assert (H2 : perm_inv short st2).
  { eapply (foldM_inv (perm_inv short)); [|exact H1|exact E2].
    intros st x st' Hs Ex. exact (permissions_of_script_inv short st x st' Hs Ex). }
  assert (H3 : perm_inv short st3).
  { eapply (foldM_inv (perm_inv short)); [|exact H2|exact E3].
    intros st x st' Hs Ex. exact (permission_of_meta_inv short st x st' Hs Ex). }
  assert (H4 : perm_inv short st4).
  { destruct (List.length (fst st3) <? 3)%nat; [|injection E4 as <-; exact H3].
    eapply (foldM_inv (perm_inv short)); [|exact H3|exact E4].
    intros st x st' Hs Ex. cbv beta in Ex.
    eapply (foldM_inv (perm_inv short)); [|exact Hs|exact Ex].
    intros st0 x0 st0' Hs0 E0. exact (permission_of_text_inv short st0 x0 st0' Hs0 E0). }
  destruct H4 as [names [F [S N]]].
  exists (fst st4), names. split; [reflexivity|split; [exact F|]].
  rewrite <- S. exact N.
Qed.

Lemma Qnum_Qred_pos (q : Q) : (0 < Qnum (Qred q))%Z <-> (0 < Qnum q)%Z.
Proof.
  assert (E := Qred_correct q). unfold Qeq in E.
  destruct (Qred q) as [n d], q as [n' d']. simpl in *.
  pose proof (Pos2Z.is_pos d) as Hd. pose proof (Pos2Z.is_pos d') as Hd'.
  split; intros H1.
  - apply (Z.mul_pos_cancel_r n' (Z.pos d) Hd). rewrite <- E.
    apply Z.mul_pos_pos; assumption.
  - apply (Z.mul_pos_cancel_r n (Z.pos d') Hd'). rewrite E.
    apply Z.mul_pos_pos; assumption.
Qed.

(** The comparator of the sort never puts each of two elements after the
    other. *)
Lemma priority_order_antisym (ka kb : number) :
  num_sign (num_sub kb ka) = Gt -> num_sign (num_sub ka kb) <> Gt.
Proof.
  destruct ka as [|x|p], kb as [|y|q]; try (simpl; discriminate).
  - destruct x, y; simpl; discriminate.
  - destruct x; simpl; discriminate.
  - destruct y; simpl; discriminate.
  - unfold num_sub, fin, num_sign. rewrite !Z.compare_gt_iff. intros H H'.
    apply (proj1 (Qnum_Qred_pos _)) in H. apply (proj1 (Qnum_Qred_pos _)) in H'.
    destruct p as [pn pd], q as [qn qd].
    unfold Qminus, Qplus, Qopp in H, H'. cbn [Qnum Qden] in H, H'.
    rewrite !Z.mul_opp_l in H, H'. lia.
Qed.

Lemma insert_sorted_chain {A : Type} (cmp : A -> A -> comparison) (x : A) (l : list A) :
  (forall a b, cmp a b = Gt -> cmp b a <> Gt) ->
  chain (fun a b => cmp a b <> Gt) l ->
  chain (fun a b => cmp a b <> Gt) (insert_sorted cmp x l).
Proof.
  intros Hanti. induction l as [|a l IH]; intros Hc; simpl; [exact I|].
  destruct (cmp x a) eqn:C.
  - split; [rewrite C; discriminate|exact Hc].
  - split; [rewrite C; discriminate|exact Hc].
  - destruct l as [|b l]; simpl.
    + split; [apply Hanti; exact C|exact I].
    + destruct Hc as [Hab Hc]. specialize (IH Hc). simpl in IH.
      destruct (cmp x b) eqn:C'.
      * split; [apply Hanti; exact C|exact IH].
      * split; [apply Hanti; exact C|exact IH].
      * split; [exact Hab|exact IH].
Qed.

Lemma sort_by_chain {A : Type} (cmp : A -> A -> comparison) (l : list A) :
  (forall a b, cmp a b = Gt -> cmp b a <> Gt) ->
  chain (fun a b => cmp a b <> Gt) (sort_by cmp l).
Proof.
  intros Hanti. unfold sort_by. induction l as [|a l IH]; simpl; [exact I|].
  apply insert_sorted_chain; assumption.
Qed.

Lemma num_leb_trans (a b c : number) :
  num_leb a b = true -> num_leb b c = true -> num_leb a c = true.
Proof.
  destruct a as [|x|p], b as [|y|q], c as [|z|r];
    try destruct x; try destruct y; try destruct z; simpl;
    try discriminate; try reflexivity.
  rewrite !Qle_bool_iff. apply Qle_trans.
Qed.

(** On numbers other than NaN, the comparator of the sort puts no element
    after a smaller one. *)
Lemma priority_order_leb (ka kb : number) :
  ka <> NaN -> kb <> NaN ->
  num_sign (num_sub kb ka) <> Gt -> num_leb kb ka = true.
Proof.
  destruct ka as [|x|p], kb as [|y|q]; intros Ha Hb;
    try (contradiction Ha; reflexivity); try (contradiction Hb; reflexivity).
  - destruct x, y; simpl; intros H; try reflexivity; contradiction H; reflexivity.
  - destruct x; simpl; intros H; try reflexivity. contradiction H; reflexivity.
  - destruct y; simpl; intros H; try reflexivity. contradiction H; reflexivity.
  - unfold num_sub, fin, num_sign, num_leb. rewrite Z.compare_gt_iff. intros H.
    assert (H' : ~ (0 < Qnum (Qminus q p))%Z).
    { intros C. apply H. apply Qnum_Qred_pos. exact C. }
    destruct p as [pn pd], q as [qn qd].
    unfold Qminus, Qplus, Qopp in H'. cbn [Qnum Qden] in H'.
    rewrite Z.mul_opp_l in H'.
    unfold Qle_bool. cbn [Qnum Qden]. apply Z.leb_le. lia.
Qed.

Lemma priority_key_number (x : value) (k : number) :
  number_priority x = true -> priority_key x = Ok k ->
  k = priority_number x /\ k <> NaN.
Proof.
  unfold number_priority, priority_key, priority_number.
  destruct (getp x "priority") as [[| | |n| | |]|]; try discriminate; intros _.
  - cbn. intros E. injection E as <-. split; [reflexivity|discriminate].
  - unfold or_else. cbn [bind truthy]. destruct (num_truthy n) eqn:T; cbn; intros E;
      injection E as <-; split; try reflexivity; try discriminate.
    intros ->. discriminate T.
Qed.

Lemma chain_strongly {A : Type} (R : A -> A -> Prop) (l : list A) :
  (forall a b c, R a b -> R b c -> R a c) -> chain R l -> strongly R l.
Proof.
  intros Ht. induction l as [|a l IH]; intros Hc; [exact I|].
  destruct l as [|b l]; [split; [constructor|exact I]|].
  destruct Hc as [Hab Hc]. specialize (IH Hc). destruct IH as [Hb Hs].
  split; [|split; assumption].
  constructor; [exact Hab|].
  eapply Forall_impl; [|exact Hb]. intros c Hbc. exact (Ht a b c Hab Hbc).
Qed.

Lemma chain_impl {A : Type} (P : A -> Prop) (R R' : A -> A -> Prop) (l : list A) :
  (forall a b, P a -> P b -> R a b -> R' a b) ->
  Forall P l -> chain R l -> chain R' l.
Proof.
  intros Hi. induction l as [|a l IH]; intros Hp Hc; [exact I|].
  destruct l as [|b l]; [exact I|].
  inversion Hp as [|? ? Pa Hp']; subst. inversion Hp' as [|? ? Pb _]; subst.
  destruct Hc as [Hab Hc]. split; [exact (Hi a b Pa Pb Hab)|exact (IH Hp' Hc)].
Qed.

Lemma strongly_map {A B : Type} (f : A -> B) (R : B -> B -> Prop) (l : list A) :
  strongly (fun a b => R (f a) (f b)) l -> strongly R (map f l).
Proof.
  induction l as [|a l IH]; simpl; [trivial|].
  intros [Ha Hs]. split; [|exact (IH Hs)].
  apply Forall_map. exact Ha.
Qed.

Lemma strongly_impl {A : Type} (P : A -> Prop) (R R' : A -> A -> Prop) (l : list A) :
  (forall a b, P a -> P b -> R a b -> R' a b) ->
  Forall P l -> strongly R l -> strongly R' l.
Proof.
  intros Hi. induction l as [|a l IH]; intros Hp Hs; [exact I|].
  inversion Hp as [|? ? Pa Hp']; subst. destruct Hs as [Ha Hs].
  split; [|exact (IH Hp' Hs)].
  rewrite Forall_forall in *. intros b Hb. exact (Hi a b Pa (Hp' b Hb) (Ha b Hb)).
Qed.

Lemma keyed_values (l : list value) (kl : list (number * value)) :
  mapM (fun x => bind (priority_key x) (fun k => Ok (k, x))) l = Ok kl ->
  map snd kl = l /\ Forall (fun p => priority_key (snd p) = Ok (fst p)) kl.
Proof.
  revert kl. induction l as [|x l IH]; intros kl E; simpl in E.
  - injection E as <-. split; [reflexivity|constructor].
  - bind_as E p Ep. bind_as E ps Eps. injection E as <-.
    bind_as Ep k Ek. injection Ep as <-.
    destruct (IH ps eq_refl) as [Hm Hf]. split; [simpl; rewrite Hm; reflexivity|].
    constructor; [exact Ek|exact Hf].
Qed.




(** When every suggestion has a number as priority, or none, the sort
    returns them in order of falling priority. *)
Lemma sort_by_priority_falling (l l' : list value) :
  sort_by_priority l = Ok l' ->
  Forall (fun x => number_priority x = true) l' ->
  falling l'.
Proof.
  intros E Hn. unfold sort_by_priority in E.
  destruct l as [|a [|b l]];
    try (injection E as <-; unfold falling; simpl; auto).
  cbv beta iota in E. bind_as E kl Ekl. injection E as <-.
  destruct (keyed_values _ _ Ekl) as [_ Hk].
  set (cmp := fun a0 b0 : number * value => num_sign (num_sub (fst b0) (fst a0))) in *.
  assert (Hks : Forall (fun p => priority_key (snd p) = Ok (fst p)) (sort_by cmp kl))
    by (apply sort_by_Forall; exact Hk).
  assert (Hp : Forall (fun p => fst p = priority_number (snd p) /\ fst p <> NaN)
                      (sort_by cmp kl)).
  { rewrite Forall_forall in *. intros p Hin.
    apply priority_key_number; [|exact (Hks p Hin)].
    apply Hn. apply in_map. exact Hin. }
  unfold falling. apply strongly_map.
  apply (strongly_impl (fun p => fst p = priority_number (snd p) /\ fst p <> NaN)
           (fun p q => num_leb (fst q) (fst p) = true)); [|exact Hp|].
  - intros p q [Ep _] [Eq _] H. rewrite <- Ep, <- Eq. exact H.
  - apply chain_strongly.
    + intros p q r H1 H2. exact (num_leb_trans _ _ _ H2 H1).
    + apply (chain_impl (fun p => fst p = priority_number (snd p) /\ fst p <> NaN)
               (fun p q => cmp p q <> Gt)); [|exact Hp|].
      * intros p q [_ Np] [_ Nq] H. exact (priority_order_leb _ _ Np Nq H).
      * apply sort_by_chain. intros p q. apply priority_order_antisym.
Qed.



(** X16.  For every value that is not a string (the parsed answer the
    server hands over), parseSuggest of Google Play never throws; and when
    every suggestion it returns has a number as priority, or none, they are
    in order of falling priority: no suggestion has a priority below that
    of a suggestion after it. *)
Theorem googlePlay_parseSuggest_falling_priority (data : value) :
  isString data = false ->
  exists l,
    GooglePlay.parseSuggest data = Ok (VArr l) /\
    (Forall (fun x => number_priority x = true) l -> falling l).
Proof.
  intros _. unfold GooglePlay.parseSuggest.
  destruct (negb (truthy data)); [exists []; split; [reflexivity|intros _; exact I]|].
  match goal with
  | |- context [try_catch ?body _] => destruct body as [r|] eqn:B; cbn [try_catch]
  end; [|exists []; split; [reflexivity|intros _; exact I]].
  bind_as B jsonData Ej. bind_as B suggestions Es. bind_as B out Eo. injection B as <-.
  exists out. split; [reflexivity|].
  exact (sort_by_priority_falling suggestions out Eo).
Qed.

Lemma googlePlay_parseSuggest_falling_priority_witness :
  isString sampleSuggestions = false /\
  GooglePlay.parseSuggest sampleSuggestions
  = Ok (VArr [ VObj [("term", VStr "music"); ("priority", num 5)];
               VObj [("term", VStr "maps"); ("priority", num 2)];
               VObj [("term", VStr "mail")] ]) /\
  falling [ VObj [("term", VStr "music"); ("priority", num 5)];
            VObj [("term", VStr "maps"); ("priority", num 2)];
            VObj [("term", VStr "mail")] ].
Proof.
  split; [reflexivity|].
  destruct (googlePlay_parseSuggest_falling_priority sampleSuggestions eq_refl)
    as [l [E F]].
  assert (E' : GooglePlay.parseSuggest sampleSuggestions
               = Ok (VArr [ VObj [("term", VStr "music"); ("priority", num 5)];
                            VObj [("term", VStr "maps"); ("priority", num 2)];
                            VObj [("term", VStr "mail")] ])).
  { vm_compute. reflexivity. }
  split; [exact E'|].
  rewrite E' in E. injection E as <-.
  apply F. repeat constructor.
Defined.

Lemma filterM_filter {A : Type} (f : A -> result bool) (g : A -> bool) :
  (forall x b, f x = Ok b -> b = g x) ->
  forall l l', filterM f l = Ok l' -> l' = filter g l.
Proof.
  intros Hf l. induction l as [|a l IH]; intros l' E; simpl in E.
  - injection E as <-. reflexivity.
  - bind_as E b Eb. bind_as E ys Ey. injection E as <-. simpl.
    rewrite <- (Hf a b Eb), <- (IH ys eq_refl). reflexivity.
Qed.

Lemma app_record_object (app r : value) :
  AppStore.app_record app = Ok r -> keys r = app_keys /\ exists fs, r = VObj fs.
Proof.
  intros E. unfold AppStore.app_record in E. apply object_keys in E.
  destruct E as [K [vs [-> _]]]. split; [exact K|exists vs; reflexivity].
Qed.

(** The records [parseApps] returns are those of the software results. *)
Lemma parseApps_filter_software (data : value) (items apps : list value) :
  getp data "results" = Ok (VArr items) ->
  AppStore.parseApps data = Ok apps ->
  Forall2 (fun app r => AppStore.app_record app = Ok r /\ keys r = app_keys)
          (filter is_software items) apps.
Proof.
  intros Hr H. unfold AppStore.parseApps in H.
  assert (Td : truthy data = true).
  { destruct data; simpl in Hr |- *; try discriminate Hr; reflexivity. }
  rewrite Td, Hr in H. cbn [negb bind truthy isArray orb as_array] in H.
  bind_as H software Es. bind_as H parsed Ep. injection H as <-.
  apply filterM_filter with (g := is_software) in Es.
  2:{ intros x b Ex. unfold is_software. cbv beta in Ex.
      destruct (getp x "kind") as [kind|] eqn:Ek; cbn [bind] in Ex; [|discriminate Ex].
      destruct (strict_eq kind (VStr "software")) eqn:Sk.
      - injection Ex as <-. destruct x; simpl in Ek |- *; try discriminate Ek; reflexivity.
      - destruct (getp x "wrapperType") as [wrapper|]; cbn [bind] in Ex; [|discriminate Ex].
        injection Ex as <-. reflexivity. }
  subst software.
  assert (Hs : Forall (fun app => is_software app = true) (filter is_software items)).
  { apply Forall_forall. intros x Hx. apply filter_In in Hx. apply Hx. }
  revert parsed Ep Hs. generalize (filter is_software items) as l.
  induction l as [|app l IH]; intros parsed Ep Hs; simpl in Ep.
  - injection Ep as <-. constructor.
  - bind_as Ep r Er. bind_as Ep rs Ers. injection Ep as <-.
    inversion Hs as [|? ? Ha Hl]; subst.
    change (AppStore.app_record app = Ok r) in Er.
    destruct (app_record_object app r Er) as [K [fs ->]].
    cbn [filter strict_eq negb]. constructor; [split; assumption|].
    exact (IH rs eq_refl Hl).
Qed.

(** X17.  parseApps returns the records of the results that are software, one
    for each and in their order; every record has the keys of the App Store
    record, so the filter that drops null afterwards drops nothing. *)
Theorem appStore_parseApps_software_results (data : value) (items apps : list value) :
  getp data "results" = Ok (VArr items) ->
  AppStore.parseApps data = Ok apps ->
  Forall2 (fun app r => AppStore.app_record app = Ok r /\ keys r = app_keys)
          (filter is_software items) apps.
Proof. exact (parseApps_filter_software data items apps). Qed.

Lemma appStore_parseApps_software_results_witness :
  getp sampleResults "results"
  = Ok (VArr [ VObj [("kind", VStr "software"); ("trackId", num 1)];
               VObj [("kind", VStr "song"); ("trackId", num 2)];
               VObj [("wrapperType", VStr "software"); ("trackId", num 3)] ]) /\
  exists apps,
    AppStore.parseApps sampleResults = Ok apps /\
    Forall2 (fun app r => AppStore.app_record app = Ok r /\ keys r = app_keys)
            [ VObj [("kind", VStr "software"); ("trackId", num 1)];
              VObj [("wrapperType", VStr "software"); ("trackId", num 3)] ]
            apps.
Proof.
  split; [reflexivity|].
  assert (E : exists apps, AppStore.parseApps sampleResults = Ok apps).
  { vm_compute. eexists. reflexivity. }
  destruct E as [apps E]. exists apps. split; [exact E|].
  exact (appStore_parseApps_software_results sampleResults _ apps eq_refl E).
Defined.

(** X22.  parseSearch counts what parseApps returns: when it returns for a
    results array, results holds one record per software result, count is
    their number, and total is the resultCount of the answer when that is
    truthy and count otherwise. *)
Theorem appStore_parseSearch_counts (data r : value) (items : list value) :
  getp data "results" = Ok (VArr items) ->
  AppStore.parseSearch data = Ok r ->
  exists apps resultCount,
    keys r = ["results"; "count"; "total"] /\
    field r "results" = Some (VArr apps) /\
    List.length apps = List.length (filter is_software items) /\
    field r "count" = Some (VNum (ofNat (List.length apps))) /\
    getp data "resultCount" = Ok resultCount /\
    field r "total" = Some (if truthy resultCount then resultCount
                            else VNum (ofNat (List.length apps))).
Proof.
  intros Hr H. unfold AppStore.parseSearch in H.
  bind_as H apps Ea.
  pose proof (parseApps_filter_software data items apps Hr Ea) as F.
  apply object_keys in H. destruct H as [K [vs [-> G]]].
  destruct (fields_assoc _ _ G "results" _ eq_refl) as [x [Hx Ax]].
  destruct (fields_assoc _ _ G "count" _ eq_refl) as [c [Hc Ac]].
  destruct (fields_assoc _ _ G "total" _ eq_refl) as [t [Ht At]].
  unfold ret in Hx, Hc, Ht. injection Hx as <-. injection Hc as <-.
  destruct (getp data "resultCount") as [resultCount|] eqn:Erc;
    [|discriminate Ht].
  rewrite or_else_ok in Ht. injection Ht as <-.
  exists apps, resultCount.
  repeat split; try assumption.
  symmetry. exact (Forall2_length F).
Qed.

Lemma appStore_parseSearch_counts_witness :
  getp sampleResults "results"
  = Ok (VArr [ VObj [("kind", VStr "software"); ("trackId", num 1)];
               VObj [("kind", VStr "song"); ("trackId", num 2)];
               VObj [("wrapperType", VStr "software"); ("trackId", num 3)] ]) /\
  exists r apps,
    AppStore.parseSearch sampleResults = Ok r /\
    field r "results" = Some (VArr apps) /\
    List.length apps = 2%nat /\
    field r "count" = Some (VNum (ofNat (List.length apps))).
Proof.
  split; [reflexivity|].
  assert (E : exists r, AppStore.parseSearch sampleResults = Ok r).
  { vm_compute. eexists. reflexivity. }
  destruct E as [r E].
  destruct (appStore_parseSearch_counts sampleResults r _ eq_refl E)
    as [apps [rc [_ [Hres [Hlen [Hcount _]]]]]].
  exists r, apps. repeat split; assumption.
Defined.

(** X18.  The record parseApp of Google Play returns has the 43 keys of the
    Google Play record; its price is 0 and its currency null when it is free,
    its price null and its currency USD when it is not; reviews repeats
    ratings, categoryId repeats category, requiresAndroid repeats
    androidVersionText, and url is the details page of appId. *)
Theorem googlePlay_parseApp_consistent (html : string) (fs : list (string * value)) :
  GooglePlay.parseApp (VStr html) = Ok (VObj fs) ->
  map fst fs = play_app_keys /\
  (exists free : bool,
     assoc "free" fs = Some (VBool free) /\
     assoc "price" fs = Some (if free then num 0 else VNull) /\
     assoc "currency" fs = Some (if free then VNull else VStr "USD")) /\
  assoc "reviews" fs = assoc "ratings" fs /\
  assoc "categoryId" fs = assoc "category" fs /\
  assoc "requiresAndroid" fs = assoc "androidVersionText" fs /\
  (exists appId url,
     assoc "appId" fs = Some appId /\
     assoc "url" fs = Some url /\
     GooglePlay.app_url appId = Ok url).
Proof.
  intros H. unfold GooglePlay.parseApp in H.
  destruct (html =? ""); [discriminate H|].
  match type of H with
  | try_catch ?body _ = _ => destruct body as [r|] eqn:B; cbn [try_catch] in H;
                             [|discriminate H]
  end.
  injection H as ->.
  bind_as B appData EappData. bind_as B appId EappId. bind_as B title Etitle.
  bind_as B developer Edev. bind_as B developerId EdevId.
  bind_as B priceText EpriceText. bind_as B priceStr EpriceStr.
  bind_as B rating Erating. bind_as B ratingCount EratingCount.
  bind_as B icon Eicon. bind_as B description Edesc.
  bind_as B version Eversion. bind_as B contentRating EcontentRating.
  bind_as B installs Einstalls. bind_as B size Esize.
  bind_as B androidVersionText EandroidText. bind_as B androidVersion Eandroid.
  bind_as B recentChanges Erecent. bind_as B category Ecategory.
  bind_as B updated Eupdated.
  unfold object in B. bind_as B vs F. injection B as <-.
  split; [exact (fields_keys _ _ F)|].
  field_of fields_assoc F "free". field_of fields_assoc F "price".
  field_of fields_assoc F "currency". field_of fields_assoc F "reviews".
  field_of fields_assoc F "ratings". field_of fields_assoc F "categoryId".
  field_of fields_assoc F "category". field_of fields_assoc F "requiresAndroid".
  field_of fields_assoc F "androidVersionText". field_of fields_assoc F "appId".
  destruct (fields_assoc _ _ F "url" _ eq_refl) as [url [Hu Au]].
  split; [eexists; repeat split; eassumption|].
  repeat split; try congruence.
  exists appId, url. repeat split; assumption.
Qed.

Lemma googlePlay_parseApp_consistent_witness :
  GooglePlay.parseApp (VStr bothSources) = Ok (VObj bothSourcesFields) /\
  map fst bothSourcesFields = play_app_keys /\
  assoc "reviews" bothSourcesFields = assoc "ratings" bothSourcesFields.
Proof.
  assert (E : GooglePlay.parseApp (VStr bothSources) = Ok (VObj bothSourcesFields)).
  { vm_compute. reflexivity. }
  split; [exact E|].
  destruct (googlePlay_parseApp_consistent bothSources bothSourcesFields E)
    as [K [_ [R _]]].
  split; [exact K|exact R].
Defined.

Lemma add_review_inv (key review : value) (st : GooglePlay.rev_state) :
  reviews_inv st -> play_review_shape review ->
  reviews_inv (GooglePlay.add_review key review st).
Proof.
  intros H Hr. unfold GooglePlay.add_review.
  destruct (set_has (snd st) key); [exact H|].
  unfold reviews_inv. cbn [fst]. apply Forall_snoc; assumption.
Qed.

Lemma push_if_new_inv (review : value) (st st' : GooglePlay.rev_state) :
  reviews_inv st -> review = VNull \/ play_review_shape review ->
  GooglePlay.push_if_new review st = Ok st' -> reviews_inv st'.
Proof.
  intros H [->|Hr] E; unfold GooglePlay.push_if_new in E.
  - injection E as <-. exact H.
  - destruct (truthy review); [|injection E as <-; exact H].
    bind_as E key Ek. injection E as <-. apply add_review_inv; assumption.
Qed.

Lemma userName_shape (es : list (string * result value)) (r : value) (e : result value) :
  object es = Ok r ->
  map fst es = play_review_keys ->
  entry_of "userName" es = Some e ->
  (forall name, e = Ok name -> truthy name = true) ->
  play_review_shape r.
Proof.
  intros E K He Ht. apply object_keys in E. destruct E as [Kr [vs [-> F]]].
  split; [rewrite Kr; exact K|].
  destruct (fields_assoc es vs F "userName" e He) as [name [Hn An]].
  exists name. split; [exact An|exact (Ht name Hn)].
Qed.

Lemma extractFromJsonLd_shape (jsonLd r : value) :
  GooglePlay.extractFromJsonLd jsonLd = Ok r -> r = VNull \/ play_review_shape r.
Proof.
  unfold GooglePlay.extractFromJsonLd. intros E.
  match type of E with
  | try_catch ?body _ = _ => destruct body as [x|] eqn:B; cbn [try_catch] in E
  end; injection E as <-; [right|left; reflexivity].
  eapply userName_shape; [exact B|reflexivity|reflexivity|].
  intros name Hn. eapply or_else_truthy; [exact Hn|]. intros y Hy.
  eapply or_else_truthy; [exact Hy|]. intros z Hz. injection Hz as <-. reflexivity.
Qed.

Lemma normalizeReview_shape (review r : value) :
  GooglePlay.normalizeReview review = Ok r -> r = VNull \/ play_review_shape r.
Proof.
  unfold GooglePlay.normalizeReview. intros E.
  destruct (negb (truthy review) || negb (typeof_object review));
    [injection E as <-; left; reflexivity|right].
  eapply userName_shape; [exact E|reflexivity|reflexivity|].
  intros name Hn.
  repeat (eapply or_else_truthy; [eassumption|]; intros ? ?).
  match goal with H : ret _ = Ok _ |- _ => injection H as <- end. reflexivity.
Qed.

Lemma review_of_jsonld_item_inv (st : GooglePlay.rev_state) (item : value)
    (st' : GooglePlay.rev_state) :
  reviews_inv st -> GooglePlay.review_of_jsonld_item st item = Ok st' -> reviews_inv st'.
Proof.
  intros H E. unfold GooglePlay.review_of_jsonld_item in E.
  bind_as E ty Et. bind_as E wanted Ew.
  destruct wanted; [|injection E as <-; exact H].
  bind_as E review Er.
  exact (push_if_new_inv review st st' H (extractFromJsonLd_shape item review Er) E).
Qed.

Lemma reviews_of_jsonld_inv (st : GooglePlay.rev_state) (m : mres) :
  reviews_inv st -> reviews_inv (GooglePlay.reviews_of_jsonld st m).
Proof.
  intros H. unfold GooglePlay.reviews_of_jsonld.
  match goal with
  | |- reviews_inv (match ?body with Ok _ => _ | Throw _ => _ end) =>
      destruct body as [st'|] eqn:B
  end; [|exact H].
  bind_as B jsonLd Ej. bind_as B ty Et. bind_as B listed El.
  destruct listed; [|injection B as <-; exact H].
  bind_as B reviewList Er. bind_as B items Ei. injection B as <-.
  apply forEach_caught_inv; [|exact H].
  intros s x s' Hs Ex. exact (review_of_jsonld_item_inv s x s' Hs Ex).
Qed.

Lemma review_of_json_item_inv (with_comment : bool) (st : GooglePlay.rev_state) (item : value)
    (st' : GooglePlay.rev_state) :
  reviews_inv st ->
  GooglePlay.review_of_json_item with_comment st item = Ok st' -> reviews_inv st'.
Proof.
  intros H E. unfold GooglePlay.review_of_json_item in E.
  destruct (truthy item); [|injection E as <-; exact H].
  bind_as E marked Em. destruct (truthy marked); [|injection E as <-; exact H].
  bind_as E review Er.
  exact (push_if_new_inv review st st' H (normalizeReview_shape item review Er) E).
Qed.

Lemma reviews_of_json_span_inv (st : GooglePlay.rev_state) (m : mres) :
  reviews_inv st -> reviews_inv (GooglePlay.reviews_of_json_span st m).
Proof.
  intros H. unfold GooglePlay.reviews_of_json_span.
  match goal with
  | |- reviews_inv (match ?body with Ok _ => _ | Throw _ => _ end) =>
      destruct body as [st'|] eqn:B
  end; [|exact H].
  bind_as B inner Ei. bind_as B jsonData Ej.
  destruct (isArray jsonData); [|injection B as <-; exact H].
  bind_as B items Eit. injection B as <-.
  apply forEach_caught_inv; [|exact H].
  intros s x s' Hs Ex. exact (review_of_json_item_inv true s x s' Hs Ex).
Qed.

Lemma review_of_listed_item_inv (st : GooglePlay.rev_state) (item : value)
    (st' : GooglePlay.rev_state) :
  reviews_inv st -> GooglePlay.review_of_listed_item st item = Ok st' -> reviews_inv st'.
Proof.
  intros H E. unfold GooglePlay.review_of_listed_item in E.
  bind_as E review Er.
  exact (push_if_new_inv review st st' H (normalizeReview_shape item review Er) E).
Qed.

Lemma reviews_of_json_script_inv (content : string) (st : GooglePlay.rev_state) :
  reviews_inv st -> reviews_inv (GooglePlay.reviews_of_json_script content st).
Proof.
  intros H. unfold GooglePlay.reviews_of_json_script.
  match goal with
  | |- reviews_inv (match ?body with Ok _ => _ | Throw _ => _ end) =>
      destruct body as [st'|] eqn:B
  end; [|exact H].
  bind_as B jsonData Ej.
  destruct (isArray jsonData).
  - bind_as B items Eit. injection B as <-.
    apply forEach_caught_inv; [|exact H].
    intros s x s' Hs Ex. exact (review_of_json_item_inv false s x s' Hs Ex).
  - bind_as B found Ef. destruct (truthy found); [|injection B as <-; exact H].
    bind_as B reviewList Er. bind_as B items Eit. injection B as <-.
    apply forEach_caught_inv; [|exact H].
    intros s x s' Hs Ex. exact (review_of_listed_item_inv s x s' Hs Ex).
Qed.

Lemma reviews_of_script_inv (st : GooglePlay.rev_state) (m : mres)
    (st' : GooglePlay.rev_state) :
  reviews_inv st -> GooglePlay.reviews_of_script st m = Ok st' -> reviews_inv st'.
Proof.
  intros H E. unfold GooglePlay.reviews_of_script in E.
  bind_as E content Ec.
  destruct (includes content "review" || includes content "rating"
            || includes content "_df_"); [|injection E as <-; exact H].
  assert (H1 : reviews_inv
                 (fold_left (fun st pattern =>
                    fold_left GooglePlay.reviews_of_json_span (matchAll content pattern) st)
                    GooglePlay.reviewJsonPatterns st)).
  { apply fold_left_inv; [|exact H]. intros s p Hs.
    apply fold_left_inv; [|exact Hs]. intros s0 x Hs0.
    exact (reviews_of_json_span_inv s0 x Hs0). }
  cbv zeta in E.
  destruct (startsWith (trim content) "{" || startsWith (trim content) "[");
    injection E as <-; [apply reviews_of_json_script_inv|]; exact H1.
Qed.

Lemma review_of_block_inv (st : GooglePlay.rev_state) (m : mres)
    (st' : GooglePlay.rev_state) :
  reviews_inv st -> GooglePlay.review_of_block st m = Ok st' -> reviews_inv st'.
Proof.
  intros H E. unfold GooglePlay.review_of_block in E.
  bind_as E reviewHtml Eh. bind_as E rating Er. bind_as E text0 Et.
  bind_as E author Ea. bind_as E date Ed. bind_as E reviewId Ei. bind_as E thumbsUp Eu.
  cbv zeta in E.
  destruct (truthy rating || _ || truthy author); [|injection E as <-; exact H].
  bind_as E reviewKey Ek. bind_as E review Erv. injection E as <-.
  apply add_review_inv; [exact H|].
  eapply userName_shape; [exact Erv|reflexivity|reflexivity|].
  intros name Hn. eapply or_else_truthy; [exact Hn|].
  intros z Hz. injection Hz as <-. reflexivity.
Qed.

(** X19.  parseReviews of Google Play never throws; every review in the data
    it returns has the fourteen keys of the review record, and a userName that
    is never empty or missing. *)
Theorem googlePlay_parseReviews_records (html : value) :
  exists data token,
    GooglePlay.parseReviews html = Ok (GooglePlay.reviews_result data token) /\
    Forall play_review_shape data.
Proof.
  destruct html as [| |b|n|s|items|fs];
    try (exists [], VNull; split; [reflexivity|constructor]).
  unfold GooglePlay.parseReviews.
  destruct (s =? ""); [exists [], VNull; split; [reflexivity|constructor]|].
  match goal with
  | |- context [try_catch ?body _] => destruct body as [r|] eqn:B; cbn [try_catch]
  end; [|exists [], VNull; split; [reflexivity|constructor]].
  cbv zeta in B. bind_as B st2 E2. bind_as B st3 E3. injection B as <-.
  exists (fst st3), (GooglePlay.nextToken s). split; [reflexivity|].
  assert (H1 : reviews_inv
                 (fold_left GooglePlay.reviews_of_jsonld
                    (matchAll s GooglePlay.jsonLdPattern) ([], []))).
  { apply fold_left_inv; [|constructor]. intros st x Hs.
    exact (reviews_of_jsonld_inv st x Hs). }
  assert (H2 : reviews_inv st2).
  { eapply (foldM_inv reviews_inv); [|exact H1|exact E2].
    intros st x st' Hs Ex. exact (reviews_of_script_inv st x st' Hs Ex). }
  eapply (foldM_inv reviews_inv); [|exact H2|exact E3].
  intros st p st' Hs Ex. cbv beta in Ex.
  eapply (foldM_inv reviews_inv); [|exact Hs|exact Ex].
  intros st0 x st0' Hs0 E0. exact (review_of_block_inv st0 x st0' Hs0 E0).
Qed.

(** Every pattern of the other parsers is inside the grammar that [re]
    reads. *)
Lemma more_patterns_well_formed : forallb well_formed more_patterns = true.
Proof. vm_compute. reflexivity. Qed.

Lemma app_record_returns (fs : list (string * value)) :
  exists r, AppStore.app_record (VObj fs) = Ok r /\ truthy r = true.
Proof.
  assert (H : returns (AppStore.app_record (VObj fs))).
  { unfold AppStore.app_record. apply returns_object.
    repeat constructor; cbn [snd getp bind];
      repeat first [ apply returns_or_else | apply returns_ret
                   | apply returns_object; repeat constructor; cbn [snd getp bind]
                   | eexists; reflexivity ]. }
  destruct H as [r E]. exists r. split; [exact E|].
  apply app_record_object in E. destruct E as [_ [vs ->]]. reflexivity.
Qed.

Lemma list_step_pushes (apps : list value) (entry raw : value) :
  AppStoreFeeds.rss_app entry = Ok raw ->
  exists r,
    AppStore.app_record raw = Ok r /\
    AppStoreFeeds.list_step apps entry = Ok (apps ++ [r])%list.
Proof.
  intros E. unfold AppStoreFeeds.list_step. rewrite E. cbn [bind].
  destruct (object_keys _ _ E) as [_ [fs [-> _]]].
  destruct (app_record_returns fs) as [r [Er Tr]].
  exists r. split; [exact Er|].
  change (AppStore.parseApp (VObj [("results", VArr [VObj fs])]))
    with (AppStore.app_record (VObj fs)).
  rewrite Er. cbn [bind]. rewrite Tr. reflexivity.
Qed.

Lemma forEach_list_step (entries : list value) :
  forall apps,
  exists more,
    forEach_caught AppStoreFeeds.list_step entries apps = (apps ++ more)%list /\
    Forall2 (fun e r => exists raw, AppStoreFeeds.rss_app e = Ok raw /\
                                    AppStore.app_record raw = Ok r)
            (readable_prefix entries) more.
Proof.
  induction entries as [|e entries IH]; intros apps; simpl.
  - exists []. split; [rewrite app_nil_r; reflexivity|constructor].
  - destruct (AppStoreFeeds.rss_app e) as [raw|] eqn:E.
    + destruct (list_step_pushes apps e raw E) as [r [Er Es]]. rewrite Es.
      destruct (IH (apps ++ [r])%list) as [more [Em F]].
      exists (r :: more). split.
      * rewrite Em, <- app_assoc. reflexivity.
      * constructor; [exists raw; split; assumption|exact F].
    + unfold AppStoreFeeds.list_step at 1. rewrite E. cbn [bind].
      exists []. split; [rewrite app_nil_r; reflexivity|constructor].
Qed.

(** X4.  parseList of the App Store stops at the first entry it cannot read:
    it returns one app for each entry before that one, in order, and nothing
    for the entries after it. *)
Theorem appStore_parseList_stops_at_unreadable_entry (data : value) (entries : list value) :
  getr (getp data "feed") "entry" = Ok (VArr entries) ->
  exists apps,
    AppStoreFeeds.parseList data = Ok (VArr apps) /\
    Forall2 (fun e r => exists raw, AppStoreFeeds.rss_app e = Ok raw /\
                                    AppStore.app_record raw = Ok r)
            (readable_prefix entries) apps.
Proof.
  intros H0. unfold getr in H0.
  destruct (getp data "feed") as [feed|] eqn:Ef; [|discriminate H0]. cbn [bind] in H0.
  assert (Td : truthy data = true).
  { destruct data; simpl in Ef |- *; try discriminate Ef; try reflexivity;
      injection Ef as <-; discriminate H0. }
  assert (Tf : truthy feed = true).
  { destruct feed; simpl in H0 |- *; try discriminate H0; reflexivity. }
  destruct (forEach_list_step entries []) as [more [E F]].
  exists more. split; [|exact F].
  unfold AppStoreFeeds.parseList, getr. rewrite Td, Ef. cbn [negb bind].
  rewrite Tf, H0. cbn [negb bind truthy isArray andb as_array]. rewrite E. reflexivity.
Qed.

Lemma appStore_parseList_stops_at_unreadable_entry_witness :
  getr (getp (rss_feed sampleRanking) "feed") "entry" = Ok (VArr sampleRanking) /\
  exists r,
    AppStoreFeeds.parseList (rss_feed sampleRanking) = Ok (VArr [r]) /\
    readable_prefix sampleRanking = [sampleRankingEntry].
Proof.
  split; [reflexivity|].
  destruct (appStore_parseList_stops_at_unreadable_entry (rss_feed sampleRanking)
              sampleRanking eq_refl) as [apps [E F]].
  assert (P : readable_prefix sampleRanking = [sampleRankingEntry])
    by (vm_compute; reflexivity).
  rewrite P in F. inversion F as [|e r l l' _ Hl]; subst. inversion Hl; subst.
  exists r. split; [exact E|reflexivity].
Defined.

Lemma category_record_keys (c r : value) :
  AppStoreFeeds.category_record c = Ok r -> keys r = privacy_category_keys.
Proof. intros E. apply object_keys in E. apply E. Qed.

Lemma privacyType_record_shape (t r : value) :
  AppStoreFeeds.privacyType_record t = Ok r -> privacy_type_shape r.
Proof.
  intros E. unfold AppStoreFeeds.privacyType_record in E.
  apply object_keys in E. destruct E as [K [vs [-> F]]]. split; [exact K|].
  destruct (fields_assoc _ _ F "dataCategories" _ eq_refl) as [cs [Hc Ac]].
  bind_as Hc categories Ecs. bind_as Hc items Ei. bind_as Hc out Eo.
  unfold ret in Hc. injection Hc as <-.
  exists out. split; [exact Ac|].
  eapply (mapM_Forall (fun _ => True)); [|apply Forall_forall; intros; exact I|exact Eo].
  intros x y _ Ey. exact (category_record_keys x y Ey).
Qed.

(** X5.  When parsePrivacy returns, it returns null or a record whose
    privacyTypes is an array of records with the five keys of a privacy type,
    each with an array of category records as dataCategories. *)
Theorem parsePrivacy_shape (data r : value) :
  AppStoreFeeds.parsePrivacy data = Ok r ->
  r = VNull \/
  (keys r = privacy_keys /\
   exists types,
     field r "privacyTypes" = Some (VArr types) /\ Forall privacy_type_shape types).
Proof.
  intros E. unfold AppStoreFeeds.parsePrivacy in E.
  destruct (negb (truthy data) || negb (typeof_object data));
    [injection E as <-; left; reflexivity|right].
  apply object_keys in E. destruct E as [K [vs [-> F]]]. split; [exact K|].
  destruct (fields_assoc _ _ F "privacyTypes" _ eq_refl) as [ts [Ht At]].
  bind_as Ht types Ets. bind_as Ht items Ei. bind_as Ht out Eo.
  unfold ret in Ht. injection Ht as <-.
  exists out. split; [exact At|].
  eapply (mapM_Forall (fun _ => True)); [|apply Forall_forall; intros; exact I|exact Eo].
  intros x y _ Ey. exact (privacyType_record_shape x y Ey).
Qed.

Lemma parsePrivacy_shape_witness :
  exists r,
    AppStoreFeeds.parsePrivacy samplePrivacy = Ok r /\
    keys r = privacy_keys /\
    exists types,
      field r "privacyTypes" = Some (VArr types) /\ Forall privacy_type_shape types.
Proof.
  assert (E : exists r, AppStoreFeeds.parsePrivacy samplePrivacy = Ok r /\ r <> VNull).
  { vm_compute. eexists. split; [reflexivity|discriminate]. }
  destruct E as [r [E N]]. exists r. split; [exact E|].
  destruct (parsePrivacy_shape samplePrivacy r E) as [->|H]; [contradiction N; reflexivity|].
  exact H.
Defined.

(** X21.  parseDataSafety never throws: it returns null, or a record with the
    keys dataShared, dataCollected, securityPractices and privacyPolicyUrl in
    which at least one list is not empty or the privacy policy address is
    truthy. *)
Theorem parseDataSafety_null_or_found (html : value) :
  GooglePlayPages.parseDataSafety html = Ok VNull \/
  exists shared collected practices url,
    GooglePlayPages.parseDataSafety html
    = Ok (VObj [ ("dataShared", VArr shared); ("dataCollected", VArr collected);
                 ("securityPractices", VArr practices); ("privacyPolicyUrl", url) ]) /\
    (shared <> [] \/ collected <> [] \/ practices <> [] \/ truthy url = true).
Proof.
  assert (Hl : forall l : list value, (0 <? List.length l)%nat = true -> l <> []).
  { intros l H ->. discriminate H. }
  destruct html as [| |b|n|s|items|fs]; try (left; reflexivity).
  unfold GooglePlayPages.parseDataSafety.
  destruct (s =? ""); [left; reflexivity|].
  match goal with
  | |- context [try_catch ?body _] => destruct body as [r|] eqn:B; cbn [try_catch]
  end; [|left; reflexivity].
  cbv zeta in B. bind_as B st2 E2. bind_as B st3 E3.
  destruct (0 <? List.length (GooglePlayPages.dataShared st3))%nat eqn:C1;
    [injection B as <-; right; do 4 eexists; split; [reflexivity|left; auto]|].
  destruct (0 <? List.length (GooglePlayPages.dataCollected st3))%nat eqn:C2;
    [injection B as <-; right; do 4 eexists; split; [reflexivity|right; left; auto]|].
  destruct (0 <? List.length (GooglePlayPages.securityPractices st3))%nat eqn:C3;
    [injection B as <-; right; do 4 eexists; split;
     [reflexivity|right; right; left; auto]|].
  destruct (truthy (GooglePlayPages.privacyPolicyUrl st3)) eqn:C4;
    cbn [orb] in B; injection B as <-; [right|left; reflexivity].
  do 4 eexists. split; [reflexivity|right; right; right; exact C4].
Qed.

(** X23.  fetchWithRetry gives up on server errors: when the first [retries +
    1] attempts are all answered by a server error or a rate limit, it makes
    no further attempt and throws the HTTP error of the last of them, after
    sleeping [retries] times, each delay one second longer than the one
    before. *)
Theorem fetchWithRetry_gives_up_on_server_errors (n : nat) :
  forall (errors : list HttpClient.outcome) (last : HttpClient.outcome)
         (later : list HttpClient.outcome),
  List.length errors = n ->
  Forall retryable errors -> retryable last ->
  exists status statusText,
    last = HttpClient.Responds false status statusText /\
    HttpClient.fetchWithRetry (errors ++ last :: later) (Z.of_nat n)
    = (HttpClient.Throws "Error" (HttpClient.http_message status statusText),
       delays_from (Z.of_nat n) n).
Proof.
  induction n as [|n IH]; intros errors last later Hl He Hlast.
  - destruct errors; [|discriminate Hl]. destruct last as [ok status text|]; [|contradiction].
    destruct Hlast as [-> Hs]. exists status, text. split; [reflexivity|].
    cbn [app HttpClient.fetchWithRetry negb]. rewrite Hs.
    change (0 <? Z.of_nat 0)%Z with false. rewrite !Bool.andb_false_r.
    cbn [String.eqb Ascii.eqb Bool.eqb orb]. reflexivity.
  - destruct errors as [|e errors]; [discriminate Hl|]. injection Hl as Hl.
    inversion He as [|? ? Hr He']; subst.
    destruct (IH errors last later eq_refl He' Hlast) as [status [text [-> E]]].
    exists status, text. split; [reflexivity|].
    destruct e as [ok st tx|]; [|contradiction]. destruct Hr as [-> Hs].
    cbn [app HttpClient.fetchWithRetry negb]. rewrite Hs.
    replace (0 <? Z.of_nat (S (List.length errors)))%Z with true
      by (symmetry; apply Z.ltb_lt; lia).
    cbn [andb].
    replace (Z.of_nat (S (List.length errors)) - 1)%Z with (Z.of_nat (List.length errors))
      by lia.
    rewrite E. cbn [delays_from].
    replace (Z.of_nat (S (List.length errors)) - 1)%Z with (Z.of_nat (List.length errors))
      by lia.
    reflexivity.
Qed.

Lemma fetchWithRetry_gives_up_on_server_errors_witness :
  List.length [HttpClient.Responds false 503 "Service Unavailable";
               HttpClient.Responds false 429 "Too Many Requests";
               HttpClient.Responds false 500 "Internal Server Error"] = 3%nat /\
  HttpClient.fetchWithRetry
    [HttpClient.Responds false 503 "Service Unavailable";
     HttpClient.Responds false 429 "Too Many Requests";
     HttpClient.Responds false 500 "Internal Server Error";
     HttpClient.Responds false 502 "Bad Gateway";
     HttpClient.Responds true 200 "OK"] HttpClient.MAX_RETRIES
  = (HttpClient.Throws "Error" "HTTP 502: Bad Gateway", [1000; 2000; 3000]%Z).
Proof.
  split; [reflexivity|].
  destruct (fetchWithRetry_gives_up_on_server_errors 3
              [HttpClient.Responds false 503 "Service Unavailable";
               HttpClient.Responds false 429 "Too Many Requests";
               HttpClient.Responds false 500 "Internal Server Error"]
              (HttpClient.Responds false 502 "Bad Gateway")
              [HttpClient.Responds true 200 "OK"] eq_refl)
    as [status [text [El E]]].
  - repeat constructor.
  - split; reflexivity.
  - injection El as <- <-. exact E.
Defined.

(** X24.  fetchWithRetry never gives up on timeouts: the test for an aborted
    request does not look at the retries left, so as long as every attempt is
    aborted by the timeout it sleeps and tries again, whatever the number of
    retries it started with, with a delay that grows by one second each time. *)
Theorem fetchWithRetry_retries_timeouts_forever (world : list HttpClient.outcome) :
  Forall timed_out world ->
  forall retries,
    HttpClient.fetchWithRetry world retries
    = (HttpClient.Waiting, delays_from retries (List.length world)).
Proof.
  induction 1 as [|o world Ho _ IH]; intros retries; [reflexivity|].
  destruct o as [|name message]; [contradiction|]. simpl in Ho. subst name.
  cbn [HttpClient.fetchWithRetry String.eqb Ascii.eqb Bool.eqb orb List.length delays_from].
  rewrite IH. reflexivity.
Qed.

Lemma fetchWithRetry_retries_timeouts_forever_witness :
  Forall timed_out (repeat (HttpClient.Rejects "AbortError" "This operation was aborted") 6) /\
  HttpClient.fetchWithRetry
    (repeat (HttpClient.Rejects "AbortError" "This operation was aborted") 6)
    HttpClient.MAX_RETRIES
  = (HttpClient.Waiting, [1000; 2000; 3000; 4000; 5000; 6000]%Z).
Proof.
  assert (H : Forall timed_out
                (repeat (HttpClient.Rejects "AbortError" "This operation was aborted") 6)).
  { repeat constructor. }
  split; [exact H|].
  exact (fetchWithRetry_retries_timeouts_forever _ H HttpClient.MAX_RETRIES).
Defined.
